(** * SatelliteETL: the ingestion and processing orchestrator

    A shallow embedding of the three services of the repository

      - [services/api-poller]  (poller.py, database.py, config.py, app.py),
      - [services/downloader]  (tasks.py, database.py, config.py, monitor.py,
        celery_app.py),
      - [services/processor]   (tasks.py, database.py, quality.py),

    and the properties of the pipeline they implement.

    Modelling conventions.

    - The PostgreSQL tables are lists of rows.  [file_manifest] has a
      unique index on [file_id] (the [ON CONFLICT (file_id)] clause of the
      insert relies on it); an [UPDATE ... WHERE file_id = %s] patches
      every row with that id.  Columns filled by [NOW()] are left out.
      Columns that the insert does not name are NULL ([None]).
    - Each row carries one ghost column, [status_history]: the status
      values written to that row, oldest first.
    - The database and the disk are taken to be available: a statement
      executes and commits, a removal removes.  The faults that are
      modelled are those that the code guards and that change what it
      goes on to do: in the poller's loop over the new files, the manifest
      insert that fails (the flag returned by [log_new_file] drives the
      enqueue decision) and the [send_task] that raises; in
      [download_file], whatever the guarded part raises, the fetch or the
      [send_task] that follows the update to DOWNLOADED.
    - Python exceptions are explicit.  A computation returns a result and
      the world it leaves behind; what was written before an exception is
      raised stays written.
    - Python floats (sizes, durations, percentages) are rationals.
    - A [datetime] of the discovery window is a number of microseconds;
      the sensing timestamp of a product is carried as its ISO text, which
      is what the task payload holds ([isoformat] in the poller,
      [fromisoformat] in the workers).
    - The catalog, the download of the product files and the scientific
      transform are outside the repository; a run of each is described by
      a record of what it returned, raised and left on disk.
    - The Celery runtime (delivery, [self.retry], [autoretry_for],
      [on_failure]) is modelled after Celery's documented behaviour.  The
      soft time limit is the exception [SoftTimeLimitExceeded] raised in
      the task; the hard limit kills the worker process and is outside
      the model. *)

From Stdlib Require Import List String Ascii ZArith QArith Qminmax Bool Lia Arith Lqa.
Import ListNotations.

Local Open Scope string_scope.
Local Open Scope list_scope.
Local Open Scope Z_scope.

Set Implicit Arguments.

(* ===================================================================== *)
(** ** Python exceptions                                                 *)
(* ===================================================================== *)

Module Py.

(** The exception classes that occur in the services.  All of them are
    subclasses of [Exception]. *)
Inductive exn_class :=
| SoftTimeLimitExceeded
| RequestException
| IOError
| ValueError
| NameError
| KeyError
| IndexError
| RuntimeError
| OperationalError.

Record exn := Exn { exn_cls : exn_class; exn_msg : string }.

(** [str(e)] *)
Definition str (e : exn) : string := exn_msg e.

(** What unwinds the stack: an exception, or the [Retry] signal that
    [self.retry] returns for the task body to raise. *)
Inductive raised :=
| Exc (e : exn)
| RetrySignal (exc : exn) (countdown : Z).

Inductive result (A : Type) :=
| Ret (a : A)
| Raise (r : raised).
Arguments Ret {A} a.
Arguments Raise {A} r.

Definition is_soft_timeout (e : exn) : bool :=
  match exn_cls e with SoftTimeLimitExceeded => true | _ => false end.

(** [l[i]], with Python's negative indices; [None] is an [IndexError]. *)
Definition index {A} (l : list A) (i : Z) : option A :=
  let n := Z.of_nat (List.length l) in
  if 0 <=? i then nth_error l (Z.to_nat i)
  else if 0 <=? n + i then nth_error l (Z.to_nat (n + i))
  else None.

End Py.

(* ===================================================================== *)
(** ** The manifest, the logs, the disk and the queues                    *)
(* ===================================================================== *)

Module Store.

Inductive Status :=
| QUEUED | DOWNLOADING | RETRY | DOWNLOADED | FAILED
| PROCESSING | COMPLETE | SKIPPED | PROCESSING_FAILED.

(** A row of [file_manifest]. *)
Record FileRecord := {
  file_id : string;
  timestamp : string;
  satellite : string;
  product_type : string;
  status : Status;
  file_size_mb : Q;
  download_attempt : option Z;
  processing_attempt : option Z;
  error_message : option string;
  skip_reason : option string;
  raw_file_path : option string;
  output_file_path : option string;
  quality_score : option Q;
  missing_data_pct : option Q;
  saturation_pct : option Q;
  mean_solar_zenith : option Q;
  download_duration_sec : option Q;
  processing_duration_sec : option Q;
  status_history : list Status   (* ghost *)
}.

Inductive QueryStatus := SUCCESS | QUERY_FAILED.

(** A row of [api_query_log]. *)
Record QueryLogRow := {
  files_found : Z;
  files_new : Z;
  query_duration_sec : Q;
  query_status : QueryStatus;
  query_error : option string
}.

(** A row of [processing_metrics]. *)
Record MetricRow := {
  metric_file_id : string;
  metric_stage : string;
  metric_duration : Q;
  metric_ok : bool;
  metric_error : option string
}.

(** The payload of [tasks.download_file]. *)
Record DownloadTaskData := {
  dl_file_id : string;
  dl_timestamp : string;
  dl_satellite : string;
  dl_size_mb : Q;
  dl_collection_id : string;
  dl_product_id : string
}.

(** The payload of [tasks.process_file]. *)
Record ProcessTaskData := {
  pr_file_id : string;
  pr_file_path : string;
  pr_main_file : string;
  pr_timestamp : string;
  pr_satellite : string
}.

Inductive node_kind := Directory | RegularFile.

Definition Disk := list (string * node_kind).

Record World := {
  file_manifest : list FileRecord;
  api_query_log : list QueryLogRow;
  processing_metrics : list MetricRow;
  disk : Disk;
  download_queue : list DownloadTaskData;
  processing_queue : list ProcessTaskData;
  searches : list (Z * Z)       (* ghost: the windows sent to the catalog *)
}.

Definition empty_world : World :=
  {| file_manifest := []; api_query_log := []; processing_metrics := [];
     disk := []; download_queue := []; processing_queue := [];
     searches := [] |}.

Definition set_manifest (m : list FileRecord) (w : World) : World :=
  {| file_manifest := m; api_query_log := api_query_log w;
     processing_metrics := processing_metrics w; disk := disk w;
     download_queue := download_queue w;
     processing_queue := processing_queue w; searches := searches w |}.

Definition set_query_log (l : list QueryLogRow) (w : World) : World :=
  {| file_manifest := file_manifest w; api_query_log := l;
     processing_metrics := processing_metrics w; disk := disk w;
     download_queue := download_queue w;
     processing_queue := processing_queue w; searches := searches w |}.

Definition set_metrics (l : list MetricRow) (w : World) : World :=
  {| file_manifest := file_manifest w; api_query_log := api_query_log w;
     processing_metrics := l; disk := disk w;
     download_queue := download_queue w;
     processing_queue := processing_queue w; searches := searches w |}.

Definition set_disk (d : Disk) (w : World) : World :=
  {| file_manifest := file_manifest w; api_query_log := api_query_log w;
     processing_metrics := processing_metrics w; disk := d;
     download_queue := download_queue w;
     processing_queue := processing_queue w; searches := searches w |}.

Definition set_download_queue (q : list DownloadTaskData) (w : World) : World :=
  {| file_manifest := file_manifest w; api_query_log := api_query_log w;
     processing_metrics := processing_metrics w; disk := disk w;
     download_queue := q;
     processing_queue := processing_queue w; searches := searches w |}.

Definition set_processing_queue (q : list ProcessTaskData) (w : World) : World :=
  {| file_manifest := file_manifest w; api_query_log := api_query_log w;
     processing_metrics := processing_metrics w; disk := disk w;
     download_queue := download_queue w;
     processing_queue := q; searches := searches w |}.

Definition set_searches (s : list (Z * Z)) (w : World) : World :=
  {| file_manifest := file_manifest w; api_query_log := api_query_log w;
     processing_metrics := processing_metrics w; disk := disk w;
     download_queue := download_queue w;
     processing_queue := processing_queue w; searches := s |}.

(** [SELECT ... FROM file_manifest WHERE file_id = %s] *)
Definition rows_of (fid : string) (m : list FileRecord) : list FileRecord :=
  filter (fun r => String.eqb (file_id r) fid) m.

Definition has_row (fid : string) (m : list FileRecord) : bool :=
  existsb (fun r => String.eqb (file_id r) fid) m.

(** [UPDATE file_manifest SET ... WHERE file_id = %s] *)
Definition update_rows (fid : string) (set : FileRecord -> FileRecord)
           (m : list FileRecord) : list FileRecord :=
  map (fun r => if String.eqb (file_id r) fid then set r else r) m.

(** *** The file system *)

(** [os.path.exists] *)
Definition path_exists (p : string) (d : Disk) : bool :=
  existsb (fun e => String.eqb (fst e) p) d.

(** [os.path.isdir] *)
Definition isdir (p : string) (d : Disk) : bool :=
  existsb (fun e => String.eqb (fst e) p &&
                    match snd e with Directory => true | RegularFile => false end) d.

(** [os.makedirs(p, exist_ok=True)], on a path that no file takes; the
    parent directories, which it makes too, are not listed. *)
Definition makedirs (p : string) (d : Disk) : Disk :=
  if isdir p d then d else d ++ [(p, Directory)].

Definition under (dir p : string) : bool :=
  String.eqb p dir || String.prefix (dir ++ "/")%string p.

(** [shutil.rmtree]: the directory and everything below it. *)
Definition rmtree (dir : string) (d : Disk) : Disk :=
  filter (fun e => negb (under dir (fst e))) d.

(** [os.remove] *)
Definition remove (p : string) (d : Disk) : Disk :=
  filter (fun e => negb (String.eqb (fst e) p)) d.

End Store.

(* ===================================================================== *)
(** ** services/api-poller                                                *)
(* ===================================================================== *)

Module PollerDatabase.
Import Store.

(** [Database.is_file_processed] *)
Definition is_file_processed (fid : string) (w : World) : bool :=
  has_row fid (file_manifest w).

Definition new_record (fid ts sat ptype : string) (size : Q) : FileRecord :=
  {| file_id := fid; timestamp := ts; satellite := sat;
     product_type := ptype; status := QUEUED; file_size_mb := size;
     download_attempt := None; processing_attempt := None;
     error_message := None; skip_reason := None;
     raw_file_path := None; output_file_path := None;
     quality_score := None; missing_data_pct := None;
     saturation_pct := None; mean_solar_zenith := None;
     download_duration_sec := None; processing_duration_sec := None;
     status_history := [QUEUED] |}.

(** [Database.log_new_file]:
    [INSERT ... VALUES (..., 'QUEUED', ...) ON CONFLICT (file_id) DO
    NOTHING RETURNING id]; the result is whether a row came back.
    [db_error] is a driver error: rollback, [False]. *)
Definition log_new_file (db_error : bool) (fid ts sat ptype : string)
           (size : Q) (w : World) : bool * World :=
  if db_error then (false, w)
  else if has_row fid (file_manifest w) then (false, w)
  else (true, set_manifest (file_manifest w ++ [new_record fid ts sat ptype size]) w).

(** [Database.log_api_query] *)
Definition log_api_query (found new : Z) (duration : Q)
           (st : QueryStatus) (err : option string) (w : World) : World :=
  set_query_log
    (api_query_log w ++
       [{| files_found := found; files_new := new;
           query_duration_sec := duration; query_status := st;
           query_error := err |}]) w.

End PollerDatabase.

Module Poller.
Import Store PollerDatabase.

(** The metadata that [_extract_product_metadata] builds. *)
Record FileMeta := {
  meta_file_id : string;
  meta_timestamp : string;
  meta_satellite : string;
  meta_product_type : string;
  meta_size_mb : Q;
  meta_product_id : string;
  meta_collection_id : string
}.

(** The [polling] section of the configuration, which is taken to be
    there; [None] is a key that the section does not give, or gives as
    null.  (In a file without the section the lookup of either key
    raises before the query is made.) *)
Record PollingConfig := {
  lookback_minutes : option Z;
  min_age_hours : option Z
}.

(** [config.get(key, default)] *)
Definition config_get (v : option Z) (default : Z) : Z :=
  match v with Some x => x | None => default end.

(** [timedelta(hours=h)] and [timedelta(minutes=m)], in microseconds. *)
Definition timedelta_hours (h : Z) : Z := h * 3600000000.
Definition timedelta_minutes (m : Z) : Z := m * 60000000.

(** The window of [query_new_files]: [(dtstart, dtend)]. *)
Definition search_window (cfg : PollingConfig) (now : Z) : Z * Z :=
  let lookback := config_get (lookback_minutes cfg) 30 in
  let min_age := config_get (min_age_hours cfg) 1 in
  let dtend := now - timedelta_hours min_age in
  let dtstart := dtend - timedelta_minutes lookback in
  (dtstart, dtend).

(** What the catalog did with one search: it raised (in the call, in
    [total_results] or while the results were iterated), or it gave a
    total and the products; a product is the metadata extracted from it,
    [None] when the extraction failed. *)
Inductive SearchOutcome :=
| SearchRaises (err : string)
| SearchResults (total_results : Z) (products : list (option FileMeta)).

(** One discovery cycle as the environment presents it. *)
Record Cycle := {
  now : Z;
  response : SearchOutcome;
  query_duration : Q;
  insert_error : nat -> bool;   (* the n-th manifest insert of the cycle fails *)
  broker_error : nat -> bool    (* the n-th send_task of the cycle fails *)
}.

Fixpoint extracted (ps : list (option FileMeta)) : list FileMeta :=
  match ps with
  | [] => []
  | Some m :: ps' => m :: extracted ps'
  | None :: ps' => extracted ps'
  end.

(** [EUMETSATPoller.query_new_files] *)
Definition query_new_files (cfg : PollingConfig) (c : Cycle) (w : World)
  : list FileMeta * World :=
  let win := search_window cfg (now c) in
  let w := set_searches (searches w ++ [win]) w in
  match response c with
  | SearchResults total products =>
      if total =? 0 then ([], w)
      else
        let file_list := extracted products in
        (file_list, log_api_query total 0 (query_duration c) SUCCESS None w)
  | SearchRaises err =>
      ([], log_api_query 0 0 (query_duration c) QUERY_FAILED (Some err) w)
  end.

(** [EUMETSATPoller.filter_new_files] *)
Definition filter_new_files (file_list : list FileMeta) (w : World) : list FileMeta :=
  filter (fun m => negb (is_file_processed (meta_file_id m) w)) file_list.

Definition task_of (m : FileMeta) : DownloadTaskData :=
  {| dl_file_id := meta_file_id m; dl_timestamp := meta_timestamp m;
     dl_satellite := meta_satellite m; dl_size_mb := meta_size_mb m;
     dl_collection_id := meta_collection_id m;
     dl_product_id := meta_product_id m |}.

(** [celery_app.send_task('tasks.download_file', ..., queue='download_queue')] *)
Definition send_download (t : DownloadTaskData) (w : World) : World :=
  set_download_queue (download_queue w ++ [t]) w.

(** [EUMETSATPoller.enqueue_downloads]; [i] counts the loop iterations.
    The result is [enqueued_count] and the world. *)
Fixpoint enqueue_downloads_from (c : Cycle) (i : nat) (file_list : list FileMeta)
         (w : World) : Z * World :=
  match file_list with
  | [] => (0, w)
  | m :: rest =>
      let '(success, w1) :=
        log_new_file (insert_error c i) (meta_file_id m) (meta_timestamp m)
                     (meta_satellite m) (meta_product_type m) (meta_size_mb m) w in
      if success then
        if broker_error c i then
          (* send_task raised: caught and logged, nothing counted *)
          enqueue_downloads_from c (S i) rest w1
        else
          let '(n, w2) := enqueue_downloads_from c (S i) rest (send_download (task_of m) w1) in
          (n + 1, w2)
      else enqueue_downloads_from c (S i) rest w1
  end.

Definition enqueue_downloads (c : Cycle) (file_list : list FileMeta) (w : World)
  : Z * World :=
  enqueue_downloads_from c 0 file_list w.

(** [EUMETSATPoller.poll] *)
Definition poll (cfg : PollingConfig) (c : Cycle) (w : World) : World :=
  let '(all_files, w1) := query_new_files cfg c w in
  match all_files with
  | [] => w1
  | _ =>
      match filter_new_files all_files w1 with
      | [] => w1
      | new_files => snd (enqueue_downloads c new_files w1)
      end
  end.

(** The scheduler runs one [poll] per cycle ([scheduled_poll] in app.py
    catches whatever [poll] lets through and returns). *)
Definition run_cycles (cfg : PollingConfig) (cs : list Cycle) (w : World) : World :=
  fold_left (fun w c => poll cfg c w) cs w.

End Poller.

(* ===================================================================== *)
(** ** Computations of the workers                                        *)
(* ===================================================================== *)

Module Task.
Import Py Store.

(** A computation runs in a world, returns or raises, and leaves a
    world. *)
Definition M (A : Type) : Type := World -> result A * World.

Definition ret {A} (a : A) : M A := fun w => (Ret a, w).

Definition bind {A B} (c : M A) (k : A -> M B) : M B :=
  fun w =>
    match c w with
    | (Ret a, w') => k a w'
    | (Raise r, w') => (Raise r, w')
    end.

Definition raise {A} (r : raised) : M A := fun w => (Raise r, w).

(** A statement that only changes the world. *)
Definition exec (f : World -> World) : M unit := fun w => (Ret tt, f w).

(** A test of the world. *)
Definition test (f : World -> bool) : M bool := fun w => (Ret (f w), w).

(** [try: body except ...: handler].  The except clauses of one [try]
    are one handler that dispatches on the exception; what a clause
    raises is not caught by its sibling.  The [Retry] signal is only
    ever raised from inside the handlers, never from a guarded body, so
    the clauses have exceptions to catch and nothing else. *)
Definition try_except {A} (body : M A) (handler : exn -> M A) : M A :=
  fun w =>
    match body w with
    | (Raise (Exc e), w') => handler e w'
    | other => other
    end.

Definition when (b : bool) (c : M unit) : M unit := if b then c else ret tt.

Module Notations.
Notation "x <- c ;; k" := (bind c (fun x => k))
  (at level 61, c at next level, right associativity).
Notation "c ;; k" := (bind c (fun _ => k))
  (at level 61, right associativity).
Notation "' pat <- c ;; k" :=
  (bind c (fun x => match x with pat => k end))
  (at level 61, pat pattern, c at next level, right associativity).
End Notations.

End Task.

(* ===================================================================== *)
(** ** The Celery runtime of a bound task                                 *)
(* ===================================================================== *)

Module Celery.
Import Py Store Task.

(** [self.retry(exc=exc, countdown=countdown)] on a request that has
    been retried [retries] times: the [Retry] signal while retries are
    left, [exc] itself once [max_retries] is reached.  The caller raises
    what it gets. *)
Definition self_retry (max_retries retries : nat) (exc : exn) (countdown : Z) : raised :=
  if (retries <? max_retries)%nat then RetrySignal exc countdown else Exc exc.

(** How a delivery chain of a task ends. *)
Inductive Final (R : Type) :=
| Succeeded (r : R)          (* the body returned *)
| Failure (e : exn).         (* an exception left the body: [on_failure] ran *)
Arguments Succeeded {R} r.
Arguments Failure {R} e.

Record Outcome (R : Type) := {
  final : Final R;
  after : World;
  deliveries : nat             (* how many times the body ran *)
}.

Section Runtime.

Variables P R : Type.
Variable max_retries : nat.
Variable autoretry_for : exn -> bool.
(** The task body on a request retried [retries] times. *)
Variable body : nat -> P -> M R.
Variable on_failure : exn -> P -> World -> World.

(** A delivery chain.  A body that returns ends it; the [Retry]
    signal has the broker deliver the task again with [retries + 1]
    (the countdown is waiting time, which is not modelled); an
    exception of [autoretry_for] is turned into [self.retry(exc=exc)]
    by the task wrapper; any other exception, and the one
    [self.retry] raises when the retries are used up, fails the task
    and runs [on_failure]. *)
Fixpoint deliver (fuel retries : nat) (payload : P) (w : World)
  : option (Outcome R) :=
  match fuel with
  | O => None
  | S fuel' =>
      let again w' :=
        match deliver fuel' (S retries) payload w' with
        | Some o => Some {| final := final o; after := after o;
                            deliveries := S (deliveries o) |}
        | None => None
        end in
      match body retries payload w with
      | (Ret r, w') =>
          Some {| final := Succeeded r; after := w'; deliveries := 1 |}
      | (Raise (RetrySignal _ _), w') => again w'
      | (Raise (Exc e), w') =>
          if autoretry_for e then
            match self_retry max_retries retries e 0 with
            | RetrySignal _ _ => again w'
            | Exc e' =>
                Some {| final := Failure e'; after := on_failure e' payload w';
                        deliveries := 1 |}
            end
          else
            Some {| final := Failure e; after := on_failure e payload w';
                    deliveries := 1 |}
      end
  end.

End Runtime.

End Celery.

(* ===================================================================== *)
(** ** services/downloader                                                *)
(* ===================================================================== *)

Module DownloaderDatabase.
Import Store.

(** A column is set only when the keyword argument is not [None]. *)
Definition patch {A} (arg : option A) (old : option A) : option A :=
  match arg with Some v => Some v | None => old end.

Definition patch_download (st : Status) (attempt : option Z)
           (error : option string) (file_path : option string)
           (duration : option Q) (r : FileRecord) : FileRecord :=
  {| file_id := file_id r; timestamp := timestamp r; satellite := satellite r;
     product_type := product_type r;
     status := st;
     file_size_mb := file_size_mb r;
     download_attempt := patch attempt (download_attempt r);
     processing_attempt := processing_attempt r;
     error_message := patch error (error_message r);
     skip_reason := skip_reason r;
     raw_file_path := patch file_path (raw_file_path r);
     output_file_path := output_file_path r;
     quality_score := quality_score r;
     missing_data_pct := missing_data_pct r;
     saturation_pct := saturation_pct r;
     mean_solar_zenith := mean_solar_zenith r;
     download_duration_sec := patch duration (download_duration_sec r);
     processing_duration_sec := processing_duration_sec r;
     status_history := status_history r ++ [st] |}.

(** [Database.update_download_status]:
    [UPDATE file_manifest SET status = %s, ... WHERE file_id = %s]. *)
Definition update_download_status (fid : string) (st : Status)
           (attempt : option Z) (error : option string)
           (file_path : option string) (duration : option Q)
           (w : World) : World :=
  set_manifest
    (update_rows fid (patch_download st attempt error file_path duration)
                 (file_manifest w)) w.

(** [Database.log_download_metrics] *)
Definition log_download_metrics (fid stage : string) (duration : Q)
           (ok : bool) (error : option string) (w : World) : World :=
  set_metrics
    (processing_metrics w ++
       [{| metric_file_id := fid; metric_stage := stage;
           metric_duration := duration; metric_ok := ok;
           metric_error := error |}]) w.

End DownloaderDatabase.

Module DownloaderTasks.
Import Py Store Task Task.Notations Celery DownloaderDatabase.

(** [max_retries=3] of the task decorator. *)
Definition max_retries : nat := 3.

(** [autoretry_for = (requests.RequestException, IOError)] *)
Definition autoretry_for (e : exn) : bool :=
  match exn_cls e with
  | RequestException | IOError => true
  | _ => false
  end.

(** [s.endswith(suffix)] *)
Definition endswith (s suffix : string) : bool :=
  let n := String.length s in
  let k := String.length suffix in
  (k <=? n)%nat && String.eqb (substring (n - k) k s) suffix.

(** What the guarded part of [download_file] met on one attempt: the
    files it downloaded, or the exception that stopped it; what it did
    to the disk; the time spent; and, for an attempt that gets as far as
    [celery_app.send_task], the exception that the call raises, if it
    does (the broker cannot be reached, or the soft time limit strikes
    there). *)
Inductive FetchOutcome :=
| Fetched (downloaded_files : list string)
| FetchRaised (e : exn).

Record FetchRun := {
  fetch_outcome : FetchOutcome;
  fetch_disk : Disk -> Disk;
  fetch_seconds : Q;
  send_raises : option exn
}.

(** The result dictionary of [download_file]. *)
Inductive DownloadResult :=
| DownloadSuccess (file_path : string) (files_downloaded : nat) (duration : Q)
| DownloadFailed (error : string) (attempts : Z).

(** [shutil.rmtree] as the downloader's tasks.py sees it: the module
    has no [import shutil], so evaluating the name raises. *)
Definition shutil_rmtree (p : string) : M unit :=
  raise (Exc (Exn NameError "name 'shutil' is not defined")).

(** [celery_app.send_task('tasks.process_file', args=[...],
    queue='processing_queue')]: the broker takes the task, or the call
    raises. *)
Definition send_task (run : FetchRun) (t : ProcessTaskData) : M unit :=
  match send_raises run with
  | Some e => raise (Exc e)
  | None => exec (fun w => set_processing_queue (processing_queue w ++ [t]) w)
  end.

(** [retry_delays[min(attempt - 1, len(retry_delays) - 1)]] *)
Definition countdown_for (retry_delays : list Z) (attempt : Z) : M Z :=
  match index retry_delays
              (Z.min (attempt - 1) (Z.of_nat (List.length retry_delays) - 1)) with
  | Some d => ret d
  | None => raise (Exc (Exn IndexError "list index out of range"))
  end.

Section Tasks.

(** [dt.strftime('%Y/%m/%d')] and [dt.strftime('%Y%m%d_%H%M%S')] of the
    datetime that the payload's timestamp denotes. *)
Variables strftime_ymd strftime_stamp : string -> string.

(** [config.get('download.retry_delay_seconds', [60, 300, 900])] *)
Variable retry_delay_seconds : option (list Z).

Definition retry_delays : list Z :=
  match retry_delay_seconds with Some l => l | None => [60; 300; 900] end.

Definition output_dir_of (timestamp : string) : string :=
  ("/raw/" ++ strftime_ymd timestamp ++ "/"
     ++ strftime_stamp timestamp ++ "_MSG_HRSEVIRI")%string.

(** [DownloadTask.on_failure] *)
Definition on_failure (exc : exn) (task_data : DownloadTaskData) (w : World) : World :=
  update_download_status (dl_file_id task_data) FAILED None (Some (str exc)) None None w.

(** The guarded part of [download_file] up to the database update:
    the collaborator's run, then the search for the main file. *)
Definition fetch_product (run : FetchRun) : M (list string * string) :=
  exec (fun w => set_disk (fetch_disk run (disk w)) w) ;;
  match fetch_outcome run with
  | FetchRaised e => raise (Exc e)
  | Fetched downloaded_files =>
      match filter (fun f => endswith f ".nat") downloaded_files with
      | [] => raise (Exc (Exn ValueError "No .nat file found in downloaded product"))
      | main_file :: _ => ret (downloaded_files, main_file)
      end
  end.

(** The clause [except SoftTimeLimitExceeded:] of [download_file]. *)
Definition on_soft_timeout (retries : nat) (task_data : DownloadTaskData)
  : M DownloadResult :=
  let file_id := dl_file_id task_data in
  let attempt := Z.of_nat retries + 1 in
  let output_dir := output_dir_of (dl_timestamp task_data) in
  there <- test (fun w => path_exists output_dir (disk w)) ;;
  when there (shutil_rmtree output_dir) ;;
  exec (update_download_status file_id RETRY None
          (Some "Download timed out") None None) ;;
  countdown <- countdown_for retry_delays attempt ;;
  raise (self_retry max_retries retries (Exn SoftTimeLimitExceeded EmptyString) countdown).

(** The clause [except Exception as e:] of [download_file]. *)
Definition on_exception (retries : nat) (task_data : DownloadTaskData)
           (run : FetchRun) (e : exn) : M DownloadResult :=
  let file_id := dl_file_id task_data in
  let attempt := Z.of_nat retries + 1 in
  let output_dir := output_dir_of (dl_timestamp task_data) in
  there <- test (fun w => path_exists output_dir (disk w)) ;;
  when there (shutil_rmtree output_dir) ;;
  exec (log_download_metrics file_id "download" (fetch_seconds run)
          false (Some (str e))) ;;
  if attempt <? 3 then
    exec (update_download_status file_id RETRY None (Some (str e)) None None) ;;
    countdown <- countdown_for retry_delays attempt ;;
    raise (self_retry max_retries retries e countdown)
  else
    exec (update_download_status file_id FAILED None
            (Some ("Max retries reached: " ++ str e)%string) None None) ;;
    ret (DownloadFailed (str e) attempt).

(** [download_file], on a request that has been retried [retries]
    times. *)
Definition download_file (retries : nat) (task_data : DownloadTaskData)
           (run : FetchRun) : M DownloadResult :=
  let file_id := dl_file_id task_data in
  let timestamp := dl_timestamp task_data in
  let attempt := Z.of_nat retries + 1 in
  exec (update_download_status file_id DOWNLOADING (Some attempt) None None None) ;;
  let output_dir := output_dir_of timestamp in
  exec (fun w => set_disk (makedirs output_dir (disk w)) w) ;;
  try_except
    ('(downloaded_files, main_file) <- fetch_product run ;;
     let download_duration := fetch_seconds run in
     exec (update_download_status file_id DOWNLOADED None None
             (Some output_dir) (Some download_duration)) ;;
     exec (log_download_metrics file_id "download" download_duration true None) ;;
     send_task run
       {| pr_file_id := file_id; pr_file_path := output_dir;
          pr_main_file := main_file; pr_timestamp := timestamp;
          pr_satellite := dl_satellite task_data |} ;;
     ret (DownloadSuccess output_dir (List.length downloaded_files)
                          download_duration))
    (fun e =>
       if is_soft_timeout e then on_soft_timeout retries task_data
       else on_exception retries task_data run e).

(** The delivery chain of a download task; [runs n] is what the
    attempt on [retries = n] meets. *)
Definition run_download (task_data : DownloadTaskData)
           (runs : nat -> FetchRun) (w : World)
  : option (Outcome DownloadResult) :=
  deliver max_retries autoretry_for
          (fun retries task_data => download_file retries task_data (runs retries))
          on_failure (S max_retries) 0 task_data w.

End Tasks.

End DownloaderTasks.

(* ===================================================================== *)
(** ** services/processor                                                 *)
(* ===================================================================== *)

Module Quality.

(** A value that numpy computes from the scene, or the message of the
    exception the computation raised. *)
Inductive computed (A : Type) :=
| Value (a : A)
| Throws (msg : string).
Arguments Value {A} a.
Arguments Throws {A} msg.

(** What [assess] reads from a satpy scene. *)
Record Scene := {
  (** [scene['HRV'].values] and the share of NaN pixels, in percent *)
  hrv_missing_pct : computed Q;
  (** ['solar_zenith_angle' in scene] and [np.nanmean] of it *)
  solar_zenith_angle : option (computed Q);
  (** the share of pixels above the saturation threshold, in percent *)
  hrv_saturation_pct : computed Q
}.

(** The dictionary that [assess] returns. *)
Record QualityResult := {
  skip : bool;
  skip_reason : option string;
  quality_score : Q;
  missing_data_pct : Q;
  saturation_pct : Q;
  mean_solar_zenith : option Q
}.

Record QualityConfig := {
  max_missing_percentage : option Q;   (* quality.max_missing_percentage *)
  min_solar_zenith : option Q          (* quality.min_solar_zenith *)
}.

Definition config_get (v : option Q) (default : Q) : Q :=
  match v with Some x => x | None => default end.

(** [a > b] *)
Definition Qgtb (a b : Q) : bool := negb (Qle_bool a b).

Section Assess.

(** [f'{x:.1f}'] *)
Variable fmt_1f : Q -> string.

Variable config : QualityConfig.

Definition max_missing_pct : Q := config_get (max_missing_percentage config) 50.
Definition max_solar_zenith : Q := config_get (min_solar_zenith config) 85.

(** The [except Exception] clause of [assess]. *)
Definition check_error (result : QualityResult) (msg : string) : QualityResult :=
  {| skip := true;
     skip_reason := Some ("QUALITY_CHECK_ERROR: " ++ msg)%string;
     quality_score := quality_score result;
     missing_data_pct := missing_data_pct result;
     saturation_pct := saturation_pct result;
     mean_solar_zenith := mean_solar_zenith result |}.

(** Check 3 and the score. *)
Definition assess_saturation (scene : Scene) (missing_pct : Q)
           (result : QualityResult) : QualityResult :=
  match hrv_saturation_pct scene with
  | Throws msg => check_error result msg
  | Value saturation =>
      {| skip := skip result; skip_reason := skip_reason result;
         quality_score := Qmax 0 (100 - missing_pct);
         missing_data_pct := missing_data_pct result;
         saturation_pct := saturation;
         mean_solar_zenith := mean_solar_zenith result |}
  end.

(** [QualityAssessment.assess] *)
Definition assess (scene : Scene) : QualityResult :=
  let result :=
    {| skip := false; skip_reason := None; quality_score := 100;
       missing_data_pct := 0; saturation_pct := 0;
       mean_solar_zenith := None |} in
  match hrv_missing_pct scene with
  | Throws msg => check_error result msg
  | Value missing_pct =>
      let result :=
        {| skip := false; skip_reason := None; quality_score := 100;
           missing_data_pct := missing_pct; saturation_pct := 0;
           mean_solar_zenith := None |} in
      if Qgtb missing_pct max_missing_pct then
        {| skip := true;
           skip_reason :=
             Some ("EXCESSIVE_MISSING_DATA (" ++ fmt_1f missing_pct ++ "%)")%string;
           quality_score := 0;
           missing_data_pct := missing_pct; saturation_pct := 0;
           mean_solar_zenith := None |}
      else
        match solar_zenith_angle scene with
        | Some (Throws msg) => check_error result msg
        | Some (Value mean_sza) =>
            let result :=
              {| skip := false; skip_reason := None; quality_score := 100;
                 missing_data_pct := missing_pct; saturation_pct := 0;
                 mean_solar_zenith := Some mean_sza |} in
            if Qgtb mean_sza max_solar_zenith then
              {| skip := true;
                 skip_reason :=
                   Some ("NIGHTTIME_IMAGE (SZA=" ++ fmt_1f mean_sza ++ "Â°)")%string;
                 quality_score := 0;
                 missing_data_pct := missing_pct; saturation_pct := 0;
                 mean_solar_zenith := Some mean_sza |}
            else assess_saturation scene missing_pct result
        | None => assess_saturation scene missing_pct result
        end
  end.

End Assess.

End Quality.

Module ProcessorDatabase.
Import Store.

Definition patch {A} (arg : option A) (old : option A) : option A :=
  match arg with Some v => Some v | None => old end.

Definition patch_processing (st : Status) (attempt : option Z)
           (error skip_reason output_path : option string)
           (quality_score missing_data_pct saturation_pct
              mean_solar_zenith processing_duration : option Q)
           (r : FileRecord) : FileRecord :=
  {| file_id := file_id r; timestamp := timestamp r; satellite := satellite r;
     product_type := product_type r;
     status := st;
     file_size_mb := file_size_mb r;
     download_attempt := download_attempt r;
     processing_attempt := patch attempt (processing_attempt r);
     error_message := patch error (error_message r);
     skip_reason := patch skip_reason (Store.skip_reason r);
     raw_file_path := raw_file_path r;
     output_file_path := patch output_path (output_file_path r);
     quality_score := patch quality_score (Store.quality_score r);
     missing_data_pct := patch missing_data_pct (Store.missing_data_pct r);
     saturation_pct := patch saturation_pct (Store.saturation_pct r);
     mean_solar_zenith := patch mean_solar_zenith (Store.mean_solar_zenith r);
     download_duration_sec := download_duration_sec r;
     processing_duration_sec := patch processing_duration (processing_duration_sec r);
     status_history := status_history r ++ [st] |}.

(** [Database.update_processing_status]:
    [UPDATE file_manifest SET status = %s, ... WHERE file_id = %s]. *)
Definition update_processing_status (fid : string) (st : Status)
           (attempt : option Z)
           (error skip_reason output_path : option string)
           (quality_score missing_data_pct saturation_pct
              mean_solar_zenith processing_duration : option Q)
           (w : World) : World :=
  set_manifest
    (update_rows fid
       (patch_processing st attempt error skip_reason output_path
          quality_score missing_data_pct saturation_pct
          mean_solar_zenith processing_duration)
       (file_manifest w)) w.

(** [Database.log_processing_metrics] *)
Definition log_processing_metrics (fid stage : string) (duration : Q)
           (ok : bool) (error : option string) (w : World) : World :=
  set_metrics
    (processing_metrics w ++
       [{| metric_file_id := fid; metric_stage := stage;
           metric_duration := duration; metric_ok := ok;
           metric_error := error |}]) w.

End ProcessorDatabase.

Module ProcessorTasks.
Import Py Store Task Task.Notations Celery ProcessorDatabase Quality.

(** The stages of the transform that follow the quality gate. *)
Inductive Stage := Calibration | Reprojection | Subsetting | WriteNetcdf.

Definition Stage_eqb (a b : Stage) : bool :=
  match a, b with
  | Calibration, Calibration | Reprojection, Reprojection
  | Subsetting, Subsetting | WriteNetcdf, WriteNetcdf => true
  | _, _ => false
  end.

Definition stage_name (s : Stage) : string :=
  match s with
  | Calibration => "calibration"
  | Reprojection => "reprojection"
  | Subsetting => "subsetting"
  | WriteNetcdf => "write_netcdf"
  end.

(** One run of the transform as the task meets it:
    what [converter.load_nat_file] returned (it catches its own errors
    and returns [None]); the first later stage that raises, if any, and
    the exception, which is [SoftTimeLimitExceeded] when the soft time
    limit strikes there; the times measured. *)
Record TransformRun := {
  loaded : option Scene;
  stops_at : option (Stage * exn);
  stage_seconds : string -> Q;
  total_seconds : Q
}.

(** The result dictionary of [process_file]. *)
Inductive ProcessResult :=
| Skipped (reason : option string)
| Processed (output_path : string) (duration score : Q)
| TimedOut
| Errored (error : string).

(** [shutil.rmtree] in the processor's tasks.py, which imports shutil. *)
Definition shutil_rmtree (p : string) : M unit :=
  exec (fun w => set_disk (rmtree p (disk w)) w).

(** [os.remove] *)
Definition os_remove (p : string) : M unit :=
  exec (fun w => set_disk (remove p (disk w)) w).

(** [cleanup_file] *)
Definition cleanup_file (filepath : string) : M unit :=
  is_dir <- test (fun w => isdir filepath (disk w)) ;;
  if is_dir then shutil_rmtree filepath
  else
    there <- test (fun w => path_exists filepath (disk w)) ;;
    when there (os_remove filepath).

(** [ProcessingTask.on_failure] *)
Definition on_failure (exc : exn) (task_data : ProcessTaskData) (w : World) : World :=
  update_processing_status (pr_file_id task_data) PROCESSING_FAILED None
    (Some (str exc)) None None None None None None None w.

Section Tasks.

Variables strftime_ymd strftime_stamp : string -> string.
Variable fmt_1f : Q -> string.
Variable config : QualityConfig.

(** [generate_output_path] *)
Definition generate_output_path (timestamp : string) : M string :=
  let output_dir := ("/processed/" ++ strftime_ymd timestamp)%string in
  exec (fun w => set_disk (makedirs output_dir (disk w)) w) ;;
  ret (output_dir ++ "/" ++ strftime_stamp timestamp ++ "_HRV_Paris.nc")%string.

(** A stage of the transform: it raises if the run stops there. *)
Definition stage (run : TransformRun) (s : Stage) : M unit :=
  match stops_at run with
  | Some (s', e) => if Stage_eqb s s' then raise (Exc e) else ret tt
  | None => ret tt
  end.

(** [converter.write_netcdf]: the stage, then the file is there. *)
Definition write_netcdf (run : TransformRun) (output_path : string) : M unit :=
  stage run WriteNetcdf ;;
  exec (fun w =>
          set_disk (if path_exists output_path (disk w) then disk w
                    else disk w ++ [(output_path, RegularFile)]) w).

Definition log_stage (run : TransformRun) (file_id name : string) : M unit :=
  exec (log_processing_metrics file_id name (stage_seconds run name) true None).

(** [process_file] *)
Definition process_file (task_data : ProcessTaskData) (run : TransformRun)
  : M ProcessResult :=
  let file_id := pr_file_id task_data in
  let input_path := pr_file_path task_data in
  let timestamp := pr_timestamp task_data in
  exec (update_processing_status file_id PROCESSING (Some 1)
          None None None None None None None None) ;;
  try_except
    ((* Step 1: load *)
     scene <- match loaded run with
              | Some scene => ret scene
              | None => raise (Exc (Exn ValueError "Failed to load .nat file"))
              end ;;
     log_stage run file_id "load_nat" ;;
     (* Step 2: quality assessment *)
     let quality_result := assess fmt_1f config scene in
     log_stage run file_id "quality_check" ;;
     if skip quality_result then
       exec (update_processing_status file_id SKIPPED None None
               (Quality.skip_reason quality_result) None
               (Some (Quality.quality_score quality_result))
               (Some (Quality.missing_data_pct quality_result))
               None
               (Quality.mean_solar_zenith quality_result)
               (Some (total_seconds run))) ;;
       cleanup_file input_path ;;
       ret (Skipped (Quality.skip_reason quality_result))
     else
       (* Steps 3 to 5 *)
       stage run Calibration ;;
       log_stage run file_id "calibration" ;;
       stage run Reprojection ;;
       log_stage run file_id "reprojection" ;;
       stage run Subsetting ;;
       log_stage run file_id "subsetting" ;;
       (* Step 6: write the output *)
       output_path <- generate_output_path timestamp ;;
       write_netcdf run output_path ;;
       log_stage run file_id "write_netcdf" ;;
       let total_duration := total_seconds run in
       exec (update_processing_status file_id COMPLETE None None None
               (Some output_path)
               (Some (Quality.quality_score quality_result))
               (Some (Quality.missing_data_pct quality_result))
               (Some (Quality.saturation_pct quality_result))
               (Quality.mean_solar_zenith quality_result)
               (Some total_duration)) ;;
       (* Step 7: cleanup *)
       cleanup_file input_path ;;
       ret (Processed output_path total_duration
                      (Quality.quality_score quality_result)))
    (fun e =>
       if is_soft_timeout e then
         (* except SoftTimeLimitExceeded: *)
         exec (update_processing_status file_id PROCESSING_FAILED None
                 (Some "Processing timeout") None None None None None None None) ;;
         cleanup_file input_path ;;
         ret TimedOut
       else
         (* except Exception as e: *)
         exec (log_processing_metrics file_id "processing" (total_seconds run)
                 false (Some (str e))) ;;
         exec (update_processing_status file_id PROCESSING_FAILED None
                 (Some (str e)) None None None None None None
                 (Some (total_seconds run))) ;;
         cleanup_file input_path ;;
         ret (Errored (str e))).

(** The delivery chain of a processing task.  The decorator gives
    neither [max_retries] (Celery's default is 3) nor
    [autoretry_for]. *)
Definition max_retries : nat := 3.

Definition run_process (task_data : ProcessTaskData)
           (runs : nat -> TransformRun) (w : World)
  : option (Outcome ProcessResult) :=
  deliver max_retries (fun _ => false)
          (fun retries task_data => process_file task_data (runs retries))
          on_failure (S max_retries) 0 task_data w.

End Tasks.

End ProcessorTasks.

(* ===================================================================== *)
(** ** The pipeline of one record                                         *)
(* ===================================================================== *)

Module Pipeline.
Import Store Poller Celery.

(** The processing tasks sent between two worlds. *)
Definition sent_since (before after : World) : list ProcessTaskData :=
  skipn (List.length (processing_queue before)) (processing_queue after).

Section Lifecycle.

Variables strftime_ymd strftime_stamp : string -> string.
Variable retry_delay_seconds : option (list Z).
Variable fmt_1f : Q -> string.
Variable config : Quality.QualityConfig.

(** The life of the record of one descriptor when every task is
    delivered once: the poller inserts the record and sends the download
    task; the download worker runs its delivery chain; if that sent a
    processing task, the processing worker runs it. *)
Definition lifecycle (c : Cycle) (m : FileMeta)
           (fetches : nat -> DownloaderTasks.FetchRun)
           (transforms : nat -> ProcessorTasks.TransformRun)
           (w : World) : option World :=
  let '(enqueued, w1) := enqueue_downloads c [m] w in
  if enqueued =? 0 then Some w1
  else
    match DownloaderTasks.run_download strftime_ymd strftime_stamp retry_delay_seconds
            (task_of m) fetches w1 with
    | None => None
    | Some o =>
        match sent_since w1 (after o) with
        | [] => Some (after o)
        | task :: _ =>
            match ProcessorTasks.run_process strftime_ymd strftime_stamp fmt_1f config
                    task transforms (after o) with
            | Some o' => Some (after o')
            | None => None
            end
        end
    end.

End Lifecycle.

End Pipeline.

(* ===================================================================== *)
(** ** The vocabulary of the properties                                   *)
(* ===================================================================== *)

Module Spec.
Import Store Poller.

(** How many rows of the manifest have the id. *)
Definition count_rows (fid : string) (w : World) : nat :=
  List.length (rows_of fid (file_manifest w)).

(** The download tasks that carry the id. *)
Definition tasks_of (fid : string) (w : World) : list DownloadTaskData :=
  filter (fun t => String.eqb (dl_file_id t) fid) (download_queue w).

Definition count_tasks (fid : string) (w : World) : nat :=
  List.length (tasks_of fid w).

(** The id is among the files that the cycle's query returns. *)
Definition found_in (fid : string) (c : Cycle) : bool :=
  match response c with
  | SearchResults total products =>
      negb (total =? 0) &&
      existsb (fun m => String.eqb (meta_file_id m) fid) (extracted products)
  | SearchRaises _ => false
  end.

Definition discovered (fid : string) (cs : list Cycle) : bool :=
  existsb (found_in fid) cs.

(** No manifest insert of the cycle meets a database error. *)
Definition inserts_succeed (c : Cycle) : Prop :=
  forall i, insert_error c i = false.

(** A row as the insert of the poller leaves it. *)
Definition freshly_queued (r : FileRecord) : Prop :=
  status r = QUEUED /\ status_history r = [QUEUED].

(** What discovery may add to a world: rows with ids that had no row,
    one row per id, and tasks for some of the added rows, one per id. *)
Definition grows (w w' : World) : Prop :=
  exists rows tasks,
    file_manifest w' = file_manifest w ++ rows /\
    download_queue w' = download_queue w ++ tasks /\
    NoDup (map file_id rows) /\
    (forall r, In r rows ->
               has_row (file_id r) (file_manifest w) = false /\ freshly_queued r) /\
    NoDup (map dl_file_id tasks) /\
    incl (map dl_file_id tasks) (map file_id rows).

(** Two worlds with the same manifest and the same download queue. *)
Definition same_tables (w1 w2 : World) : Prop :=
  file_manifest w1 = file_manifest w2 /\ download_queue w1 = download_queue w2.

(** The row that a failed catalog call leaves in the query log. *)
Definition failed_query (duration : Q) (err : string) : QueryLogRow :=
  {| files_found := 0; files_new := 0; query_duration_sec := duration;
     query_status := QUERY_FAILED; query_error := Some err |}.

(** A column of the rows with the id. *)
Definition column {A} (f : FileRecord -> A) (fid : string) (w : World) : list A :=
  map f (rows_of fid (file_manifest w)).

(** The status values written so far to the rows with the id. *)
Definition histories (fid : string) (w : World) : list (list Status) :=
  column status_history fid w.

Definition extend (written : list Status) (hs : list (list Status)) : list (list Status) :=
  map (fun h => h ++ written) hs.

(** The terminal states. *)
Definition terminal (s : Status) : bool :=
  match s with
  | COMPLETE | SKIPPED | FAILED | PROCESSING_FAILED => true
  | _ => false
  end.

(** The transition graph of the manifest:
    QUEUED -> DOWNLOADING -> DOWNLOADED -> PROCESSING ->
    COMPLETE | SKIPPED | PROCESSING_FAILED, with the loop
    DOWNLOADING -> RETRY -> DOWNLOADING that ends in FAILED.  FAILED is
    entered from DOWNLOADING or from RETRY. *)
Definition edge (a b : Status) : bool :=
  match a, b with
  | QUEUED, DOWNLOADING
  | DOWNLOADING, DOWNLOADED
  | DOWNLOADING, RETRY
  | RETRY, DOWNLOADING
  | DOWNLOADING, FAILED
  | RETRY, FAILED
  | DOWNLOADED, PROCESSING
  | PROCESSING, COMPLETE
  | PROCESSING, SKIPPED
  | PROCESSING, PROCESSING_FAILED => true
  | _, _ => false
  end.

(** The steps that the workers take beside the edges of the graph: the
    except clauses of [download_file] guard the update to DOWNLOADED and
    the send of the processing task too, so when the send raises they
    write RETRY or FAILED to a record that is DOWNLOADED. *)
Definition step (a b : Status) : bool :=
  edge a b ||
  match a, b with
  | DOWNLOADED, RETRY | DOWNLOADED, FAILED => true
  | _, _ => false
  end.

(** Every step of the sequence is an edge of the graph [g]. *)
Fixpoint chain_in (g : Status -> Status -> bool) (a : Status) (rest : list Status)
  : bool :=
  match rest with
  | [] => true
  | b :: rest' => g a b && chain_in g b rest'
  end.

(** The sequence is a path of the graph [g] from the initial state. *)
Definition path_in (g : Status -> Status -> bool) (h : list Status) : bool :=
  match h with
  | QUEUED :: rest => chain_in g QUEUED rest
  | _ => false
  end.

Definition valid_pathb (h : list Status) : bool := path_in edge h.

(** A path of the transition graph. *)
Definition valid_path (h : list Status) : Prop := valid_pathb h = true.

(** A path of the transition graph with the two steps out of
    DOWNLOADED. *)
Definition walked_path (h : list Status) : Prop := path_in step h = true.

(** The world in which the except clauses of [download_file] start:
    DOWNLOADING is written, the directory made, the collaborator has run. *)
Definition at_handler (dir fid : string) (retries : nat)
           (run : DownloaderTasks.FetchRun) (w : World) : World :=
  let w1 := DownloaderDatabase.update_download_status
              fid DOWNLOADING (Some (Z.of_nat retries + 1)) None None None w in
  let w2 := set_disk (makedirs dir (disk w1)) w1 in
  set_disk (DownloaderTasks.fetch_disk run (disk w2)) w2.

(** The world in which [download_file] calls [send_task]: the fetch
    went through, DOWNLOADED is written and the metric logged. *)
Definition at_send (dir fid : string) (retries : nat)
           (run : DownloaderTasks.FetchRun) (w : World) : World :=
  DownloaderDatabase.log_download_metrics fid "download"
    (DownloaderTasks.fetch_seconds run) true None
    (DownloaderDatabase.update_download_status fid DOWNLOADED None None
       (Some dir) (Some (DownloaderTasks.fetch_seconds run))
       (at_handler dir fid retries run w)).

(** What an attempt has written to the rows of its file when it leaves
    the guarded part: DOWNLOADING, and DOWNLOADED too when the fetch went
    through; an attempt leaves the guarded part after DOWNLOADED by
    returning, or for an except clause when the send failed. *)
Inductive begun (send_failed : Prop) : list Status -> Prop :=
| begun_fetching : begun send_failed [DOWNLOADING]
| begun_sending : send_failed -> begun send_failed [DOWNLOADING; DOWNLOADED].

(** What one run of [download_file] writes to the rows of its file, by
    the way it ends, and what it sends. *)
Definition attempt_summary (fid : string) (retries : nat)
           (run : DownloaderTasks.FetchRun)
           (res : Py.result DownloaderTasks.DownloadResult) (w w' : World) : Prop :=
  let send_failed := DownloaderTasks.send_raises run <> None in
  match res with
  | Py.Ret (DownloaderTasks.DownloadSuccess path _ _) =>
      histories fid w' = extend [DOWNLOADING; DOWNLOADED] (histories fid w) /\
      exists t, processing_queue w' = processing_queue w ++ [t] /\
                pr_file_id t = fid /\ pr_file_path t = path
  | Py.Ret (DownloaderTasks.DownloadFailed _ _) =>
      (exists pre, begun send_failed pre /\
                   histories fid w' = extend (pre ++ [FAILED]) (histories fid w)) /\
      processing_queue w' = processing_queue w
  | Py.Raise (Py.RetrySignal _ _) =>
      (exists pre, begun send_failed pre /\
                   histories fid w' = extend (pre ++ [RETRY]) (histories fid w)) /\
      processing_queue w' = processing_queue w /\
      (retries < DownloaderTasks.max_retries)%nat
  | Py.Raise (Py.Exc e) =>
      DownloaderTasks.autoretry_for e = false /\
      (exists pre, begun send_failed pre /\
                   (histories fid w' = extend pre (histories fid w) \/
                    histories fid w' = extend (pre ++ [RETRY]) (histories fid w))) /\
      processing_queue w' = processing_queue w
  end.

(** What a delivery chain of a download task writes; the flag says
    whether it ends with the file downloaded. *)
Inductive download_writes (send_failed : Prop) : bool -> list Status -> Prop :=
| writes_downloaded : download_writes send_failed true [DOWNLOADING; DOWNLOADED]
| writes_failed pre :
    begun send_failed pre -> download_writes send_failed false (pre ++ [FAILED])
| writes_retry_failed pre :
    begun send_failed pre -> download_writes send_failed false (pre ++ [RETRY; FAILED])
| writes_retry pre b rest :
    begun send_failed pre ->
    download_writes send_failed b rest ->
    download_writes send_failed b (pre ++ RETRY :: rest).

(** What [cleanup_file] does to the disk. *)
Definition cleanup_disk (p : string) (d : Disk) : Disk :=
  if isdir p d then rmtree p d
  else if path_exists p d then remove p d
  else d.

(** The exception that stops the transform of a run, if one does: the
    load returned nothing, or a stage after the quality gate raised. *)
Definition transform_failure (fmt_1f : Q -> string) (config : Quality.QualityConfig)
           (run : ProcessorTasks.TransformRun) : option Py.exn :=
  match ProcessorTasks.loaded run with
  | None => Some (Py.Exn Py.ValueError "Failed to load .nat file")
  | Some scene =>
      if Quality.skip (Quality.assess fmt_1f config scene) then None
      else option_map snd (ProcessorTasks.stops_at run)
  end.

(** The result and the error message that [process_file] gives for it. *)
Definition failure_result (e : Py.exn) : ProcessorTasks.ProcessResult :=
  if Py.is_soft_timeout e then ProcessorTasks.TimedOut
  else ProcessorTasks.Errored (Py.str e).

Definition failure_message (e : Py.exn) : string :=
  if Py.is_soft_timeout e then "Processing timeout" else Py.str e.

(** An exception is raised inside [assess]: by the read of the HRV
    channel, by the solar zenith angle, or by the saturation count. *)
Inductive assess_raises (config : Quality.QualityConfig) (scene : Quality.Scene)
  : string -> Prop :=
| raises_at_hrv msg :
    Quality.hrv_missing_pct scene = Quality.Throws msg ->
    assess_raises config scene msg
| raises_at_zenith missing msg :
    Quality.hrv_missing_pct scene = Quality.Value missing ->
    Quality.Qgtb missing (Quality.max_missing_pct config) = false ->
    Quality.solar_zenith_angle scene = Some (Quality.Throws msg) ->
    assess_raises config scene msg
| raises_at_saturation missing msg :
    Quality.hrv_missing_pct scene = Quality.Value missing ->
    Quality.Qgtb missing (Quality.max_missing_pct config) = false ->
    match Quality.solar_zenith_angle scene with
    | None => True
    | Some (Quality.Value mean_sza) =>
        Quality.Qgtb mean_sza (Quality.max_solar_zenith config) = false
    | Some (Quality.Throws _) => False
    end ->
    Quality.hrv_saturation_pct scene = Quality.Throws msg ->
    assess_raises config scene msg.

End Spec.

(* ===================================================================== *)
(** ** Sample data                                                        *)
(* ===================================================================== *)

Module Sample.
Import Store Poller.

Definition cfg : PollingConfig :=
  {| lookback_minutes := Some 30; min_age_hours := Some 1 |}.

Definition x1 : FileMeta :=
  {| meta_file_id := "X1"; meta_timestamp := "2024-01-01T12:00:00";
     meta_satellite := "MSG"; meta_product_type := "HRSEVIRI";
     meta_size_mb := 0; meta_product_id := "X1";
     meta_collection_id := "EO:EUM:DAT:MSG:HRSEVIRI" |}.

(** A cycle whose search returns the one product [x1]. *)
Definition finds_x1 : Cycle :=
  {| now := 1704114000000000;
     response := SearchResults 1 [Some x1];
     query_duration := 1;
     insert_error := fun _ => false;
     broker_error := fun _ => false |}.

(** A cycle whose search finds nothing. *)
Definition finds_nothing : Cycle :=
  {| now := 1704114000000000;
     response := SearchResults 0 [];
     query_duration := 1;
     insert_error := fun _ => false;
     broker_error := fun _ => false |}.

(** A cycle whose catalog call raises. *)
Definition catalog_down : Cycle :=
  {| now := 1704114000000000;
     response := SearchRaises "503 Service Unavailable";
     query_duration := 1;
     insert_error := fun _ => false;
     broker_error := fun _ => false |}.

(** The worker side.  The two [strftime] formats of the sample
    timestamp. *)
Definition ymd (_ : string) : string := "2024/01/01".
Definition stamp (_ : string) : string := "20240101_120000".

Definition raw_dir : string :=
  DownloaderTasks.output_dir_of ymd stamp (meta_timestamp x1).

Definition partial_file : string := (raw_dir ++ "/product_data.nat")%string.

(** The world after the cycle that found [x1], and the task it sent. *)
Definition discovered_x1 : World := poll cfg finds_x1 empty_world.
Definition download_x1 : DownloadTaskData := task_of x1.

(** The connection breaks while the product file is being written; the
    partial file stays in the directory. *)
Definition connection_reset : DownloaderTasks.FetchRun :=
  {| DownloaderTasks.fetch_outcome :=
       DownloaderTasks.FetchRaised (Py.Exn Py.RequestException "connection reset");
     DownloaderTasks.fetch_disk := fun d => d ++ [(partial_file, RegularFile)];
     DownloaderTasks.fetch_seconds := 1;
     DownloaderTasks.send_raises := None |}.

(** The product arrives. *)
Definition arrives : DownloaderTasks.FetchRun :=
  {| DownloaderTasks.fetch_outcome := DownloaderTasks.Fetched [partial_file];
     DownloaderTasks.fetch_disk := fun d => d ++ [(partial_file, RegularFile)];
     DownloaderTasks.fetch_seconds := 1;
     DownloaderTasks.send_raises := None |}.

(** The processing task that the download of [x1] sends. *)
Definition process_x1 : ProcessTaskData :=
  {| pr_file_id := "X1"; pr_file_path := raw_dir; pr_main_file := partial_file;
     pr_timestamp := meta_timestamp x1; pr_satellite := "MSG" |}.

(** [f'{x:.1f}'], which the sample runs never print. *)
Definition fmt (_ : Q) : string := "0.0".

Definition quality_defaults : Quality.QualityConfig :=
  {| Quality.max_missing_percentage := None; Quality.min_solar_zenith := None |}.

(** A night scene: nothing missing, the sun 100 degrees from the zenith. *)
Definition night_scene : Quality.Scene :=
  {| Quality.hrv_missing_pct := Quality.Value 0%Q;
     Quality.solar_zenith_angle := Some (Quality.Value 100%Q);
     Quality.hrv_saturation_pct := Quality.Value 0%Q |}.

(** A day scene with a tenth of the pixels missing. *)
Definition day_scene : Quality.Scene :=
  {| Quality.hrv_missing_pct := Quality.Value 10%Q;
     Quality.solar_zenith_angle := Some (Quality.Value 40%Q);
     Quality.hrv_saturation_pct := Quality.Value 2%Q |}.

(** A scene that was loaded without the HRV channel. *)
Definition no_hrv_scene : Quality.Scene :=
  {| Quality.hrv_missing_pct := Quality.Throws "'HRV'";
     Quality.solar_zenith_angle := None;
     Quality.hrv_saturation_pct := Quality.Throws "'HRV'" |}.

Definition transform_of (scene : Quality.Scene)
           (stop : option (ProcessorTasks.Stage * Py.exn)) : ProcessorTasks.TransformRun :=
  {| ProcessorTasks.loaded := Some scene;
     ProcessorTasks.stops_at := stop;
     ProcessorTasks.stage_seconds := fun _ => 1%Q;
     ProcessorTasks.total_seconds := 5 |}.

(** The reprojection raises. *)
Definition reprojection_fails : ProcessorTasks.TransformRun :=
  transform_of day_scene
    (Some (ProcessorTasks.Reprojection, Py.Exn Py.RuntimeError "resampling failed")).

(** The world in which the download of [x1] has succeeded at once. *)
Definition downloaded_x1 : World :=
  match DownloaderTasks.run_download ymd stamp None download_x1
          (fun _ => arrives) discovered_x1 with
  | Some o => Celery.after o
  | None => discovered_x1
  end.

(** The world in which [x1] has gone through the whole pipeline: found,
    downloaded at once, processed to COMPLETE. *)
Definition completed_x1 : World :=
  match Pipeline.lifecycle ymd stamp None fmt quality_defaults finds_x1 x1
          (fun _ => arrives) (fun _ => transform_of day_scene None) empty_world with
  | Some w => w
  | None => empty_world
  end.

End Sample.

(* ===================================================================== *)
(** ** config.py: the lookup of a dotted key                              *)
(* ===================================================================== *)

Module Config.

Local Unset Elimination Schemes.

(** What [yaml.safe_load] returns. *)
Inductive yaml :=
| YNone
| YBool (b : bool)
| YInt (z : Z)
| YFloat (q : Q)
| YStr (s : string)
| YList (items : list yaml)
| YDict (entries : list (string * yaml)).

Local Set Elimination Schemes.

(** What a call of [Config.get] gives: a value, or the [AttributeError]
    of a [.get] on something that is not a dictionary. *)
Inductive lookup :=
| Found (v : yaml)
| AttributeError.

(** [s.split(sep)] for a separator of one character. *)
Fixpoint split (sep : ascii) (s : string) : list string :=
  match s with
  | EmptyString => [EmptyString]
  | String c rest =>
      if Ascii.eqb c sep then EmptyString :: split sep rest
      else
        match split sep rest with
        | [] => [String c EmptyString]
        | part :: parts => String c part :: parts
        end
  end.

(** [d.get(k, default)] on a dictionary. *)
Fixpoint dict_get (entries : list (string * yaml)) (k : string) (default : yaml) : yaml :=
  match entries with
  | [] => default
  | (k', v) :: rest => if String.eqb k' k then v else dict_get rest k default
  end.

(** The loop of [Config.get]. *)
Fixpoint get_from (value : yaml) (keys : list string) (default : yaml) : lookup :=
  match keys with
  | [] => Found value
  | k :: rest =>
      match value with
      | YDict entries =>
          match dict_get entries k default with
          | YNone => Found default
          | value' => get_from value' rest default
          end
      | _ => AttributeError
      end
  end.

(** [Config.get(key, default)] on the loaded configuration. *)
Definition get (config : yaml) (key : string) (default : yaml) : lookup :=
  get_from config (split "." key) default.

(** ['.'.join(parts)] *)
Fixpoint join (parts : list string) : string :=
  match parts with
  | [] => EmptyString
  | [part] => part
  | part :: rest => (part ++ "." ++ join rest)%string
  end.

Fixpoint has_dot (s : string) : bool :=
  match s with
  | EmptyString => false
  | String c rest => Ascii.eqb c "." || has_dot rest
  end.

(** The key is present in the dictionary. *)
Definition has_key (entries : list (string * yaml)) (k : string) : bool :=
  existsb (fun e => String.eqb (fst e) k) entries.

(** The value under a path of keys, each level a dictionary that has
    the key. *)
Fixpoint descend (value : yaml) (path : list string) : option yaml :=
  match path with
  | [] => Some value
  | k :: rest =>
      match value with
      | YDict entries =>
          if has_key entries k then descend (dict_get entries k YNone) rest
          else None
      | _ => None
      end
  end.

Definition is_dict (v : yaml) : bool :=
  match v with YDict _ => true | _ => false end.

Definition is_none (v : yaml) : bool :=
  match v with YNone => true | _ => false end.

(** A configuration file with a [polling] section and nothing else. *)
Definition sample : yaml :=
  YDict [("polling", YDict [("lookback_minutes", YInt 45);
                            ("min_age_hours", YNone)])].

End Config.

(* ===================================================================== *)
(** ** Vocabulary of the further properties                               *)
(* ===================================================================== *)

Module Further.
Import Store.

(** The scene with another saturation count. *)
Definition with_saturation (scene : Quality.Scene) (saturation : Q) : Quality.Scene :=
  {| Quality.hrv_missing_pct := Quality.hrv_missing_pct scene;
     Quality.solar_zenith_angle := Quality.solar_zenith_angle scene;
     Quality.hrv_saturation_pct := Quality.Value saturation |}.

(** [Database.get_file_info]: [SELECT * FROM file_manifest WHERE
    file_id = %s], [fetchone]. *)
Definition get_file_info (fid : string) (w : World) : option FileRecord :=
  hd_error (rows_of fid (file_manifest w)).

(** The manifest of [w'] is the manifest of [w] with the rows of one
    file patched, their ids kept. *)
Definition patched (fid : string) (P : FileRecord -> FileRecord) (w w' : World) : Prop :=
  file_manifest w' = update_rows fid P (file_manifest w) /\
  forall r, file_id (P r) = file_id r.

(** The processing task that a download sends. *)
Definition process_task_of (dir main_file : string) (td : DownloadTaskData)
  : ProcessTaskData :=
  {| pr_file_id := dl_file_id td; pr_file_path := dir; pr_main_file := main_file;
     pr_timestamp := dl_timestamp td; pr_satellite := dl_satellite td |}.

(** The main file that a run hands over to the processing worker: the
    first downloaded file whose name ends in [.nat], when the fetch
    brings one and the send of the processing task does not raise. *)
Definition handed_over (run : DownloaderTasks.FetchRun) : option string :=
  match DownloaderTasks.fetch_outcome run, DownloaderTasks.send_raises run with
  | DownloaderTasks.Fetched files, None =>
      hd_error (filter (fun f => DownloaderTasks.endswith f ".nat") files)
  | _, _ => None
  end.

(** One run of [download_file], by the way it ends: what it did to the
    rows of its file and what it sent. *)
Definition attempt_shape (dir : string) (td : DownloadTaskData) (retries : nat)
           (run : DownloaderTasks.FetchRun)
           (res : Py.result DownloaderTasks.DownloadResult) (w w' : World) : Prop :=
  exists P,
    patched (dl_file_id td) P w w' /\
    (forall r, download_attempt (P r) = Some (Z.of_nat retries + 1)) /\
    download_queue w' = download_queue w /\
    match res with
    | Py.Ret (DownloaderTasks.DownloadSuccess path _ _) =>
        path = dir /\
        (forall r, status (P r) = DOWNLOADED /\ raw_file_path (P r) = Some dir) /\
        exists main_file,
          handed_over run = Some main_file /\
          processing_queue w' = processing_queue w ++ [process_task_of dir main_file td]
    | Py.Ret (DownloaderTasks.DownloadFailed _ _) =>
        (forall r, status (P r) = FAILED) /\
        handed_over run = None /\
        processing_queue w' = processing_queue w
    | Py.Raise (Py.RetrySignal _ _) =>
        (forall r, status (P r) = RETRY) /\
        handed_over run = None /\
        processing_queue w' = processing_queue w /\
        (retries < DownloaderTasks.max_retries)%nat
    | Py.Raise (Py.Exc e) =>
        DownloaderTasks.autoretry_for e = false /\
        handed_over run = None /\
        processing_queue w' = processing_queue w
    end.

(** A delivery chain of a download task, by the way it ends. *)
Definition chain_shape (dir : string) (td : DownloadTaskData)
           (runs : nat -> DownloaderTasks.FetchRun) (retries : nat)
           (o : Celery.Outcome DownloaderTasks.DownloadResult) (w : World) : Prop :=
  exists P,
    patched (dl_file_id td) P w (Celery.after o) /\
    (1 <= Celery.deliveries o)%nat /\
    (retries + Celery.deliveries o <= S DownloaderTasks.max_retries)%nat /\
    (forall r, download_attempt (P r) =
               Some (Z.of_nat (retries + Celery.deliveries o))) /\
    download_queue (Celery.after o) = download_queue w /\
    match Celery.final o with
    | Celery.Succeeded (DownloaderTasks.DownloadSuccess path _ _) =>
        path = dir /\
        (forall r, status (P r) = DOWNLOADED /\ raw_file_path (P r) = Some dir) /\
        exists main_file,
          handed_over (runs (retries + Celery.deliveries o - 1)%nat) = Some main_file /\
          processing_queue (Celery.after o) =
            processing_queue w ++ [process_task_of dir main_file td]
    | _ =>
        (forall r, status (P r) = FAILED) /\
        handed_over (runs (retries + Celery.deliveries o - 1)%nat) = None /\
        processing_queue (Celery.after o) = processing_queue w
    end.

(** The run in which the collaborator raises [e], with the same effect
    on the disk and the same time spent. *)
Definition raising (run : DownloaderTasks.FetchRun) (e : Py.exn) : DownloaderTasks.FetchRun :=
  {| DownloaderTasks.fetch_outcome := DownloaderTasks.FetchRaised e;
     DownloaderTasks.fetch_disk := DownloaderTasks.fetch_disk run;
     DownloaderTasks.fetch_seconds := DownloaderTasks.fetch_seconds run;
     DownloaderTasks.send_raises := DownloaderTasks.send_raises run |}.

(** The entry of the schedule for an attempt: the attempt's own, or the
    last one when the schedule is shorter. *)
Definition scheduled (delays : list Z) (attempt : Z) : Z :=
  nth (Z.to_nat (attempt - 1)) delays (last delays 0).

(** The path that [generate_output_path] returns. *)
Definition output_path_of (strftime_ymd strftime_stamp : string -> string)
           (timestamp : string) : string :=
  (("/processed/" ++ strftime_ymd timestamp) ++ "/" ++
   strftime_stamp timestamp ++ "_HRV_Paris.nc")%string.

(** The status that goes with a result of [process_file]. *)
Definition status_of (r : ProcessorTasks.ProcessResult) : Status :=
  match r with
  | ProcessorTasks.Skipped _ => SKIPPED
  | ProcessorTasks.Processed _ _ _ => COMPLETE
  | ProcessorTasks.TimedOut | ProcessorTasks.Errored _ => PROCESSING_FAILED
  end.

(** [l1] is [l2] with some of its elements left out. *)
Inductive subsequence {A : Type} : list A -> list A -> Prop :=
| subsequence_nil : subsequence [] []
| subsequence_skip x l1 l2 : subsequence l1 l2 -> subsequence l1 (x :: l2)
| subsequence_take x l1 l2 : subsequence l1 l2 -> subsequence (x :: l1) (x :: l2).

(** The stages that a complete run logs, in their order. *)
Definition stages_of_success : list string :=
  ["load_nat"; "quality_check"; "calibration"; "reprojection"; "subsetting";
   "write_netcdf"].

End Further.

(* ===================================================================== *)
(** ** services/downloader/monitor.py                                     *)
(* ===================================================================== *)

Module DownloaderMonitor.

(** What a call did: it returned, or it raised an exception with the
    message. *)
Inductive call (A : Type) :=
| Returns (a : A)
| Fails (msg : string).
Arguments Returns {A} a.
Arguments Fails {A} msg.

(** A reply of [celery_app.control.inspect()]: an entry per worker that
    answered; [None] when none did. *)
Definition reply (A : Type) := option (list (string * A)).

Record Inspection := {
  inspect_stats : call (reply string);             (* inspect.stats() *)
  inspect_active : call (reply (list string));     (* inspect.active() *)
  inspect_reserved : call (reply (list string))    (* inspect.reserved() *)
}.

(** [len(r) if r else 0] *)
Definition count_workers {A} (r : reply A) : Z :=
  match r with
  | Some (w :: ws) => Z.of_nat (List.length (w :: ws))
  | _ => 0
  end.

(** [sum(len(tasks) for tasks in r.values()) if r else 0] *)
Definition count_tasks (r : reply (list string)) : Z :=
  match r with
  | Some (w :: ws) =>
      fold_right Z.add 0 (map (fun e => Z.of_nat (List.length (snd e))) (w :: ws))
  | _ => 0
  end.

(** The JSON response of [/health]. *)
Record HealthResponse := {
  status_code : Z;
  health_status : string;
  workers : option Z;
  active_tasks : option Z;
  message : option string
}.

Definition health_error (msg : string) : HealthResponse :=
  {| status_code := 503; health_status := "error"; workers := None;
     active_tasks := None; message := Some msg |}.

(** [health_check] *)
Definition health_check (i : Inspection) : HealthResponse :=
  match inspect_stats i with
  | Fails msg => health_error msg
  | Returns stats =>
      match inspect_active i with
      | Fails msg => health_error msg
      | Returns active =>
          let worker_count := count_workers stats in
          let active_tasks := count_tasks active in
          let is_healthy := 0 <? worker_count in
          {| status_code := if is_healthy then 200 else 503;
             health_status := if is_healthy then "healthy" else "unhealthy";
             workers := Some worker_count;
             active_tasks := Some active_tasks;
             message := None |}
      end
  end.

(** The attributes of the [db] object of the downloader: the methods of
    the class [Database] in services/downloader/database.py and the
    attribute that [__init__] sets. *)
Definition Database_attributes : list string :=
  ["__init__"; "_create_pool"; "get_connection"; "return_connection";
   "update_download_status"; "get_file_info"; "log_download_metrics"; "close";
   "pool"].

(** [db.<name>(...)]: the attribute is looked up, then called. *)
Definition db_call {A} (name : string) (method : call A) : call A :=
  if existsb (String.eqb name) Database_attributes then method
  else Fails ("'Database' object has no attribute '" ++ name ++ "'")%string.

(** The response of [/stats]. *)
Inductive StatsResponse :=
| Stats (active_tasks reserved_tasks workers : Z) (database : list (string * Z))
| StatsError (error : string).

(** [get_stats]; [queue_stats] is what the status query of the manifest
    gives. *)
Definition get_stats (i : Inspection) (queue_stats : call (list (string * Z)))
  : StatsResponse :=
  match inspect_active i with
  | Fails msg => StatsError msg
  | Returns active =>
      match inspect_reserved i with
      | Fails msg => StatsError msg
      | Returns reserved =>
          match db_call "get_queue_stats" queue_stats with
          | Fails msg => StatsError msg
          | Returns stats =>
              Stats (count_tasks active) (count_tasks reserved)
                    (count_workers active) stats
          end
      end
  end.

End DownloaderMonitor.

(* ===================================================================== *)
(** ** Further sample data                                                *)
(* ===================================================================== *)

Module Cases.
Import Store.

(** The fetch brings a checksum file and a manifest, no [.nat] file. *)
Definition brings_no_nat : DownloaderTasks.FetchRun :=
  {| DownloaderTasks.fetch_outcome :=
       DownloaderTasks.Fetched [(Sample.raw_dir ++ "/manifest.xml")%string;
                                (Sample.raw_dir ++ "/product.md5")%string];
     DownloaderTasks.fetch_disk := fun d => d;
     DownloaderTasks.fetch_seconds := 1;
     DownloaderTasks.send_raises := None |}.

(** A cycle that finds [x1] while the broker is down. *)
Definition broker_down : Poller.Cycle :=
  {| Poller.now := 1704114000000000;
     Poller.response := Poller.SearchResults 1 [Some Sample.x1];
     Poller.query_duration := 1;
     Poller.insert_error := fun _ => false;
     Poller.broker_error := fun _ => true |}.

(** Another product with the timestamp of [x1]. *)
Definition x2 : Poller.FileMeta :=
  {| Poller.meta_file_id := "X2";
     Poller.meta_timestamp := Poller.meta_timestamp Sample.x1;
     Poller.meta_satellite := "MSG"; Poller.meta_product_type := "HRSEVIRI";
     Poller.meta_size_mb := 0; Poller.meta_product_id := "X2";
     Poller.meta_collection_id := "EO:EUM:DAT:MSG:HRSEVIRI" |}.

Definition download_x2 : DownloadTaskData := Poller.task_of x2.

(** A cycle whose search returns both products, and the world after
    it. *)
Definition finds_both : Poller.Cycle :=
  {| Poller.now := 1704114000000000;
     Poller.response := Poller.SearchResults 2 [Some Sample.x1; Some x2];
     Poller.query_duration := 1;
     Poller.insert_error := fun _ => false;
     Poller.broker_error := fun _ => false |}.

Definition discovered_both : World := Poller.poll Sample.cfg finds_both empty_world.

(** A scene for which the soft time limit strikes while the quality
    assessment reads the HRV channel. *)
Definition interrupted_scene : Quality.Scene :=
  {| Quality.hrv_missing_pct := Quality.Throws "SoftTimeLimitExceeded()";
     Quality.solar_zenith_angle := None;
     Quality.hrv_saturation_pct := Quality.Throws "SoftTimeLimitExceeded()" |}.

(** The product arrives, and the broker cannot be reached when the
    processing task is sent. *)
Definition send_fails : DownloaderTasks.FetchRun :=
  {| DownloaderTasks.fetch_outcome := DownloaderTasks.Fetched [Sample.partial_file];
     DownloaderTasks.fetch_disk := fun d => d ++ [(Sample.partial_file, RegularFile)];
     DownloaderTasks.fetch_seconds := 1;
     DownloaderTasks.send_raises :=
       Some (Py.Exn Py.OperationalError "Error 111 connecting to redis:6379") |}.

(** A configuration other than the defaults: two hours back, for
    three quarters of an hour. *)
Definition two_hours_back : Poller.PollingConfig :=
  {| Poller.lookback_minutes := Some 45; Poller.min_age_hours := Some 2 |}.

End Cases.

(* ===================================================================== *)
(** ** Discovery: the search window                                       *)
(* ===================================================================== *)

Import Py Store Task Celery Spec.

Section Window.
Import Poller.

Lemma enqueue_downloads_from_searches c file_list :
  forall i w, searches (snd (enqueue_downloads_from c i file_list w)) = searches w.
Proof.
  induction file_list as [|a rest IH]; intros i w; [reflexivity|].
  cbn [enqueue_downloads_from]. unfold PollerDatabase.log_new_file.
  destruct (insert_error c i); [apply IH|].
  destruct (has_row (meta_file_id a) (file_manifest w)); [apply IH|].
  destruct (broker_error c i); [now rewrite IH|].
  specialize (IH (S i)
                (send_download (task_of a)
                   (set_manifest
                      (file_manifest w ++
                         [PollerDatabase.new_record (meta_file_id a) (meta_timestamp a)
                            (meta_satellite a) (meta_product_type a) (meta_size_mb a)])
                      w))).
  destruct (enqueue_downloads_from c (S i) rest _) as [n w2].
  exact IH.
Qed.

Lemma query_new_files_searches cfg c w :
  searches (snd (query_new_files cfg c w)) =
    searches w ++ [search_window cfg (now c)].
Proof.
  unfold query_new_files.
  destruct (response c) as [err | total products]; [reflexivity|].
  destruct (total =? 0); reflexivity.
Qed.

(** C4.  With [min_age_hours = h] and [lookback_minutes = m] in the
    configuration, the window of a cycle ends [h] hours before now and
    starts [m] minutes before its end (times are in microseconds); this
    window is what the cycle sends to the catalog; it is [m] minutes
    long; with [h = 1] and [m = 30] it is [T - 90min, T - 60min], and so
    it is when the section gives neither key, these being the defaults. *)
Theorem window_correctness :
  forall cfg c w h m,
    min_age_hours cfg = Some h ->
    lookback_minutes cfg = Some m ->
    search_window cfg (now c) =
      (now c - h * 3600000000 - m * 60000000, now c - h * 3600000000) /\
    searches (snd (query_new_files cfg c w)) =
      searches w ++ [(now c - h * 3600000000 - m * 60000000, now c - h * 3600000000)] /\
    searches (poll cfg c w) =
      searches w ++ [(now c - h * 3600000000 - m * 60000000, now c - h * 3600000000)] /\
    snd (search_window cfg (now c)) - fst (search_window cfg (now c)) = m * 60000000 /\
    (h = 1 -> m = 30 ->
     search_window cfg (now c) = (now c - 90 * 60000000, now c - 60 * 60000000)) /\
    (forall T,
        search_window {| lookback_minutes := None; min_age_hours := None |} T
        = (T - 90 * 60000000, T - 60 * 60000000)).
Proof.
  intros cfg c w h m Hh Hm.
  assert (Hwin : search_window cfg (now c) =
                 (now c - h * 3600000000 - m * 60000000, now c - h * 3600000000)).
  { unfold search_window, timedelta_hours, timedelta_minutes. rewrite Hh, Hm.
    reflexivity. }
  split; [exact Hwin|].
  split; [rewrite query_new_files_searches, Hwin; reflexivity|].
  split.
  { rewrite <- Hwin, <- query_new_files_searches. unfold poll.
    pose proof (enqueue_downloads_from_searches c) as Henq.
    destruct (query_new_files cfg c w) as [all_files w1]. cbn [snd].
    destruct all_files as [|a rest]; [reflexivity|].
    destruct (filter_new_files (a :: rest) w1); [reflexivity|].
    apply Henq. }
  split; [rewrite Hwin; cbn [fst snd]; lia|].
  split.
  - intros -> ->. rewrite Hwin. f_equal; lia.
  - intros T. unfold search_window, timedelta_hours, timedelta_minutes; simpl.
    f_equal; lia.
Qed.

End Window.

(** Two hours back for three quarters of an hour, at 2024-01-01 13:00
    UTC: the window is 10:15 to 11:00. *)
Lemma window_correctness_witness :
  Poller.search_window Cases.two_hours_back (Poller.now Sample.finds_x1) =
    (1704104100000000, 1704106800000000) /\
  searches (Poller.poll Cases.two_hours_back Sample.finds_x1 empty_world) =
    [(1704104100000000, 1704106800000000)].
Proof.
  destruct (@window_correctness Cases.two_hours_back Sample.finds_x1 empty_world 2 45
              eq_refl eq_refl) as (Hwin & _ & Hpoll & _).
  split; [exact Hwin | exact Hpoll].
Defined.

(* ===================================================================== *)
(** ** Discovery: deduplication                                           *)
(* ===================================================================== *)

Section Dedup.
Import Poller PollerDatabase.

Lemma has_row_In fid m :
  has_row fid m = true <-> In fid (map file_id m).
Proof.
  unfold has_row. rewrite existsb_exists, in_map_iff. split.
  - intros [r [Hin Heq]]. apply String.eqb_eq in Heq. eauto.
  - intros [r [Heq Hin]]. exists r. split; [assumption|]. now apply String.eqb_eq.
Qed.

Lemma has_row_false_In fid m :
  has_row fid m = false <-> ~ In fid (map file_id m).
Proof.
  rewrite <- has_row_In. destruct (has_row fid m); split; congruence.
Qed.

Lemma has_row_app fid m1 m2 :
  has_row fid (m1 ++ m2) = has_row fid m1 || has_row fid m2.
Proof. unfold has_row. apply existsb_app. Qed.

Lemma rows_of_absent fid m :
  has_row fid m = false -> rows_of fid m = [].
Proof.
  unfold has_row, rows_of. induction m as [|r m IH]; simpl; [reflexivity|].
  destruct (String.eqb (file_id r) fid); simpl; [discriminate|exact IH].
Qed.

(** With one row per id, a selection by id has at most one row. *)
Lemma select_by_key_NoDup {A} (key : A -> string) (k : string) (l : list A) :
  NoDup (map key l) ->
  (List.length (filter (fun x => String.eqb (key x) k) l) <= 1)%nat.
Proof.
  induction l as [|x l IH]; simpl; intros Hnd; [lia|].
  inversion Hnd as [|? ? Hnotin Hnd']; subst.
  destruct (String.eqb (key x) k) eqn:E; [|auto].
  apply String.eqb_eq in E. subst k. simpl.
  assert (Hnil : filter (fun y => String.eqb (key y) (key x)) l = []).
  { clear -Hnotin. induction l as [|y l IH]; simpl; [reflexivity|].
    destruct (String.eqb (key y) (key x)) eqn:E.
    - apply String.eqb_eq in E. exfalso. apply Hnotin. simpl. now left.
    - apply IH. intros H. apply Hnotin. simpl. now right. }
  rewrite Hnil. simpl. lia.
Qed.

Lemma select_by_key_In {A} (key : A -> string) (k : string) (l : list A) :
  In k (map key l) ->
  (1 <= List.length (filter (fun x => String.eqb (key x) k) l))%nat.
Proof.
  induction l as [|x l IH]; simpl; [tauto|].
  intros [Heq | Hin].
  - subst k. rewrite String.eqb_refl. simpl. lia.
  - destruct (String.eqb (key x) k); simpl; [lia|auto].
Qed.

Lemma select_by_key_absent {A} (key : A -> string) (k : string) (l : list A) :
  ~ In k (map key l) ->
  filter (fun x => String.eqb (key x) k) l = [].
Proof.
  induction l as [|x l IH]; simpl; intros Hnot; [reflexivity|].
  destruct (String.eqb (key x) k) eqn:E.
  - apply String.eqb_eq in E. exfalso. apply Hnot. now left.
  - apply IH. intros H. apply Hnot. now right.
Qed.

Lemma grows_refl w : grows w w.
Proof.
  exists [], []. rewrite !app_nil_r.
  split; [reflexivity|]. split; [reflexivity|].
  split; [constructor|]. split; [intros r []|].
  split; [constructor|]. intros fid [].
Qed.

Lemma grows_trans w1 w2 w3 :
  grows w1 w2 -> grows w2 w3 -> grows w1 w3.
Proof.
  intros (rows1 & tasks1 & Hm1 & Hq1 & Hnd1 & Hnew1 & Htnd1 & Hincl1)
         (rows2 & tasks2 & Hm2 & Hq2 & Hnd2 & Hnew2 & Htnd2 & Hincl2).
  assert (Hsep : forall r, In r rows2 -> ~ In (file_id r) (map file_id rows1)
                                          /\ has_row (file_id r) (file_manifest w1) = false).
  { intros r Hr. destruct (Hnew2 r Hr) as [Habs _].
    rewrite Hm1, has_row_app in Habs. apply orb_false_iff in Habs.
    destruct Habs as [Ha Hb]. split; [|exact Ha].
    apply has_row_false_In in Hb. exact Hb. }
  exists (rows1 ++ rows2), (tasks1 ++ tasks2). repeat split.
  - rewrite Hm2, Hm1. now rewrite app_assoc.
  - rewrite Hq2, Hq1. now rewrite app_assoc.
  - rewrite map_app. apply NoDup_app; try assumption.
    intros fid H1 H2. apply in_map_iff in H2. destruct H2 as [r [Heq Hr]].
    subst fid. now apply (proj1 (Hsep r Hr)).
  - apply in_app_or in H. destruct H as [H | H].
    + apply (Hnew1 r H).
    + apply (Hsep r H).
  - apply in_app_or in H. destruct H as [H | H].
    + apply (Hnew1 r H).
    + apply (Hnew2 r H).
  - apply in_app_or in H. destruct H as [H | H].
    + apply (Hnew1 r H).
    + apply (Hnew2 r H).
  - rewrite map_app. apply NoDup_app; try assumption.
    intros fid H1 H2. apply Hincl1 in H1. apply Hincl2 in H2.
    apply in_map_iff in H2. destruct H2 as [r [Heq Hr]].
    subst fid. now apply (proj1 (Hsep r Hr)).
  - rewrite !map_app. intros fid H. apply in_or_app.
    apply in_app_or in H. destruct H as [H | H]; [left; auto | right; auto].
Qed.

Lemma log_new_file_existing e fid ts sat ptype size w :
  has_row fid (file_manifest w) = true ->
  log_new_file e fid ts sat ptype size w = (false, w).
Proof.
  intros H. unfold log_new_file. rewrite H. now destruct e.
Qed.

Lemma insert_grows fid ts sat ptype size w :
  has_row fid (file_manifest w) = false ->
  grows w (set_manifest (file_manifest w ++ [new_record fid ts sat ptype size]) w).
Proof.
  intros Habs. exists [new_record fid ts sat ptype size], []. simpl.
  rewrite app_nil_r.
  split; [reflexivity|]. split; [reflexivity|].
  split; [repeat constructor; intros []|].
  split.
  - intros r [<- | []]. simpl. split; [assumption | split; reflexivity].
  - split; [constructor | intros x []].
Qed.

Lemma insert_send_grows m w :
  has_row (meta_file_id m) (file_manifest w) = false ->
  grows w (send_download (task_of m)
             (set_manifest
                (file_manifest w ++
                   [new_record (meta_file_id m) (meta_timestamp m) (meta_satellite m)
                               (meta_product_type m) (meta_size_mb m)]) w)).
Proof.
  intros Habs.
  exists [new_record (meta_file_id m) (meta_timestamp m) (meta_satellite m)
                     (meta_product_type m) (meta_size_mb m)], [task_of m].
  simpl.
  split; [reflexivity|]. split; [reflexivity|].
  split; [repeat constructor; intros []|].
  split.
  - intros r [<- | []]. simpl. split; [assumption | split; reflexivity].
  - split; [repeat constructor; intros [] | intros x H; exact H].
Qed.

Lemma enqueue_downloads_from_grows c file_list :
  forall i w, grows w (snd (enqueue_downloads_from c i file_list w)).
Proof.
  induction file_list as [|m rest IH]; intros i w; simpl.
  - apply grows_refl.
  - unfold log_new_file.
    destruct (insert_error c i); [apply IH|].
    destruct (has_row (meta_file_id m) (file_manifest w)) eqn:Hrow; [apply IH|].
    destruct (broker_error c i).
    + eapply grows_trans; [apply insert_grows; exact Hrow | apply IH].
    + match goal with
      | |- context [enqueue_downloads_from c (S i) rest ?w1] =>
          specialize (IH (S i) w1);
          destruct (enqueue_downloads_from c (S i) rest w1) as [n w2]
      end.
      simpl in *.
      eapply grows_trans; [apply insert_send_grows; exact Hrow | exact IH].
Qed.

Lemma query_new_files_manifest cfg c w :
  file_manifest (snd (query_new_files cfg c w)) = file_manifest w /\
  download_queue (snd (query_new_files cfg c w)) = download_queue w.
Proof.
  unfold query_new_files.
  destruct (response c) as [err | total products]; [split; reflexivity|].
  destruct (total =? 0); split; reflexivity.
Qed.

Lemma grows_same_tables w w' :
  file_manifest w' = file_manifest w ->
  download_queue w' = download_queue w ->
  grows w w'.
Proof.
  intros Hm Hq. exists [], []. rewrite Hm, Hq, !app_nil_r.
  split; [reflexivity|]. split; [reflexivity|].
  split; [constructor|]. split; [intros r []|].
  split; [constructor|]. intros fid [].
Qed.

Lemma poll_grows cfg c w : grows w (poll cfg c w).
Proof.
  unfold poll.
  destruct (query_new_files_manifest cfg c w) as [Hm Hq].
  destruct (query_new_files cfg c w) as [all_files w1]. simpl in Hm, Hq.
  assert (Hw1 : grows w w1) by (apply grows_same_tables; assumption).
  destruct all_files as [|m ms]; [exact Hw1|].
  destruct (filter_new_files (m :: ms) w1) as [|n ns]; [exact Hw1|].
  eapply grows_trans; [exact Hw1|]. apply enqueue_downloads_from_grows.
Qed.

Lemma run_cycles_grows cfg cs : forall w, grows w (run_cycles cfg cs w).
Proof.
  unfold run_cycles.
  induction cs as [|c cs IH]; intros w; simpl.
  - apply grows_refl.
  - eapply grows_trans; [apply poll_grows | apply IH].
Qed.

(** What was there stays as it was. *)
Lemma grows_keeps fid w w' :
  grows w w' ->
  has_row fid (file_manifest w) = true ->
  rows_of fid (file_manifest w') = rows_of fid (file_manifest w) /\
  tasks_of fid w' = tasks_of fid w.
Proof.
  intros (rows & tasks & Hm & Hq & Hnd & Hnew & Htnd & Hincl) Hrow.
  assert (Hnot : ~ In fid (map file_id rows)).
  { intros Hin. apply in_map_iff in Hin. destruct Hin as [r [Heq Hr]].
    destruct (Hnew r Hr) as [Habs _]. rewrite Heq in Habs. congruence. }
  split.
  - unfold rows_of. rewrite Hm, filter_app.
    rewrite (select_by_key_absent file_id fid rows Hnot). apply app_nil_r.
  - unfold tasks_of. rewrite Hq, filter_app.
    rewrite (select_by_key_absent dl_file_id fid tasks); [apply app_nil_r|].
    intros Hin. apply Hnot. now apply Hincl.
Qed.

Lemma grows_has_row fid w w' :
  grows w w' ->
  has_row fid (file_manifest w) = true ->
  has_row fid (file_manifest w') = true.
Proof.
  intros (rows & tasks & Hm & _) Hrow.
  rewrite Hm, has_row_app, Hrow. reflexivity.
Qed.

Lemma enqueue_downloads_from_inserts c :
  inserts_succeed c ->
  forall file_list i w m,
    In m file_list ->
    has_row (meta_file_id m)
            (file_manifest (snd (enqueue_downloads_from c i file_list w))) = true.
Proof.
  intros Hok. induction file_list as [|a rest IH]; intros i w m Hin; [destruct Hin|].
  destruct Hin as [-> | Hin].
  - simpl. unfold log_new_file. rewrite (Hok i).
    destruct (has_row (meta_file_id m) (file_manifest w)) eqn:Hrow.
    + eapply grows_has_row; [apply enqueue_downloads_from_grows | exact Hrow].
    + assert (Hnow : forall w1,
                 file_manifest w1 =
                   file_manifest w ++
                     [new_record (meta_file_id m) (meta_timestamp m) (meta_satellite m)
                                 (meta_product_type m) (meta_size_mb m)] ->
                 has_row (meta_file_id m)
                         (file_manifest (snd (enqueue_downloads_from c (S i) rest w1))) = true).
      { intros w1 Hw1. eapply grows_has_row; [apply enqueue_downloads_from_grows|].
        rewrite Hw1, has_row_app. simpl. rewrite String.eqb_refl.
        apply orb_true_r. }
      destruct (broker_error c i).
      * apply Hnow. reflexivity.
      * match goal with
        | |- context [enqueue_downloads_from c (S i) rest ?w1] =>
            specialize (Hnow w1 eq_refl);
            destruct (enqueue_downloads_from c (S i) rest w1) as [n w2]
        end.
        exact Hnow.
  - simpl.
    destruct (log_new_file (insert_error c i) (meta_file_id a) (meta_timestamp a)
                (meta_satellite a) (meta_product_type a) (meta_size_mb a) w)
      as [success w1].
    destruct success; [destruct (broker_error c i)|]; try (apply IH; exact Hin).
    specialize (IH (S i) (send_download (task_of a) w1) m Hin).
    destruct (enqueue_downloads_from c (S i) rest (send_download (task_of a) w1)).
    exact IH.
Qed.

Lemma poll_discovers cfg c w fid :
  found_in fid c = true ->
  inserts_succeed c ->
  has_row fid (file_manifest (poll cfg c w)) = true.
Proof.
  unfold found_in, poll, query_new_files. intros Hfound Hok.
  destruct (response c) as [err | total products]; [discriminate|].
  apply andb_true_iff in Hfound. destruct Hfound as [Htotal Hex].
  apply negb_true_iff in Htotal. rewrite Htotal.
  apply existsb_exists in Hex. destruct Hex as [m [Hin Hid]].
  apply String.eqb_eq in Hid. subst fid.
  set (w1 := log_api_query total 0 (query_duration c) SUCCESS None
               (set_searches (searches w ++ [search_window cfg (now c)]) w)).
  destruct (extracted products) as [|a rest] eqn:Hall; [destruct Hin|].
  rewrite <- Hall in *.
  destruct (has_row (meta_file_id m) (file_manifest w1)) eqn:Hrow.
  - destruct (filter_new_files (extracted products) w1); [exact Hrow|].
    eapply grows_has_row; [apply enqueue_downloads_from_grows | exact Hrow].
  - assert (Hnew : In m (filter_new_files (extracted products) w1)).
    { unfold filter_new_files. apply filter_In. split; [exact Hin|].
      unfold is_file_processed. now rewrite Hrow. }
    destruct (filter_new_files (extracted products) w1) as [|n ns]; [destruct Hnew|].
    now apply enqueue_downloads_from_inserts.
Qed.

Lemma run_cycles_discovers cfg fid cs :
  forall w,
    discovered fid cs = true ->
    (forall c, In c cs -> inserts_succeed c) ->
    has_row fid (file_manifest (run_cycles cfg cs w)) = true.
Proof.
  unfold run_cycles, discovered.
  induction cs as [|c cs IH]; intros w Hd Hok; simpl in *; [discriminate|].
  destruct (found_in fid c) eqn:Hfound.
  - eapply grows_has_row; [apply run_cycles_grows|].
    apply poll_discovers; [exact Hfound | apply Hok; now left].
  - apply IH; [exact Hd | intros c' Hc'; apply Hok; now right].
Qed.

(** C1.  Whatever the cycles return, and whichever inserts and sends
    fail, an id has at most one row and at most one download task, a task
    only if it has the row, and the rows are as inserted (QUEUED); the id
    has exactly one row once a cycle found it, if the inserts went
    through.  In any world, a cycle that meets an id that has a row
    changes neither its rows nor its tasks: the insert returns [False]
    and leaves the world as it was, and an insert that returns [False]
    enqueues nothing. *)
Theorem dedup_insert_if_absent :
  forall cfg cs fid,
    let w := Poller.run_cycles cfg cs empty_world in
    (count_rows fid w <= 1)%nat /\
    (count_tasks fid w <= count_rows fid w)%nat /\
    (forall r, In r (file_manifest w) -> freshly_queued r) /\
    (discovered fid cs = true ->
     (forall c, In c cs -> inserts_succeed c) ->
     count_rows fid w = 1%nat) /\
    (forall c w0,
        has_row fid (file_manifest w0) = true ->
        rows_of fid (file_manifest (Poller.poll cfg c w0)) = rows_of fid (file_manifest w0) /\
        tasks_of fid (Poller.poll cfg c w0) = tasks_of fid w0) /\
    (forall e ts sat ptype size w0,
        has_row fid (file_manifest w0) = true ->
        log_new_file e fid ts sat ptype size w0 = (false, w0)) /\
    (forall c m w0,
        fst (log_new_file (insert_error c 0) (meta_file_id m) (meta_timestamp m)
               (meta_satellite m) (meta_product_type m) (meta_size_mb m) w0) = false ->
        Poller.enqueue_downloads c [m] w0 = (0, w0)).
Proof.
  intros cfg cs fid w.
  destruct (run_cycles_grows cfg cs empty_world)
    as (rows & tasks & Hm & Hq & Hnd & Hnew & Htnd & Hincl).
  fold w in Hm, Hq. simpl in Hm, Hq.
  assert (Hrows : (count_rows fid w <= 1)%nat).
  { unfold count_rows, rows_of. rewrite Hm.
    now apply (select_by_key_NoDup file_id fid rows). }
  assert (Htasks : (count_tasks fid w <= count_rows fid w)%nat).
  { unfold count_tasks, tasks_of, count_rows, rows_of. rewrite Hm, Hq.
    pose proof (select_by_key_NoDup dl_file_id fid tasks Htnd) as Hle.
    destruct (filter (fun t => String.eqb (dl_file_id t) fid) tasks) as [|t ts] eqn:Hf;
      [simpl; lia|].
    assert (Hin : In fid (map dl_file_id tasks)).
    { assert (Ht : In t (filter (fun t => String.eqb (dl_file_id t) fid) tasks))
        by (rewrite Hf; now left).
      apply filter_In in Ht. destruct Ht as [Ht Heq].
      apply String.eqb_eq in Heq. subst fid. now apply in_map. }
    apply Hincl in Hin.
    pose proof (select_by_key_In file_id fid rows Hin). lia. }
  split; [exact Hrows|]. split; [exact Htasks|].
  split; [intros r Hr; rewrite Hm in Hr; apply (Hnew r Hr)|].
  split.
  { intros Hd Hok.
    pose proof (run_cycles_discovers cfg fid cs empty_world Hd Hok) as Hrow.
    fold w in Hrow. apply has_row_In in Hrow.
    pose proof (select_by_key_In file_id fid (file_manifest w) Hrow) as Hge.
    unfold count_rows, rows_of in *. lia. }
  split; [intros c w0 Hrow; apply grows_keeps; [apply poll_grows | exact Hrow]|].
  split; [intros e ts sat ptype size w0 Hrow; now apply log_new_file_existing|].
  intros c m w0 Hfalse. unfold Poller.enqueue_downloads. simpl.
  destruct (log_new_file (insert_error c 0) (meta_file_id m) (meta_timestamp m)
              (meta_satellite m) (meta_product_type m) (meta_size_mb m) w0)
    as [success w1] eqn:Hlog.
  simpl in Hfalse. subst success.
  unfold log_new_file in Hlog.
  destruct (insert_error c 0); [now inversion Hlog|].
  destruct (has_row (meta_file_id m) (file_manifest w0)); [now inversion Hlog|].
  discriminate.
Qed.

(** The scenario of the specification: [X1] found in two cycles. *)
Lemma dedup_insert_if_absent_witness :
  count_rows "X1" (Poller.run_cycles Sample.cfg [Sample.finds_x1; Sample.finds_x1]
                     empty_world) = 1%nat.
Proof.
  apply (dedup_insert_if_absent Sample.cfg [Sample.finds_x1; Sample.finds_x1] "X1").
  - reflexivity.
  - intros c [<- | [<- | []]] i; reflexivity.
Defined.

End Dedup.

(* ===================================================================== *)
(** ** Discovery: the query log                                           *)
(* ===================================================================== *)

Section QueryLog.
Import Poller PollerDatabase.

Lemma enqueue_downloads_from_same_tables c file_list :
  forall i w1 w2,
    same_tables w1 w2 ->
    fst (enqueue_downloads_from c i file_list w1) =
      fst (enqueue_downloads_from c i file_list w2) /\
    same_tables (snd (enqueue_downloads_from c i file_list w1))
                (snd (enqueue_downloads_from c i file_list w2)).
Proof.
  induction file_list as [|m rest IH]; intros i w1 w2 [Hm Hq]; simpl.
  - split; [reflexivity | split; assumption].
  - unfold log_new_file. rewrite Hm.
    destruct (insert_error c i); [apply IH; split; assumption|].
    destruct (has_row (meta_file_id m) (file_manifest w2));
      [apply IH; split; assumption|].
    destruct (broker_error c i).
    + apply IH. split; simpl; congruence.
    + match goal with
      | |- context [fst (let '(_, _) := enqueue_downloads_from c (S i) rest ?a in _) =
                    fst (let '(_, _) := enqueue_downloads_from c (S i) rest ?b in _)] =>
          destruct (IH (S i) a b) as [Hn Hs];
          [split; simpl; congruence|];
          destruct (enqueue_downloads_from c (S i) rest a);
          destruct (enqueue_downloads_from c (S i) rest b)
      end.
      simpl in *. split; [congruence | exact Hs].
Qed.

Lemma poll_same_tables cfg c w1 w2 :
  same_tables w1 w2 -> same_tables (poll cfg c w1) (poll cfg c w2).
Proof.
  intros [Hm Hq]. unfold poll, query_new_files.
  destruct (response c) as [err | total products]; [split; assumption|].
  destruct (total =? 0); [split; assumption|].
  destruct (extracted products) as [|a rest]; [split; assumption|].
  unfold filter_new_files, is_file_processed. simpl file_manifest. rewrite Hm.
  match goal with
  | |- context [match ?l with [] => _ | _ :: _ => _ end] => destruct l
  end; [split; assumption|].
  apply enqueue_downloads_from_same_tables. split; assumption.
Qed.

(** C8.  When the catalog call of a cycle raises, the query returns the
    empty list and appends one row to the query log: status FAILED, the
    error, no files; the cycle ends there, with the manifest and the queue
    as they were and the catalog called once; and the next cycle does to
    the manifest and the queue what it would have done without the failed
    one. *)
Theorem catalog_failure_is_logged :
  forall cfg c w err,
    response c = SearchRaises err ->
    fst (query_new_files cfg c w) = [] /\
    poll cfg c w = snd (query_new_files cfg c w) /\
    api_query_log (poll cfg c w) =
      api_query_log w ++ [failed_query (query_duration c) err] /\
    same_tables (poll cfg c w) w /\
    searches (poll cfg c w) = searches w ++ [search_window cfg (now c)] /\
    (forall next, same_tables (poll cfg next (poll cfg c w)) (poll cfg next w)).
Proof.
  intros cfg c w err Hresp.
  assert (Hpoll : poll cfg c w = snd (query_new_files cfg c w)).
  { unfold poll, query_new_files. rewrite Hresp. reflexivity. }
  assert (Hsame : same_tables (poll cfg c w) w).
  { rewrite Hpoll. unfold query_new_files. rewrite Hresp. split; reflexivity. }
  split; [unfold query_new_files; rewrite Hresp; reflexivity|].
  split; [exact Hpoll|].
  split; [rewrite Hpoll; unfold query_new_files; rewrite Hresp; reflexivity|].
  split; [exact Hsame|].
  split; [rewrite Hpoll; apply query_new_files_searches|].
  intros next. now apply poll_same_tables.
Qed.

(** A cycle whose catalog answers 503. *)
Lemma catalog_failure_is_logged_witness :
  api_query_log (poll Sample.cfg Sample.catalog_down empty_world) =
    [failed_query 1 "503 Service Unavailable"].
Proof.
  apply (catalog_failure_is_logged Sample.cfg Sample.catalog_down empty_world
           (err := "503 Service Unavailable")).
  reflexivity.
Defined.

Lemma enqueue_downloads_from_query_log c file_list :
  forall i w,
    api_query_log (snd (enqueue_downloads_from c i file_list w)) = api_query_log w.
Proof.
  induction file_list as [|m rest IH]; intros i w; simpl; [reflexivity|].
  unfold log_new_file.
  destruct (insert_error c i); [apply IH|].
  destruct (has_row (meta_file_id m) (file_manifest w)); [apply IH|].
  destruct (broker_error c i); [now rewrite IH|].
  match goal with
  | |- context [enqueue_downloads_from c (S i) rest ?w1] =>
      specialize (IH (S i) w1);
      destruct (enqueue_downloads_from c (S i) rest w1) as [n w2]
  end.
  simpl in *. now rewrite IH.
Qed.

(** C7, on the code.  A cycle appends at most one row to the query
    log, and the row it appends has [files_new = 0] whatever the cycle
    inserted.  At a cycle that finds one file, new to the manifest, the
    row says 0 new files while one row was inserted; at a cycle that
    finds nothing, no row is logged at all. *)
Theorem query_log_misses_new_count :
  (forall cfg c w,
      exists rows,
        api_query_log (poll cfg c w) = api_query_log w ++ rows /\
        (List.length rows <= 1)%nat /\
        forall r, In r rows -> files_new r = 0) /\
  (has_row "X1" (file_manifest empty_world) = false /\
   count_rows "X1" (poll Sample.cfg Sample.finds_x1 empty_world) = 1%nat /\
   api_query_log (poll Sample.cfg Sample.finds_x1 empty_world) =
     [{| files_found := 1; files_new := 0; query_duration_sec := 1;
         query_status := SUCCESS; query_error := None |}]) /\
  api_query_log (poll Sample.cfg Sample.finds_nothing empty_world) = [].
Proof.
  split; [|repeat split].
  intros cfg c w. unfold poll, query_new_files.
  destruct (response c) as [err | total products].
  - eexists. split; [reflexivity|]. split; [simpl; lia|].
    intros r [<- | []]. reflexivity.
  - destruct (total =? 0).
    + exists []. rewrite app_nil_r. split; [reflexivity|]. split; [simpl; lia|].
      intros r [].
    + exists [{| files_found := total; files_new := 0;
                 query_duration_sec := query_duration c;
                 query_status := SUCCESS; query_error := None |}].
      split; [|split; [simpl; lia | intros r [<- | []]; reflexivity]].
      destruct (extracted products) as [|a rest]; [reflexivity|].
      match goal with
      | |- context [match ?l with [] => _ | _ :: _ => _ end] => destruct l
      end; [reflexivity|].
      unfold enqueue_downloads. now rewrite enqueue_downloads_from_query_log.
Qed.

End QueryLog.

(* ===================================================================== *)
(** ** The download worker                                                *)
(* ===================================================================== *)

Lemma rows_of_update_rows fid set m :
  (forall r, file_id (set r) = file_id r) ->
  rows_of fid (update_rows fid set m) = map set (rows_of fid m).
Proof.
  intros Hid. unfold rows_of, update_rows.
  induction m as [|r m IH]; simpl; [reflexivity|].
  destruct (String.eqb (file_id r) fid) eqn:E; simpl.
  - rewrite Hid, E. simpl. now rewrite IH.
  - rewrite E. exact IH.
Qed.

Lemma extend_extend a b hs : extend b (extend a hs) = extend (a ++ b) hs.
Proof.
  unfold extend. rewrite map_map. apply map_ext. intros h. now rewrite app_assoc.
Qed.

Lemma histories_update_download fid st a e p d w :
  histories fid (DownloaderDatabase.update_download_status fid st a e p d w)
  = extend [st] (histories fid w).
Proof.
  unfold histories, column, extend, DownloaderDatabase.update_download_status. simpl.
  rewrite rows_of_update_rows by reflexivity. rewrite !map_map. reflexivity.
Qed.

Lemma column_update_download {A} (f : FileRecord -> A) fid st a e p d w :
  column f fid (DownloaderDatabase.update_download_status fid st a e p d w)
  = map (fun r => f (DownloaderDatabase.patch_download st a e p d r))
        (rows_of fid (file_manifest w)).
Proof.
  unfold column, DownloaderDatabase.update_download_status. simpl.
  rewrite rows_of_update_rows by reflexivity. now rewrite map_map.
Qed.

Lemma histories_set_disk fid d w : histories fid (set_disk d w) = histories fid w.
Proof. reflexivity. Qed.

Lemma histories_set_metrics fid l w : histories fid (set_metrics l w) = histories fid w.
Proof. reflexivity. Qed.

Lemma histories_set_processing_queue fid q w :
  histories fid (set_processing_queue q w) = histories fid w.
Proof. reflexivity. Qed.

Lemma histories_log_download_metrics fid f s d o e w :
  histories fid (DownloaderDatabase.log_download_metrics f s d o e w) = histories fid w.
Proof. reflexivity. Qed.

Create Rewrite HintDb hist.
#[local] Hint Rewrite histories_set_disk histories_set_metrics
  histories_set_processing_queue histories_log_download_metrics
  histories_update_download extend_extend : hist.

Ltac hist := autorewrite with hist; try reflexivity.

(** One step of the task monad, and nothing else, is unfolded. *)
Ltac run_task :=
  cbv beta iota zeta delta
      [Task.try_except Task.bind Task.exec Task.test Task.when Task.ret
       Task.raise fst snd].

Lemma path_exists_rmtree p d : path_exists p (rmtree p d) = false.
Proof.
  unfold path_exists, rmtree. induction d as [|[q k] d IH]; simpl; [reflexivity|].
  unfold under at 1. simpl.
  destruct (String.eqb q p) eqn:E; simpl; [exact IH|].
  destruct (String.prefix (p ++ "/") q); simpl; [exact IH|].
  now rewrite E.
Qed.

Lemma path_exists_remove p d : path_exists p (remove p d) = false.
Proof.
  unfold path_exists, remove. induction d as [|[q k] d IH]; simpl; [reflexivity|].
  destruct (String.eqb q p) eqn:E; simpl; [exact IH|].
  now rewrite E.
Qed.

Section Download.
Import DownloaderDatabase DownloaderTasks.

Variables strftime_ymd strftime_stamp : string -> string.
Variable retry_delay_seconds : option (list Z).

Lemma countdown_for_some delays attempt :
  delays <> [] -> 1 <= attempt ->
  exists d, countdown_for delays attempt = Task.ret d.
Proof.
  intros Hne Hpos. unfold countdown_for, index.
  destruct delays as [|d0 ds]; [congruence|].
  set (n := Z.of_nat (List.length (d0 :: ds))).
  assert (Hn : 1 <= n) by (unfold n; simpl List.length; lia).
  destruct (Z.leb_spec 0 (Z.min (attempt - 1) (n - 1))); [|lia].
  destruct (nth_error (d0 :: ds) (Z.to_nat (Z.min (attempt - 1) (n - 1)))) eqn:E.
  - eauto.
  - apply nth_error_None in E. unfold n in *. lia.
Qed.

(** An attempt whose collaborator raises goes to the except clauses. *)
Lemma download_file_raised retries td run w e :
  fetch_outcome run = FetchRaised e ->
  download_file strftime_ymd strftime_stamp retry_delay_seconds retries td run w =
    (if is_soft_timeout e
     then on_soft_timeout strftime_ymd strftime_stamp retry_delay_seconds retries td
     else on_exception strftime_ymd strftime_stamp retry_delay_seconds retries td run e)
      (at_handler (output_dir_of strftime_ymd strftime_stamp (dl_timestamp td))
                  (dl_file_id td) retries run w).
Proof.
  intros Ho. unfold download_file, fetch_product, at_handler. run_task.
  rewrite Ho. run_task. reflexivity.
Qed.

(** The removal of the artifact directory raises [NameError]. *)
Lemma on_exception_removal_raises retries td run e w1 :
  path_exists (output_dir_of strftime_ymd strftime_stamp (dl_timestamp td)) (disk w1) = true ->
  on_exception strftime_ymd strftime_stamp retry_delay_seconds retries td run e w1 =
    (Raise (Exc (Exn NameError "name 'shutil' is not defined")), w1).
Proof.
  intros Hthere. unfold on_exception. run_task. rewrite Hthere. reflexivity.
Qed.

Lemma on_soft_timeout_removal_raises retries td w1 :
  path_exists (output_dir_of strftime_ymd strftime_stamp (dl_timestamp td)) (disk w1) = true ->
  on_soft_timeout strftime_ymd strftime_stamp retry_delay_seconds retries td w1 =
    (Raise (Exc (Exn NameError "name 'shutil' is not defined")), w1).
Proof.
  intros Hthere. unfold on_soft_timeout. run_task. rewrite Hthere. reflexivity.
Qed.

(** With no directory to remove, attempts 1 and 2 are marked RETRY and
    ask for a retry. *)
Lemma on_exception_retries retries td run e w1 :
  path_exists (output_dir_of strftime_ymd strftime_stamp (dl_timestamp td)) (disk w1) = false ->
  (retries < 2)%nat ->
  retry_delays retry_delay_seconds <> [] ->
  exists countdown,
    on_exception strftime_ymd strftime_stamp retry_delay_seconds retries td run e w1 =
      (Raise (RetrySignal e countdown),
       update_download_status (dl_file_id td) RETRY None (Some (str e)) None None
         (log_download_metrics (dl_file_id td) "download" (fetch_seconds run)
            false (Some (str e)) w1)).
Proof.
  intros Hgone Hlt Hdelays.
  destruct (@countdown_for_some (retry_delays retry_delay_seconds)
              (Z.of_nat retries + 1) Hdelays ltac:(lia)) as [cd Hcd].
  exists cd. unfold on_exception. run_task. rewrite Hgone.
  destruct (Z.ltb_spec (Z.of_nat retries + 1) 3); [|lia].
  rewrite Hcd. run_task. unfold self_retry, max_retries.
  destruct (Nat.ltb_spec retries 3); [reflexivity|lia].
Qed.

(** With no directory to remove, attempt 3 and later are marked FAILED
    and return. *)
Lemma on_exception_gives_up retries td run e w1 :
  path_exists (output_dir_of strftime_ymd strftime_stamp (dl_timestamp td)) (disk w1) = false ->
  (2 <= retries)%nat ->
  on_exception strftime_ymd strftime_stamp retry_delay_seconds retries td run e w1 =
    (Ret (DownloadFailed (str e) (Z.of_nat retries + 1)),
     update_download_status (dl_file_id td) FAILED None
       (Some ("Max retries reached: " ++ str e)%string) None None
       (log_download_metrics (dl_file_id td) "download" (fetch_seconds run)
          false (Some (str e)) w1)).
Proof.
  intros Hgone Hge. unfold on_exception. run_task. rewrite Hgone.
  destruct (Z.ltb_spec (Z.of_nat retries + 1) 3); [lia|reflexivity].
Qed.

Lemma deliver_unfold (P R : Type) mr ar (body : nat -> P -> Task.M R) onf fuel retries p w :
  deliver mr ar body onf (S fuel) retries p w =
    let again w' :=
      match deliver mr ar body onf fuel (S retries) p w' with
      | Some o => Some {| final := final o; after := after o;
                          deliveries := S (deliveries o) |}
      | None => None
      end in
    match body retries p w with
    | (Ret r, w') => Some {| final := Succeeded r; after := w'; deliveries := 1 |}
    | (Raise (RetrySignal _ _), w') => again w'
    | (Raise (Exc e), w') =>
        if ar e then
          match self_retry mr retries e 0 with
          | RetrySignal _ _ => again w'
          | Exc e' => Some {| final := Failure e'; after := onf e' p w'; deliveries := 1 |}
          end
        else Some {| final := Failure e; after := onf e p w'; deliveries := 1 |}
    end.
Proof. reflexivity. Qed.

(** Behind the removal that raises.  If something else had taken the
    directory away before each handler ran, so that the handler had
    nothing to remove, a chain whose every attempt stops on an exception
    other than the soft time limit would end after three attempts:
    attempts 1 and 2 marked RETRY, attempt 3 marked FAILED by the
    handler's test [attempt < 3], one attempt before [max_retries = 3]
    would stop the chain. *)
Lemma handler_gives_up_on_third_attempt :
  forall td runs w,
    retry_delays retry_delay_seconds <> [] ->
    (forall n, exists e,
        fetch_outcome (runs n) = FetchRaised e /\ is_soft_timeout e = false) ->
    (forall n d,
        path_exists (output_dir_of strftime_ymd strftime_stamp (dl_timestamp td))
                    (fetch_disk (runs n) d) = false) ->
    exists o e,
      run_download strftime_ymd strftime_stamp retry_delay_seconds td runs w = Some o /\
      fetch_outcome (runs 2%nat) = FetchRaised e /\
      final o = Succeeded (DownloadFailed (str e) 3) /\
      deliveries o = 3%nat /\
      deliveries o <> S max_retries /\
      histories (dl_file_id td) (after o) =
        extend [DOWNLOADING; RETRY; DOWNLOADING; RETRY; DOWNLOADING; FAILED]
               (histories (dl_file_id td) w) /\
      column status (dl_file_id td) (after o) =
        map (fun _ => FAILED) (rows_of (dl_file_id td) (file_manifest w)) /\
      column download_attempt (dl_file_id td) (after o) =
        map (fun _ => Some 3) (rows_of (dl_file_id td) (file_manifest w)).
Proof.
  intros td runs w Hdelays Hfail Hgone.
  destruct (Hfail 0%nat) as [e0 [Ho0 Ht0]].
  destruct (Hfail 1%nat) as [e1 [Ho1 Ht1]].
  destruct (Hfail 2%nat) as [e2 [Ho2 Ht2]].
  set (dir := output_dir_of strftime_ymd strftime_stamp (dl_timestamp td)) in *.
  set (fid := dl_file_id td).
  assert (Hat : forall n w0, path_exists dir (disk (at_handler dir fid n (runs n) w0)) = false).
  { intros n w0. unfold at_handler. simpl. apply Hgone. }
  unfold run_download, max_retries.
  (* attempt 1 *)
  rewrite deliver_unfold. cbv zeta.
  rewrite (@download_file_raised 0%nat td (runs 0%nat) _ e0 Ho0), Ht0. fold dir fid.
  destruct (@on_exception_retries 0%nat td (runs 0%nat) e0 _ (Hat 0%nat w)
              ltac:(lia) Hdelays) as [cd0 ->].
  set (w1 := update_download_status _ RETRY _ _ _ _ _).
  (* attempt 2 *)
  rewrite deliver_unfold. cbv zeta.
  rewrite (@download_file_raised 1%nat td (runs 1%nat) _ e1 Ho1), Ht1. fold dir fid.
  destruct (@on_exception_retries 1%nat td (runs 1%nat) e1 _ (Hat 1%nat w1)
              ltac:(lia) Hdelays) as [cd1 ->].
  set (w2 := update_download_status _ RETRY _ _ _ _ _).
  (* attempt 3 *)
  rewrite deliver_unfold. cbv zeta.
  rewrite (@download_file_raised 2%nat td (runs 2%nat) _ e2 Ho2), Ht2. fold dir fid.
  rewrite (@on_exception_gives_up 2%nat td (runs 2%nat) e2 _ (Hat 2%nat w2)
             ltac:(lia)).
  eexists _, e2. split; [reflexivity|]. cbn [final deliveries after].
  split; [exact Ho2|]. split; [reflexivity|]. split; [reflexivity|].
  split; [unfold max_retries; lia|].
  subst w1 w2. unfold at_handler. fold fid.
  split; [hist|].
  split.
  - rewrite column_update_download. simpl.
    rewrite !rows_of_update_rows by reflexivity. now rewrite !map_map.
  - rewrite column_update_download. simpl.
    rewrite !rows_of_update_rows by reflexivity. now rewrite !map_map.
Qed.

End Download.

Lemma path_exists_makedirs p d : path_exists p (makedirs p d) = true.
Proof.
  unfold makedirs, path_exists, isdir.
  destruct (existsb _ d) eqn:E.
  - apply existsb_exists in E. destruct E as [x [Hin Hx]].
    apply andb_true_iff in Hx. apply existsb_exists. exists x. tauto.
  - rewrite existsb_app. simpl. rewrite String.eqb_refl. apply orb_true_r.
Qed.

(** Whatever stops the download, if the directory made for the product
    is still there when the handler runs, the removal raises, the task
    fails on that delivery, the record is marked FAILED by [on_failure],
    and the directory stays. *)
Lemma failed_download_keeps_directory ymd stamp delays td runs w e :
  DownloaderTasks.fetch_outcome (runs 0%nat) = DownloaderTasks.FetchRaised e ->
  (forall d, path_exists (DownloaderTasks.output_dir_of ymd stamp (dl_timestamp td)) d = true ->
             path_exists (DownloaderTasks.output_dir_of ymd stamp (dl_timestamp td))
                         (DownloaderTasks.fetch_disk (runs 0%nat) d) = true) ->
  exists o,
    DownloaderTasks.run_download ymd stamp delays td runs w = Some o /\
    final o = Failure (Exn NameError "name 'shutil' is not defined") /\
    deliveries o = 1%nat /\
    histories (dl_file_id td) (after o) =
      extend [DOWNLOADING; FAILED] (histories (dl_file_id td) w) /\
    path_exists (DownloaderTasks.output_dir_of ymd stamp (dl_timestamp td))
                (disk (after o)) = true.
Proof.
  intros Ho Hkeeps.
  set (dir := DownloaderTasks.output_dir_of ymd stamp (dl_timestamp td)) in *.
  assert (Hthere : path_exists dir
                     (disk (at_handler dir (dl_file_id td) 0 (runs 0%nat) w)) = true).
  { unfold at_handler. simpl. apply Hkeeps. apply path_exists_makedirs. }
  unfold DownloaderTasks.run_download, DownloaderTasks.max_retries.
  rewrite deliver_unfold. cbv zeta.
  rewrite (@download_file_raised ymd stamp delays 0%nat td (runs 0%nat) w e Ho).
  fold dir.
  assert (Hbody :
    (if is_soft_timeout e
     then DownloaderTasks.on_soft_timeout ymd stamp delays 0 td
     else DownloaderTasks.on_exception ymd stamp delays 0 td (runs 0%nat) e)
      (at_handler dir (dl_file_id td) 0 (runs 0%nat) w)
    = (Raise (Exc (Exn NameError "name 'shutil' is not defined")),
       at_handler dir (dl_file_id td) 0 (runs 0%nat) w)).
  { destruct (is_soft_timeout e).
    - now apply on_soft_timeout_removal_raises.
    - now apply on_exception_removal_raises. }
  rewrite Hbody. cbn [DownloaderTasks.autoretry_for exn_cls].
  eexists. split; [reflexivity|]. cbn [final deliveries after].
  split; [reflexivity|]. split; [reflexivity|].
  split; [unfold DownloaderTasks.on_failure, at_handler; hist | exact Hthere].
Qed.

(** C2, at the code.  A download whose fetch raises finds the directory
    that [os.makedirs] has just made still on the disk, so the handler
    calls [shutil.rmtree], which raises [NameError]: the task fails on its
    first delivery and is not retried, whatever the exception of the
    fetch; [on_failure] marks the record FAILED with the message of the
    [NameError]; RETRY is never written and the attempt recorded is 1,
    not [max_retries + 1]. *)
Theorem failing_download_is_not_retried :
  forall ymd stamp delays td runs w e,
    DownloaderTasks.fetch_outcome (runs 0%nat) = DownloaderTasks.FetchRaised e ->
    (forall d, path_exists (DownloaderTasks.output_dir_of ymd stamp (dl_timestamp td)) d = true ->
               path_exists (DownloaderTasks.output_dir_of ymd stamp (dl_timestamp td))
                           (DownloaderTasks.fetch_disk (runs 0%nat) d) = true) ->
    exists o,
      DownloaderTasks.run_download ymd stamp delays td runs w = Some o /\
      final o = Failure (Exn NameError "name 'shutil' is not defined") /\
      deliveries o = 1%nat /\
      deliveries o <> S DownloaderTasks.max_retries /\
      histories (dl_file_id td) (after o) =
        extend [DOWNLOADING; FAILED] (histories (dl_file_id td) w) /\
      column status (dl_file_id td) (after o) =
        map (fun _ => FAILED) (rows_of (dl_file_id td) (file_manifest w)) /\
      column error_message (dl_file_id td) (after o) =
        map (fun _ => Some "name 'shutil' is not defined")
            (rows_of (dl_file_id td) (file_manifest w)) /\
      column download_attempt (dl_file_id td) (after o) =
        map (fun _ => Some 1) (rows_of (dl_file_id td) (file_manifest w)).
Proof.
  intros ymd stamp delays td runs w e Ho Hkeeps.
  set (dir := DownloaderTasks.output_dir_of ymd stamp (dl_timestamp td)) in *.
  assert (Hthere : path_exists dir
                     (disk (at_handler dir (dl_file_id td) 0 (runs 0%nat) w)) = true).
  { unfold at_handler. simpl. apply Hkeeps. apply path_exists_makedirs. }
  unfold DownloaderTasks.run_download, DownloaderTasks.max_retries.
  rewrite deliver_unfold. cbv zeta.
  rewrite (@download_file_raised ymd stamp delays 0%nat td (runs 0%nat) w e Ho).
  fold dir.
  assert (Hbody :
    (if is_soft_timeout e
     then DownloaderTasks.on_soft_timeout ymd stamp delays 0 td
     else DownloaderTasks.on_exception ymd stamp delays 0 td (runs 0%nat) e)
      (at_handler dir (dl_file_id td) 0 (runs 0%nat) w)
    = (Raise (Exc (Exn NameError "name 'shutil' is not defined")),
       at_handler dir (dl_file_id td) 0 (runs 0%nat) w)).
  { destruct (is_soft_timeout e).
    - now apply on_soft_timeout_removal_raises.
    - now apply on_exception_removal_raises. }
  rewrite Hbody. cbn [DownloaderTasks.autoretry_for exn_cls].
  eexists. split; [reflexivity|]. cbn [final deliveries after].
  split; [reflexivity|]. split; [reflexivity|]. split; [discriminate|].
  unfold DownloaderTasks.on_failure, at_handler.
  split; [hist|].
  split; [|split];
    rewrite column_update_download; simpl;
    rewrite !rows_of_update_rows by reflexivity; now rewrite !map_map.
Qed.

(** The scenario of the specification: the connection breaks while the
    product of [X1] is written. *)
Lemma failing_download_is_not_retried_witness :
  exists o,
    DownloaderTasks.run_download Sample.ymd Sample.stamp None Sample.download_x1
      (fun _ => Sample.connection_reset) Sample.discovered_x1 = Some o /\
    deliveries o = 1%nat /\
    histories "X1" (after o) = [[QUEUED; DOWNLOADING; FAILED]] /\
    column download_attempt "X1" (after o) = [Some 1].
Proof.
  destruct (@failing_download_is_not_retried Sample.ymd Sample.stamp None
              Sample.download_x1 (fun _ => Sample.connection_reset)
              Sample.discovered_x1
              (Exn RequestException "connection reset") eq_refl)
    as (o & Hrun & _ & Hn & _ & Hh & _ & _ & Hatt).
  - intros d Hd. unfold Sample.connection_reset, DownloaderTasks.fetch_disk, path_exists.
    rewrite existsb_app. unfold path_exists in Hd. now rewrite Hd.
  - exists o. split; [exact Hrun|]. split; [exact Hn|]. split; [exact Hh|exact Hatt].
Defined.

(** C3, at a download whose connection breaks: the handler's removal of
    the directory raises [NameError], the task fails, the record is
    marked FAILED, and the directory and the partial file are still on
    disk. *)
Lemma download_failure_leaves_artifact :
  exists o,
    DownloaderTasks.run_download Sample.ymd Sample.stamp None Sample.download_x1
      (fun _ => Sample.connection_reset) Sample.discovered_x1 = Some o /\
    final o = Failure (Exn NameError "name 'shutil' is not defined") /\
    column status "X1" (after o) = [FAILED] /\
    column error_message "X1" (after o) = [Some "name 'shutil' is not defined"] /\
    path_exists Sample.raw_dir (disk (after o)) = true /\
    path_exists Sample.partial_file (disk (after o)) = true.
Proof.
  eexists. split; [vm_compute; reflexivity|].
  cbn [after final]. repeat split.
Qed.

(* ===================================================================== *)
(** ** What a download task writes to the manifest                        *)
(* ===================================================================== *)

Section DownloadChain.
Import DownloaderDatabase DownloaderTasks.

Variables strftime_ymd strftime_stamp : string -> string.
Variable retry_delay_seconds : option (list Z).

Lemma begun_weaken (F G : Prop) pre : (F -> G) -> begun F pre -> begun G pre.
Proof. intros HFG [|HF]; constructor. now apply HFG. Qed.

(** An attempt whose send of the processing task raises goes to the
    except clauses after DOWNLOADED is written. *)
Lemma download_file_send_raised retries td run w files main_file rest e :
  fetch_outcome run = Fetched files ->
  filter (fun f => endswith f ".nat") files = main_file :: rest ->
  send_raises run = Some e ->
  download_file strftime_ymd strftime_stamp retry_delay_seconds retries td run w =
    (if is_soft_timeout e
     then on_soft_timeout strftime_ymd strftime_stamp retry_delay_seconds retries td
     else on_exception strftime_ymd strftime_stamp retry_delay_seconds retries td run e)
      (at_send (output_dir_of strftime_ymd strftime_stamp (dl_timestamp td))
               (dl_file_id td) retries run w).
Proof.
  intros Ho Hnat Hs. unfold download_file, fetch_product, send_task, at_send, at_handler.
  run_task. rewrite Ho, Hnat. run_task. rewrite Hs. run_task. reflexivity.
Qed.

Lemma on_exception_summary retries td run e w w1 pre :
  is_soft_timeout e = false ->
  begun (send_raises run <> None) pre ->
  histories (dl_file_id td) w1 = extend pre (histories (dl_file_id td) w) ->
  processing_queue w1 = processing_queue w ->
  attempt_summary (dl_file_id td) retries run
    (fst (on_exception strftime_ymd strftime_stamp retry_delay_seconds retries td run e w1))
    w
    (snd (on_exception strftime_ymd strftime_stamp retry_delay_seconds retries td run e w1)).
Proof.
  intros Hcls Hpre Hh Hq. unfold on_exception, countdown_for. run_task.
  destruct (path_exists _ (disk w1)); run_task.
  - unfold shutil_rmtree. run_task. simpl.
    split; [reflexivity|]. split; [exists pre; auto | exact Hq].
  - destruct (Z.ltb_spec (Z.of_nat retries + 1) 3); run_task.
    + destruct (index _ _); run_task.
      * unfold self_retry. destruct (Nat.ltb_spec retries max_retries); simpl.
        -- split; [exists pre; split; [exact Hpre | hist; rewrite Hh; hist]|].
           split; [exact Hq|assumption].
        -- unfold max_retries in *. lia.
      * simpl. split; [reflexivity|].
        split; [exists pre; split; [exact Hpre | right; hist; rewrite Hh; hist] | exact Hq].
    + simpl. split; [exists pre; split; [exact Hpre | hist; rewrite Hh; hist] | exact Hq].
Qed.

Lemma on_soft_timeout_summary retries td run w w1 pre :
  begun (send_raises run <> None) pre ->
  histories (dl_file_id td) w1 = extend pre (histories (dl_file_id td) w) ->
  processing_queue w1 = processing_queue w ->
  attempt_summary (dl_file_id td) retries run
    (fst (on_soft_timeout strftime_ymd strftime_stamp retry_delay_seconds retries td w1))
    w
    (snd (on_soft_timeout strftime_ymd strftime_stamp retry_delay_seconds retries td w1)).
Proof.
  intros Hpre Hh Hq. unfold on_soft_timeout, countdown_for. run_task.
  destruct (path_exists _ (disk w1)); run_task.
  - unfold shutil_rmtree. run_task. simpl.
    split; [reflexivity|]. split; [exists pre; auto | exact Hq].
  - destruct (index _ _); run_task.
    + unfold self_retry. destruct (Nat.ltb_spec retries max_retries); simpl.
      * split; [exists pre; split; [exact Hpre | hist; rewrite Hh; hist]|].
        split; [exact Hq|assumption].
      * split; [reflexivity|].
        split; [exists pre; split; [exact Hpre | right; hist; rewrite Hh; hist] | exact Hq].
    + simpl. split; [reflexivity|].
      split; [exists pre; split; [exact Hpre | right; hist; rewrite Hh; hist] | exact Hq].
Qed.

Lemma download_file_summary retries td run w :
  attempt_summary (dl_file_id td) retries run
    (fst (download_file strftime_ymd strftime_stamp retry_delay_seconds retries td run w))
    w
    (snd (download_file strftime_ymd strftime_stamp retry_delay_seconds retries td run w)).
Proof.
  set (dir := output_dir_of strftime_ymd strftime_stamp (dl_timestamp td)).
  assert (Hh : histories (dl_file_id td) (at_handler dir (dl_file_id td) retries run w)
               = extend [DOWNLOADING] (histories (dl_file_id td) w))
    by (unfold at_handler; hist).
  assert (Hq : processing_queue (at_handler dir (dl_file_id td) retries run w)
               = processing_queue w) by reflexivity.
  assert (Hfetching : begun (send_raises run <> None) [DOWNLOADING]) by constructor.
  destruct (fetch_outcome run) as [files | e] eqn:Ho.
  - destruct (filter (fun f => endswith f ".nat") files) as [|main_file rest] eqn:Hnat.
    + assert (Heq :
        download_file strftime_ymd strftime_stamp retry_delay_seconds retries td run w =
        on_exception strftime_ymd strftime_stamp retry_delay_seconds retries td run
          (Exn ValueError "No .nat file found in downloaded product")
          (at_handler dir (dl_file_id td) retries run w)).
      { unfold download_file, fetch_product, at_handler. run_task.
        rewrite Ho, Hnat. run_task. reflexivity. }
      rewrite Heq. now apply on_exception_summary with (pre := [DOWNLOADING]).
    + destruct (send_raises run) as [e|] eqn:Hs.
      * rewrite (download_file_send_raised retries td run w Ho Hnat Hs). fold dir.
        assert (Hh2 : histories (dl_file_id td) (at_send dir (dl_file_id td) retries run w)
                      = extend [DOWNLOADING; DOWNLOADED] (histories (dl_file_id td) w))
          by (unfold at_send, at_handler; hist).
        assert (Hsending : begun (send_raises run <> None) [DOWNLOADING; DOWNLOADED])
          by (constructor; rewrite Hs; discriminate).
        destruct (is_soft_timeout e) eqn:Hcls.
        -- now apply on_soft_timeout_summary with (pre := [DOWNLOADING; DOWNLOADED]).
        -- now apply on_exception_summary with (pre := [DOWNLOADING; DOWNLOADED]).
      * unfold download_file, fetch_product, send_task. run_task.
        rewrite Ho, Hnat. run_task. rewrite Hs. run_task.
        simpl. split; [hist|]. eexists. split; [reflexivity|]. split; reflexivity.
  - rewrite (@download_file_raised strftime_ymd strftime_stamp retry_delay_seconds
               retries td run w e Ho). fold dir.
    destruct (is_soft_timeout e) eqn:Hcls.
    + now apply on_soft_timeout_summary with (pre := [DOWNLOADING]).
    + now apply on_exception_summary with (pre := [DOWNLOADING]).
Qed.

Lemma histories_on_failure e td w :
  histories (dl_file_id td) (DownloaderTasks.on_failure e td w) =
    extend [FAILED] (histories (dl_file_id td) w).
Proof. unfold DownloaderTasks.on_failure. hist. Qed.

(** A delivery chain writes a sequence of [download_writes], sends one
    processing task if it ends with the file downloaded and none
    otherwise. *)
Lemma deliver_download_writes td runs fuel :
  forall retries w o,
    deliver max_retries autoretry_for
      (fun retries td =>
         download_file strftime_ymd strftime_stamp retry_delay_seconds retries td (runs retries))
      DownloaderTasks.on_failure fuel retries td w = Some o ->
    exists downloaded written,
      download_writes (exists n, send_raises (runs n) <> None) downloaded written /\
      histories (dl_file_id td) (after o) = extend written (histories (dl_file_id td) w) /\
      if downloaded
      then exists t, processing_queue (after o) = processing_queue w ++ [t] /\
                     pr_file_id t = dl_file_id td
      else processing_queue (after o) = processing_queue w.
Proof.
  set (F := exists n, send_raises (runs n) <> None).
  induction fuel as [|fuel IH]; intros retries w o Hrun; [discriminate|].
  rewrite deliver_unfold in Hrun. cbv zeta in Hrun.
  pose proof (download_file_summary retries td (runs retries) w) as Hsum.
  destruct (download_file strftime_ymd strftime_stamp retry_delay_seconds retries td
              (runs retries) w) as [res w'].
  cbn [fst snd] in Hsum. unfold attempt_summary in Hsum. cbv zeta in Hsum.
  assert (Hweak : forall pre, begun (send_raises (runs retries) <> None) pre -> begun F pre).
  { intros pre. apply begun_weaken. intros H. now exists retries. }
  destruct res as [[path n d | err attempts] | [e | exc countdown]].
  - inversion Hrun; subst o; clear Hrun. cbn [after].
    destruct Hsum as [Hh [t [Hq [Hid _]]]].
    exists true, [DOWNLOADING; DOWNLOADED].
    split; [constructor|]. split; [exact Hh|]. eauto.
  - inversion Hrun; subst o; clear Hrun. cbn [after].
    destruct Hsum as [(pre & Hpre & Hh) Hq].
    exists false, (pre ++ [FAILED]).
    split; [constructor; auto|]. split; assumption.
  - destruct Hsum as [Hauto [(pre & Hpre & Hh) Hq]]. rewrite Hauto in Hrun.
    inversion Hrun; subst o; clear Hrun. cbn [after].
    destruct Hh as [Hh | Hh].
    + exists false, (pre ++ [FAILED]).
      split; [constructor; auto|].
      split; [rewrite histories_on_failure, Hh; hist|exact Hq].
    + exists false, (pre ++ [RETRY; FAILED]).
      split; [constructor; auto|].
      split; [rewrite histories_on_failure, Hh; hist; now rewrite <- app_assoc|exact Hq].
  - destruct Hsum as [(pre & Hpre & Hh) [Hq _]].
    destruct (deliver _ _ _ _ fuel (S retries) td w') as [o1|] eqn:Hrest; [|discriminate].
    inversion Hrun; subst o; clear Hrun. cbn [after].
    destruct (IH _ _ _ Hrest) as (downloaded & written & Hw & Hh1 & Hq1).
    exists downloaded, (pre ++ RETRY :: written).
    split; [constructor; auto|].
    split.
    + rewrite Hh1, Hh. hist. rewrite <- app_assoc. reflexivity.
    + rewrite Hq in Hq1. exact Hq1.
Qed.

(** The chain ends: the fuel of [run_download] is enough. *)
Lemma deliver_download_ends td runs fuel :
  forall retries w,
    (max_retries < retries + fuel)%nat ->
    (retries <= max_retries)%nat ->
    exists o,
      deliver max_retries autoretry_for
        (fun retries td =>
           download_file strftime_ymd strftime_stamp retry_delay_seconds retries td (runs retries))
        DownloaderTasks.on_failure fuel retries td w = Some o.
Proof.
  induction fuel as [|fuel IH]; intros retries w Hfuel Hle; [lia|].
  rewrite deliver_unfold. cbv zeta.
  pose proof (download_file_summary retries td (runs retries) w) as Hsum.
  destruct (download_file strftime_ymd strftime_stamp retry_delay_seconds retries td
              (runs retries) w) as [res w'].
  cbn [fst snd] in Hsum.
  destruct res as [r | [e | exc countdown]].
  - eauto.
  - destruct Hsum as [Hauto _]. rewrite Hauto. eauto.
  - destruct Hsum as [_ [_ Hlt]].
    destruct (IH (S retries) w') as [o Ho]; [lia | lia |].
    rewrite Ho. eauto.
Qed.

Lemma run_download_ends td runs w :
  exists o,
    run_download strftime_ymd strftime_stamp retry_delay_seconds td runs w = Some o.
Proof.
  unfold run_download. apply deliver_download_ends; lia.
Qed.

End DownloadChain.

(* ===================================================================== *)
(** ** The processing worker                                              *)
(* ===================================================================== *)

Lemma histories_update_processing fid st a e sr op qs md sp msz pd w :
  histories fid
    (ProcessorDatabase.update_processing_status fid st a e sr op qs md sp msz pd w)
  = extend [st] (histories fid w).
Proof.
  unfold histories, column, extend, ProcessorDatabase.update_processing_status. simpl.
  rewrite rows_of_update_rows by reflexivity. rewrite !map_map. reflexivity.
Qed.

Lemma column_update_processing {A} (f : FileRecord -> A)
      fid st a e sr op qs md sp msz pd w :
  column f fid
    (ProcessorDatabase.update_processing_status fid st a e sr op qs md sp msz pd w)
  = map (fun r => f (ProcessorDatabase.patch_processing st a e sr op qs md sp msz pd r))
        (rows_of fid (file_manifest w)).
Proof.
  unfold column, ProcessorDatabase.update_processing_status. simpl.
  rewrite rows_of_update_rows by reflexivity. now rewrite map_map.
Qed.

Lemma histories_log_processing_metrics fid f s d o e w :
  histories fid (ProcessorDatabase.log_processing_metrics f s d o e w) = histories fid w.
Proof. reflexivity. Qed.

#[local] Hint Rewrite histories_update_processing
  histories_log_processing_metrics : hist.

Lemma path_exists_cleanup p d : path_exists p (cleanup_disk p d) = false.
Proof.
  unfold cleanup_disk. destruct (isdir p d); [apply path_exists_rmtree|].
  destruct (path_exists p d) eqn:E; [apply path_exists_remove|exact E].
Qed.

(** The cleanup puts nothing on the disk. *)
Lemma cleanup_disk_incl p d : incl (cleanup_disk p d) d.
Proof.
  unfold cleanup_disk, rmtree, remove.
  destruct (isdir p d); [apply incl_filter|].
  destruct (path_exists p d); [apply incl_filter|apply incl_refl].
Qed.

Lemma cleanup_file_runs p w :
  ProcessorTasks.cleanup_file p w = (Ret tt, set_disk (cleanup_disk p (disk w)) w).
Proof.
  unfold ProcessorTasks.cleanup_file, cleanup_disk,
    ProcessorTasks.shutil_rmtree, ProcessorTasks.os_remove.
  run_task.
  destruct (isdir p (disk w)); [reflexivity|].
  destruct (path_exists p (disk w)); [reflexivity|].
  destruct w; reflexivity.
Qed.

Section Process.
Import ProcessorDatabase ProcessorTasks Quality.

Variables strftime_ymd strftime_stamp : string -> string.
Variable fmt_1f : Q -> string.
Variable config : QualityConfig.

Ltac unfold_process :=
  unfold process_file, log_stage, write_netcdf, generate_output_path, stage.

Ltac processed st :=
  rewrite cleanup_file_runs;
  eexists _, _; split; [reflexivity|]; split; [apply path_exists_cleanup|];
  exists st; split; [hist|reflexivity].

(** [process_file] always returns; it writes PROCESSING and one terminal
    status, and leaves no raw artifact. *)
Lemma process_file_summary td run w :
  exists r w',
    process_file strftime_ymd strftime_stamp fmt_1f config td run w = (Ret r, w') /\
    path_exists (pr_file_path td) (disk w') = false /\
    exists st,
      histories (pr_file_id td) w' = extend [PROCESSING; st] (histories (pr_file_id td) w) /\
      match r with
      | Skipped _ => st = SKIPPED
      | Processed _ _ _ => st = COMPLETE
      | TimedOut | Errored _ => st = PROCESSING_FAILED
      end.
Proof.
  unfold_process. run_task.
  destruct (loaded run) as [scene|]; run_task.
  2:{ cbn [is_soft_timeout exn_cls]. run_task. processed PROCESSING_FAILED. }
  destruct (skip (assess fmt_1f config scene)); run_task.
  { processed SKIPPED. }
  destruct (stops_at run) as [[s e]|]; run_task.
  - destruct s; cbn [Stage_eqb]; run_task;
      destruct (is_soft_timeout e); run_task; processed PROCESSING_FAILED.
  - processed COMPLETE.
Qed.

(** A skip gives a reason. *)
Lemma assess_skip_reason scene :
  skip (assess fmt_1f config scene) = true ->
  exists reason, Quality.skip_reason (assess fmt_1f config scene) = Some reason.
Proof.
  unfold assess, assess_saturation, check_error.
  destruct (hrv_missing_pct scene) as [missing|msg]; [|simpl; eauto].
  destruct (Qgtb missing (max_missing_pct config)); [simpl; eauto|].
  destruct (solar_zenith_angle scene) as [[sza|msg]|]; simpl.
  - destruct (Qgtb sza (max_solar_zenith config)); [simpl; eauto|].
    destruct (hrv_saturation_pct scene); simpl; [discriminate|eauto].
  - eauto.
  - destruct (hrv_saturation_pct scene); simpl; [discriminate|eauto].
Qed.

Lemma run_process_once td runs w r w' :
  process_file strftime_ymd strftime_stamp fmt_1f config td (runs 0%nat) w = (Ret r, w') ->
  run_process strftime_ymd strftime_stamp fmt_1f config td runs w =
    Some {| final := Succeeded r; after := w'; deliveries := 1 |}.
Proof.
  intros Hbody. unfold run_process, ProcessorTasks.max_retries.
  rewrite deliver_unfold. cbv zeta. now rewrite Hbody.
Qed.

(** The run of [process_file] on a scene that the quality gate skips. *)
Lemma process_file_skips td run w scene :
  loaded run = Some scene ->
  skip (assess fmt_1f config scene) = true ->
  process_file strftime_ymd strftime_stamp fmt_1f config td run w =
    (Ret (Skipped (Quality.skip_reason (assess fmt_1f config scene))),
     set_disk (cleanup_disk (pr_file_path td) (disk w))
       (update_processing_status (pr_file_id td) SKIPPED None None
          (Quality.skip_reason (assess fmt_1f config scene)) None
          (Some (Quality.quality_score (assess fmt_1f config scene)))
          (Some (Quality.missing_data_pct (assess fmt_1f config scene)))
          None
          (Quality.mean_solar_zenith (assess fmt_1f config scene))
          (Some (total_seconds run))
          (log_processing_metrics (pr_file_id td) "quality_check"
             (stage_seconds run "quality_check") true None
             (log_processing_metrics (pr_file_id td) "load_nat"
                (stage_seconds run "load_nat") true None
                (update_processing_status (pr_file_id td) PROCESSING (Some 1)
                   None None None None None None None None w))))).
Proof.
  intros Hloaded Hskip. unfold_process. run_task.
  rewrite Hloaded. run_task. rewrite Hskip. run_task.
  rewrite cleanup_file_runs. reflexivity.
Qed.

Ltac columns :=
  unfold column;
  cbn [file_manifest set_disk set_metrics set_manifest
       update_processing_status log_processing_metrics];
  rewrite !rows_of_update_rows by reflexivity;
  rewrite !map_map; reflexivity.

(** C5, as the code has it.  When the quality report of the loaded
    scene says skip, the task returns "skipped" on its one delivery; the
    rows of the file are SKIPPED with the report's reason, score and
    missing-data share, and no output path; the raw artifact is gone and
    nothing is new on disk; the only stages run are the load and the
    quality check; no task is sent.  Of the other figures of the report,
    the mean solar zenith angle is written when the report has one, and
    the saturation share is not: that column is left as it was. *)
Theorem skip_is_a_designed_outcome :
  forall td runs w scene,
    loaded (runs 0%nat) = Some scene ->
    skip (assess fmt_1f config scene) = true ->
    exists o reason,
      run_process strftime_ymd strftime_stamp fmt_1f config td runs w = Some o /\
      Quality.skip_reason (assess fmt_1f config scene) = Some reason /\
      final o = Succeeded (Skipped (Some reason)) /\
      deliveries o = 1%nat /\
      column status (pr_file_id td) (after o) =
        map (fun _ => SKIPPED) (rows_of (pr_file_id td) (file_manifest w)) /\
      column Store.skip_reason (pr_file_id td) (after o) =
        map (fun _ => Some reason) (rows_of (pr_file_id td) (file_manifest w)) /\
      column Store.quality_score (pr_file_id td) (after o) =
        map (fun _ => Some (Quality.quality_score (assess fmt_1f config scene)))
            (rows_of (pr_file_id td) (file_manifest w)) /\
      column Store.missing_data_pct (pr_file_id td) (after o) =
        map (fun _ => Some (Quality.missing_data_pct (assess fmt_1f config scene)))
            (rows_of (pr_file_id td) (file_manifest w)) /\
      column output_file_path (pr_file_id td) (after o) =
        column output_file_path (pr_file_id td) w /\
      path_exists (pr_file_path td) (disk (after o)) = false /\
      incl (disk (after o)) (disk w) /\
      map metric_stage (processing_metrics (after o)) =
        map metric_stage (processing_metrics w) ++ ["load_nat"; "quality_check"] /\
      processing_queue (after o) = processing_queue w /\
      download_queue (after o) = download_queue w /\
      column Store.mean_solar_zenith (pr_file_id td) (after o) =
        map (fun r => patch (Quality.mean_solar_zenith (assess fmt_1f config scene))
                            (Store.mean_solar_zenith r))
            (rows_of (pr_file_id td) (file_manifest w)) /\
      column Store.saturation_pct (pr_file_id td) (after o) =
        column Store.saturation_pct (pr_file_id td) w /\
      column processing_duration_sec (pr_file_id td) (after o) =
        map (fun _ => Some (total_seconds (runs 0%nat)))
            (rows_of (pr_file_id td) (file_manifest w)).
Proof.
  intros td runs w scene Hloaded Hskip.
  destruct (assess_skip_reason scene Hskip) as [reason Hreason].
  pose proof (process_file_skips td (runs 0%nat) w Hloaded Hskip) as Hbody.
  rewrite Hreason in Hbody.
  eexists _, reason. split; [apply (run_process_once td runs w Hbody)|].
  cbn [final deliveries after].
  split; [exact Hreason|]. split; [reflexivity|]. split; [reflexivity|].
  split; [columns|]. split; [columns|]. split; [columns|]. split; [columns|].
  split; [columns|].
  split; [apply path_exists_cleanup|].
  split; [apply cleanup_disk_incl|].
  split; [simpl; rewrite !map_app; simpl; now rewrite <- app_assoc|].
  split; [reflexivity|]. split; [reflexivity|].
  split; [columns|]. split; columns.
Qed.

Ltac failed_run :=
  rewrite cleanup_file_runs;
  eexists; split; [reflexivity|];
  split; [columns|]; split; [columns|];
  split; [hist|]; split; [apply path_exists_cleanup|];
  split; reflexivity.

(** The run of [process_file] on a transform that fails. *)
Lemma process_file_fails td run w e :
  transform_failure fmt_1f config run = Some e ->
  exists w',
    process_file strftime_ymd strftime_stamp fmt_1f config td run w =
      (Ret (failure_result e), w') /\
    column status (pr_file_id td) w' =
      map (fun _ => PROCESSING_FAILED) (rows_of (pr_file_id td) (file_manifest w)) /\
    column error_message (pr_file_id td) w' =
      map (fun _ => Some (failure_message e)) (rows_of (pr_file_id td) (file_manifest w)) /\
    histories (pr_file_id td) w' =
      extend [PROCESSING; PROCESSING_FAILED] (histories (pr_file_id td) w) /\
    path_exists (pr_file_path td) (disk w') = false /\
    processing_queue w' = processing_queue w /\
    download_queue w' = download_queue w.
Proof.
  unfold transform_failure, failure_result, failure_message. intros Hfail.
  unfold_process. run_task.
  destruct (loaded run) as [scene|]; run_task.
  2:{ inversion Hfail; subst e. cbn [is_soft_timeout exn_cls]. run_task. failed_run. }
  destruct (skip (assess fmt_1f config scene)); [discriminate|]. run_task.
  destruct (stops_at run) as [[s e']|]; [|discriminate].
  inversion Hfail; subst e'. run_task.
  destruct s; cbn [Stage_eqb]; run_task;
    destruct (is_soft_timeout e); run_task; failed_run.
Qed.

(** C6, as the code has it.  When the transform fails outside the
    quality assessment (the load returns nothing, or a stage after the
    quality gate raises) or the soft time limit strikes in such a stage,
    the task returns on its one delivery, the rows of the file are
    PROCESSING_FAILED with the error message, and the raw artifact is
    gone; no task is sent. *)
Theorem processing_failure_is_terminal :
  forall td runs w e,
    transform_failure fmt_1f config (runs 0%nat) = Some e ->
    exists o,
      run_process strftime_ymd strftime_stamp fmt_1f config td runs w = Some o /\
      final o = Succeeded (failure_result e) /\
      deliveries o = 1%nat /\
      column status (pr_file_id td) (after o) =
        map (fun _ => PROCESSING_FAILED) (rows_of (pr_file_id td) (file_manifest w)) /\
      column error_message (pr_file_id td) (after o) =
        map (fun _ => Some (failure_message e)) (rows_of (pr_file_id td) (file_manifest w)) /\
      histories (pr_file_id td) (after o) =
        extend [PROCESSING; PROCESSING_FAILED] (histories (pr_file_id td) w) /\
      path_exists (pr_file_path td) (disk (after o)) = false /\
      processing_queue (after o) = processing_queue w /\
      download_queue (after o) = download_queue w.
Proof.
  intros td runs w e Hfail.
  destruct (process_file_fails td (runs 0%nat) w Hfail)
    as (w' & Hbody & Hst & Herr & Hh & Hgone & Hpq & Hdq).
  eexists. split; [apply (run_process_once td runs w Hbody)|].
  cbn [final deliveries after]. repeat (split; [first [reflexivity|assumption]|]).
  assumption.
Qed.

Lemma assess_raises_skips scene msg :
  assess_raises config scene msg ->
  skip (assess fmt_1f config scene) = true /\
  Quality.skip_reason (assess fmt_1f config scene) =
    Some ("QUALITY_CHECK_ERROR: " ++ msg)%string.
Proof.
  intros Hraises. unfold assess, assess_saturation, check_error.
  destruct Hraises as [msg Hhrv | missing msg Hhrv Hmiss Hsza
                      | missing msg Hhrv Hmiss Hsza Hsat].
  - rewrite Hhrv. split; reflexivity.
  - rewrite Hhrv, Hmiss, Hsza. split; reflexivity.
  - rewrite Hhrv, Hmiss.
    destruct (solar_zenith_angle scene) as [[sza|m]|]; [|contradiction|].
    + rewrite Hsza, Hsat. split; reflexivity.
    + rewrite Hsat. split; reflexivity.
Qed.

(** C10.  When an exception is raised inside the quality assessment,
    [assess] returns a report with [skip] set and a reason that begins
    with QUALITY_CHECK_ERROR:, and the task that loaded the scene marks
    the rows of the file SKIPPED, not PROCESSING_FAILED, and returns
    "skipped". *)
Theorem quality_check_error_skips :
  forall scene msg,
    assess_raises config scene msg ->
    skip (assess fmt_1f config scene) = true /\
    Quality.skip_reason (assess fmt_1f config scene) =
      Some ("QUALITY_CHECK_ERROR: " ++ msg)%string /\
    String.prefix "QUALITY_CHECK_ERROR:" ("QUALITY_CHECK_ERROR: " ++ msg) = true /\
    forall td runs w,
      loaded (runs 0%nat) = Some scene ->
      exists o,
        run_process strftime_ymd strftime_stamp fmt_1f config td runs w = Some o /\
        final o = Succeeded (Skipped (Some ("QUALITY_CHECK_ERROR: " ++ msg)%string)) /\
        column status (pr_file_id td) (after o) =
          map (fun _ => SKIPPED) (rows_of (pr_file_id td) (file_manifest w)) /\
        ~ In PROCESSING_FAILED (column status (pr_file_id td) (after o)) /\
        column Store.skip_reason (pr_file_id td) (after o) =
          map (fun _ => Some ("QUALITY_CHECK_ERROR: " ++ msg)%string)
              (rows_of (pr_file_id td) (file_manifest w)).
Proof.
  intros scene msg Hraises.
  destruct (assess_raises_skips Hraises) as [Hskip Hreason].
  split; [exact Hskip|]. split; [exact Hreason|]. split; [reflexivity|].
  intros td runs w Hloaded.
  pose proof (process_file_skips td (runs 0%nat) w Hloaded Hskip) as Hbody.
  rewrite Hreason in Hbody.
  eexists. split; [apply (run_process_once td runs w Hbody)|].
  cbn [final after].
  assert (Hst : column status (pr_file_id td)
                  (set_disk (cleanup_disk (pr_file_path td) (disk w))
                     (update_processing_status (pr_file_id td) SKIPPED None None
                        (Some ("QUALITY_CHECK_ERROR: " ++ msg)%string) None
                        (Some (Quality.quality_score (assess fmt_1f config scene)))
                        (Some (Quality.missing_data_pct (assess fmt_1f config scene)))
                        None
                        (Quality.mean_solar_zenith (assess fmt_1f config scene))
                        (Some (total_seconds (runs 0%nat)))
                        (log_processing_metrics (pr_file_id td) "quality_check"
                           (stage_seconds (runs 0%nat) "quality_check") true None
                           (log_processing_metrics (pr_file_id td) "load_nat"
                              (stage_seconds (runs 0%nat) "load_nat") true None
                              (update_processing_status (pr_file_id td) PROCESSING (Some 1)
                                 None None None None None None None None w)))))
                = map (fun _ => SKIPPED) (rows_of (pr_file_id td) (file_manifest w)))
    by columns.
  split; [reflexivity|]. split; [exact Hst|].
  split; [|columns].
  rewrite Hst. intros Hin. apply in_map_iff in Hin.
  destruct Hin as [r [Habs _]]. discriminate.
Qed.

End Process.

(** The scenario of the specification: the transform reports a night
    image. *)
Lemma skip_is_a_designed_outcome_witness :
  exists o,
    ProcessorTasks.run_process Sample.ymd Sample.stamp Sample.fmt Sample.quality_defaults
      Sample.process_x1 (fun _ => Sample.transform_of Sample.night_scene None)
      Sample.downloaded_x1 = Some o /\
    column status "X1" (after o) = [SKIPPED] /\
    path_exists Sample.raw_dir (disk (after o)) = false.
Proof.
  destruct (@skip_is_a_designed_outcome Sample.ymd Sample.stamp Sample.fmt
              Sample.quality_defaults Sample.process_x1
              (fun _ => Sample.transform_of Sample.night_scene None)
              Sample.downloaded_x1 Sample.night_scene)
    as (o & reason & Hrun & _ & _ & _ & Hst & _ & _ & _ & _ & Hgone & _).
  - reflexivity.
  - reflexivity.
  - exists o. split; [exact Hrun|]. split; [exact Hst|exact Hgone].
Defined.

(** C5, as claimed: SKIPPED with the skip reason and the quality
    fields.  The record of the night image is SKIPPED with score 0 and
    nothing missing, but the saturation share of its report, 0, is not
    written: the column is still null. *)
Lemma skip_leaves_saturation_unset :
  exists o,
    ProcessorTasks.run_process Sample.ymd Sample.stamp Sample.fmt Sample.quality_defaults
      Sample.process_x1 (fun _ => Sample.transform_of Sample.night_scene None)
      Sample.downloaded_x1 = Some o /\
    column status "X1" (after o) = [SKIPPED] /\
    column Store.quality_score "X1" (after o) = [Some 0%Q] /\
    column Store.missing_data_pct "X1" (after o) = [Some 0%Q] /\
    Quality.saturation_pct
      (Quality.assess Sample.fmt Sample.quality_defaults Sample.night_scene) = 0%Q /\
    column Store.saturation_pct "X1" (after o) = [None] /\
    column Store.saturation_pct "X1" (after o) <>
      [Some (Quality.saturation_pct
               (Quality.assess Sample.fmt Sample.quality_defaults Sample.night_scene))].
Proof.
  eexists. split; [vm_compute; reflexivity|]. cbn [after].
  repeat split. discriminate.
Qed.

(** The reprojection of a day scene raises. *)
Lemma processing_failure_is_terminal_witness :
  exists o,
    ProcessorTasks.run_process Sample.ymd Sample.stamp Sample.fmt Sample.quality_defaults
      Sample.process_x1 (fun _ => Sample.reprojection_fails)
      Sample.downloaded_x1 = Some o /\
    column status "X1" (after o) = [PROCESSING_FAILED] /\
    column error_message "X1" (after o) = [Some "resampling failed"] /\
    path_exists Sample.raw_dir (disk (after o)) = false.
Proof.
  destruct (@processing_failure_is_terminal Sample.ymd Sample.stamp Sample.fmt
              Sample.quality_defaults Sample.process_x1
              (fun _ => Sample.reprojection_fails)
              Sample.downloaded_x1
              (Exn RuntimeError "resampling failed"))
    as (o & Hrun & _ & _ & Hst & Herr & _ & Hgone & _).
  - reflexivity.
  - exists o. split; [exact Hrun|]. split; [exact Hst|]. split; [exact Herr|exact Hgone].
Defined.

(** C6, as claimed: PROCESSING_FAILED whenever the transform fails or
    the task times out.  The soft time limit strikes while the quality
    assessment reads the HRV channel; the assessment catches it and
    reports a skip, and the record ends SKIPPED with the reason
    QUALITY_CHECK_ERROR and no error message, not PROCESSING_FAILED. *)
Lemma failure_in_quality_check_is_skipped :
  transform_failure Sample.fmt Sample.quality_defaults
    (Sample.transform_of Cases.interrupted_scene None) = None /\
  exists o,
    ProcessorTasks.run_process Sample.ymd Sample.stamp Sample.fmt Sample.quality_defaults
      Sample.process_x1 (fun _ => Sample.transform_of Cases.interrupted_scene None)
      Sample.downloaded_x1 = Some o /\
    final o =
      Succeeded (ProcessorTasks.Skipped
                   (Some "QUALITY_CHECK_ERROR: SoftTimeLimitExceeded()")) /\
    column status "X1" (after o) = [SKIPPED] /\
    ~ In PROCESSING_FAILED (column status "X1" (after o)) /\
    column error_message "X1" (after o) = [None] /\
    path_exists Sample.raw_dir (disk (after o)) = false.
Proof.
  split; [reflexivity|].
  eexists. split; [vm_compute; reflexivity|]. cbn [after final].
  split; [reflexivity|]. split; [reflexivity|].
  split; [intros [H | []]; discriminate|].
  split; reflexivity.
Qed.

(** A scene loaded without its HRV channel. *)
Lemma quality_check_error_skips_witness :
  Quality.skip (Quality.assess Sample.fmt Sample.quality_defaults Sample.no_hrv_scene) = true.
Proof.
  apply (@quality_check_error_skips Sample.ymd Sample.stamp Sample.fmt
           Sample.quality_defaults Sample.no_hrv_scene "'HRV'").
  apply raises_at_hrv. reflexivity.
Defined.

(* ===================================================================== *)
(** ** The path of a record through the transition graph                  *)
(* ===================================================================== *)

Lemma chain_in_app g a l b rest :
  chain_in g a (l ++ b :: rest) = chain_in g a (l ++ [b]) && chain_in g b rest.
Proof.
  revert a. induction l as [|x l IH]; intros a; simpl.
  - now rewrite andb_true_r.
  - rewrite IH. now rewrite andb_assoc.
Qed.

Lemma edge_step a b : edge a b = true -> step a b = true.
Proof. unfold step. now intros ->. Qed.

Lemma download_writes_weaken (F G : Prop) downloaded written :
  (F -> G) -> download_writes F downloaded written -> download_writes G downloaded written.
Proof.
  intros HFG. induction 1; constructor; eauto using begun_weaken.
Qed.

Section Walk.

(** A graph that has the edges of the transition graph, and the two
    steps out of DOWNLOADED if a send failed. *)
Variable g : Status -> Status -> bool.
Variable send_failed : Prop.
Hypothesis has_edges : forall a b, edge a b = true -> g a b = true.
Hypothesis has_steps : send_failed -> g DOWNLOADED RETRY = true /\ g DOWNLOADED FAILED = true.

Lemma begun_walk pre :
  begun send_failed pre ->
  forall a b rest,
    a = QUEUED \/ a = RETRY ->
    b = RETRY \/ b = FAILED ->
    chain_in g a (pre ++ b :: rest) = chain_in g b rest.
Proof.
  intros [|Hsend] a b rest Ha Hb; simpl.
  - rewrite (has_edges a DOWNLOADING) by (destruct Ha; subst; reflexivity).
    rewrite (has_edges DOWNLOADING b) by (destruct Hb; subst; reflexivity).
    reflexivity.
  - rewrite (has_edges a DOWNLOADING) by (destruct Ha; subst; reflexivity).
    rewrite (has_edges DOWNLOADING DOWNLOADED) by reflexivity.
    destruct (has_steps Hsend) as [Hretry Hfailed].
    destruct Hb; subst; [rewrite Hretry | rewrite Hfailed]; reflexivity.
Qed.

(** What a download chain writes continues a path from QUEUED or RETRY,
    and can itself be continued by the processing worker if it ended
    with the file downloaded. *)
Lemma download_writes_chain downloaded written :
  download_writes send_failed downloaded written ->
  forall a,
    a = QUEUED \/ a = RETRY ->
    chain_in g a written = true /\
    (downloaded = true ->
     forall st,
       st = COMPLETE \/ st = SKIPPED \/ st = PROCESSING_FAILED ->
       chain_in g a (written ++ [PROCESSING; st]) = true).
Proof.
  induction 1 as [|pre Hpre|pre Hpre|pre b rest Hpre Hrest IH]; intros a Ha.
  - assert (Hfirst : g a DOWNLOADING = true)
      by (apply has_edges; destruct Ha; subst; reflexivity).
    split.
    + simpl. rewrite Hfirst. now rewrite (has_edges DOWNLOADING DOWNLOADED).
    + intros _ st Hst. simpl. rewrite Hfirst.
      rewrite (has_edges DOWNLOADING DOWNLOADED) by reflexivity.
      rewrite (has_edges DOWNLOADED PROCESSING) by reflexivity.
      rewrite (has_edges PROCESSING st) by (destruct Hst as [-> | [-> | ->]]; reflexivity).
      reflexivity.
  - split; [|discriminate].
    now rewrite (begun_walk Hpre [] Ha (or_intror eq_refl)).
  - split; [|discriminate].
    rewrite (begun_walk Hpre [FAILED] Ha (or_introl eq_refl)). simpl.
    now rewrite (has_edges RETRY FAILED).
  - destruct (IH RETRY (or_intror eq_refl)) as [Hc Hp].
    split.
    + now rewrite (begun_walk Hpre rest Ha (or_introl eq_refl)).
    + intros Hb st Hst. rewrite <- app_assoc. simpl.
      rewrite (begun_walk Hpre _ Ha (or_introl eq_refl)). now apply Hp.
Qed.

End Walk.

Section Lifecycle.
Import Poller PollerDatabase.

Variables strftime_ymd strftime_stamp : string -> string.
Variable retry_delay_seconds : option (list Z).
Variable fmt_1f : Q -> string.
Variable config : Quality.QualityConfig.

Lemma histories_inserted fid ts sat ptype size w :
  has_row fid (file_manifest w) = false ->
  histories fid (set_manifest (file_manifest w ++ [new_record fid ts sat ptype size]) w)
  = [[QUEUED]].
Proof.
  intros Habs. unfold histories, column, rows_of. simpl. rewrite filter_app.
  fold (rows_of fid (file_manifest w)). rewrite (rows_of_absent _ _ Habs).
  simpl. now rewrite String.eqb_refl.
Qed.

Lemma sent_since_none w w' :
  processing_queue w' = processing_queue w -> Pipeline.sent_since w w' = [].
Proof.
  intros Hq. unfold Pipeline.sent_since. rewrite Hq. apply skipn_all.
Qed.

Lemma sent_since_one w w' t :
  processing_queue w' = processing_queue w ++ [t] -> Pipeline.sent_since w w' = [t].
Proof.
  intros Hq. unfold Pipeline.sent_since. rewrite Hq.
  rewrite skipn_app, skipn_all, Nat.sub_diag. reflexivity.
Qed.

(** The statuses written to a new record by a lifecycle are a path of
    every graph that has the edges of the transition graph, and the two
    steps out of DOWNLOADED if a send of the processing task failed. *)
Lemma lifecycle_walks c m fetches transforms w :
  has_row (meta_file_id m) (file_manifest w) = false ->
  exists w',
    Pipeline.lifecycle strftime_ymd strftime_stamp retry_delay_seconds fmt_1f config
      c m fetches transforms w = Some w' /\
    forall g,
      (forall a b, edge a b = true -> g a b = true) ->
      ((exists n, DownloaderTasks.send_raises (fetches n) <> None) ->
       g DOWNLOADED RETRY = true /\ g DOWNLOADED FAILED = true) ->
      forall h, In h (histories (meta_file_id m) w') -> path_in g h = true.
Proof.
  intros Habs.
  set (fid := meta_file_id m) in *.
  unfold Pipeline.lifecycle, enqueue_downloads. cbn [enqueue_downloads_from].
  unfold log_new_file. fold fid. rewrite Habs.
  destruct (insert_error c 0).
  { exists w. split; [reflexivity|]. intros g _ _ h Hin.
    unfold histories, column in Hin. rewrite (rows_of_absent _ _ Habs) in Hin.
    destruct Hin. }
  set (w1 := set_manifest _ w).
  assert (Hw1 : histories fid w1 = [[QUEUED]]) by (apply histories_inserted; exact Habs).
  destruct (broker_error c 0).
  { exists w1. split; [reflexivity|]. intros g _ _ h Hin. rewrite Hw1 in Hin.
    destruct Hin as [<- | []]. reflexivity. }
  cbn [Z.add Z.eqb Pos.eqb Z.of_nat].
  set (w2 := send_download (task_of m) w1).
  assert (Hw2 : histories fid w2 = [[QUEUED]]) by exact Hw1.
  change (0 + 1 =? 0) with false. cbv iota.
  destruct (run_download_ends strftime_ymd strftime_stamp retry_delay_seconds
              (task_of m) fetches w2) as [o Hrun].
  rewrite Hrun.
  destruct (deliver_download_writes strftime_ymd strftime_stamp retry_delay_seconds
              (task_of m) fetches _ _ _ Hrun)
    as (downloaded & written & Hwrites & Hh & Hq).
  change (dl_file_id (task_of m)) with fid in Hh, Hq.
  rewrite Hw2 in Hh.
  destruct downloaded.
  - destruct Hq as (t & Hq & Hid).
    rewrite (@sent_since_one _ _ _ Hq).
    destruct (process_file_summary strftime_ymd strftime_stamp fmt_1f config
                t (transforms 0%nat) (after o))
      as (r & w' & Hbody & _ & st & Hh' & Hst).
    rewrite (@run_process_once strftime_ymd strftime_stamp fmt_1f config
               t transforms (after o) r w' Hbody).
    exists w'. split; [reflexivity|]. cbn [after].
    rewrite Hid, Hh in Hh'. intros g Hedges Hsteps h Hin. rewrite Hh' in Hin.
    destruct Hin as [<- | []].
    destruct (@download_writes_chain g _ Hedges Hsteps _ _ Hwrites QUEUED (or_introl eq_refl))
      as [_ Hcont].
    simpl. apply (Hcont eq_refl st).
    destruct r; auto.
  - rewrite (@sent_since_none _ _ Hq).
    exists (after o). split; [reflexivity|].
    intros g Hedges Hsteps h Hin. rewrite Hh in Hin. destruct Hin as [<- | []].
    destruct (@download_writes_chain g _ Hedges Hsteps _ _ Hwrites QUEUED (or_introl eq_refl))
      as [Hchain _].
    exact Hchain.
Qed.

(** C9, as the code has it.  The updates of the manifest write the
    status they are given, whatever the status of the row.  When the
    record of a descriptor is new and each of its tasks is delivered
    once (the download task with its retries, then the processing task
    that the download sent), the statuses written to the record are a
    path from QUEUED of the graph with the two steps out of DOWNLOADED,
    and a path of the transition graph itself when no send of the
    processing task raises. *)
Theorem delivered_once_path_is_valid :
  forall c m fetches transforms w,
    has_row (meta_file_id m) (file_manifest w) = false ->
    (exists w',
        Pipeline.lifecycle strftime_ymd strftime_stamp retry_delay_seconds fmt_1f config
          c m fetches transforms w = Some w' /\
        (forall h, In h (histories (meta_file_id m) w') -> walked_path h) /\
        ((forall n, DownloaderTasks.send_raises (fetches n) = None) ->
         forall h, In h (histories (meta_file_id m) w') -> valid_path h)) /\
    (forall fid st a e p d w0,
        column status fid (DownloaderDatabase.update_download_status fid st a e p d w0) =
          map (fun _ => st) (rows_of fid (file_manifest w0))) /\
    (forall fid st a e sr op qs md sp msz pd w0,
        column status fid
          (ProcessorDatabase.update_processing_status fid st a e sr op qs md sp msz pd w0) =
          map (fun _ => st) (rows_of fid (file_manifest w0))).
Proof.
  intros c m fetches transforms w Habs.
  split; [|split; intros; [apply column_update_download|apply column_update_processing]].
  destruct (@lifecycle_walks c m fetches transforms w Habs) as (w' & Hrun & Hwalk).
  exists w'. split; [exact Hrun|]. split.
  - intros h Hin. apply (Hwalk step edge_step); [|exact Hin].
    intros _. split; reflexivity.
  - intros Hnone h Hin. apply (Hwalk edge); [auto | | exact Hin].
    intros [n Hn]. exfalso. apply Hn, Hnone.
Qed.

End Lifecycle.

(** The scenario of the specification: [X1] is found, its download
    succeeds, the transform reports a night image. *)
Lemma delivered_once_path_is_valid_witness :
  exists w',
    Pipeline.lifecycle Sample.ymd Sample.stamp None Sample.fmt Sample.quality_defaults
      Sample.finds_x1 Sample.x1 (fun _ => Sample.arrives)
      (fun _ => Sample.transform_of Sample.night_scene None)
      empty_world = Some w' /\
    histories "X1" w' = [[QUEUED; DOWNLOADING; DOWNLOADED; PROCESSING; SKIPPED]] /\
    forall h, In h (histories "X1" w') -> valid_path h.
Proof.
  destruct (@delivered_once_path_is_valid Sample.ymd Sample.stamp None Sample.fmt
              Sample.quality_defaults Sample.finds_x1 Sample.x1 (fun _ => Sample.arrives)
              (fun _ => Sample.transform_of Sample.night_scene None) empty_world eq_refl)
    as [(w' & Hrun & _ & Hvalid) _].
  exists w'. split; [exact Hrun|].
  split; [|apply Hvalid; intros n; reflexivity].
  vm_compute in Hrun. inversion Hrun. reflexivity.
Defined.

(** C9, as claimed: no update skips a transition or moves a record out
    of a terminal state.  The record of [X1] is COMPLETE; its download
    task is delivered once more, and DOWNLOADING and DOWNLOADED are
    written after COMPLETE; the update alone does the same.  And with
    every task delivered once: [X1] is found and fetched, the send of its
    processing task raises, and the record goes from DOWNLOADED to
    FAILED. *)
Lemma redelivery_leaves_terminal_state :
  column status "X1" Sample.completed_x1 = [COMPLETE] /\
  terminal COMPLETE = true /\
  (exists o,
      DownloaderTasks.run_download Sample.ymd Sample.stamp None Sample.download_x1
        (fun _ => Sample.arrives) Sample.completed_x1 = Some o /\
      histories "X1" (after o) =
        [[QUEUED; DOWNLOADING; DOWNLOADED; PROCESSING; COMPLETE;
          DOWNLOADING; DOWNLOADED]] /\
      forall h, In h (histories "X1" (after o)) -> ~ valid_path h) /\
  column status "X1"
    (DownloaderDatabase.update_download_status "X1" DOWNLOADING (Some 1) None None None
       Sample.completed_x1) = [DOWNLOADING] /\
  (exists w',
      Pipeline.lifecycle Sample.ymd Sample.stamp None Sample.fmt Sample.quality_defaults
        Sample.finds_x1 Sample.x1 (fun _ => Cases.send_fails)
        (fun _ => Sample.transform_of Sample.day_scene None) empty_world = Some w' /\
      histories "X1" w' = [[QUEUED; DOWNLOADING; DOWNLOADED; FAILED]] /\
      forall h, In h (histories "X1" w') -> ~ valid_path h).
Proof.
  split; [reflexivity|]. split; [reflexivity|]. split; [|split; [reflexivity|]].
  - eexists. split; [vm_compute; reflexivity|]. cbn [after].
    split; [reflexivity|].
    intros h [<- | []]. discriminate.
  - eexists. split; [vm_compute; reflexivity|].
    split; [reflexivity|].
    intros h [<- | []]. discriminate.
Qed.

(* ===================================================================== *)
(** ** The configuration lookup                                           *)
(* ===================================================================== *)

Unset Implicit Arguments.

Section ConfigLookup.
Import Config.

Lemma split_not_nil sep s : split sep s <> [].
Proof.
  destruct s as [|c rest]; simpl; [discriminate|].
  destruct (Ascii.eqb c sep); [discriminate|].
  destruct (split sep rest); discriminate.
Qed.

Lemma split_no_dot part :
  has_dot part = false -> split "." part = [part].
Proof.
  induction part as [|c rest IH]; simpl; [reflexivity|].
  intros H. apply orb_false_iff in H. destruct H as [Hc Hrest].
  rewrite Hc, (IH Hrest). reflexivity.
Qed.

Lemma split_part_dot part s :
  has_dot part = false ->
  split "." (part ++ "." ++ s) = part :: split "." s.
Proof.
  induction part as [|c rest IH]; simpl; [reflexivity|].
  intros H. apply orb_false_iff in H. destruct H as [Hc Hrest].
  rewrite Hc. simpl in IH. rewrite (IH Hrest). reflexivity.
Qed.

(** Splitting a joined key gives the parts back. *)
Lemma split_join parts :
  parts <> [] ->
  Forall (fun part => has_dot part = false) parts ->
  split "." (join parts) = parts.
Proof.
  induction parts as [|part rest IH]; [congruence|].
  intros _ Hall. inversion Hall as [|? ? Hpart Hrest]; subst.
  destruct rest as [|part' rest'].
  - simpl. now apply split_no_dot.
  - change (join (part :: part' :: rest'))
      with (part ++ "." ++ join (part' :: rest'))%string.
    rewrite (split_part_dot _ _ Hpart), IH; [reflexivity | discriminate | assumption].
Qed.

Lemma dict_get_has_key entries k d1 d2 :
  has_key entries k = true -> dict_get entries k d1 = dict_get entries k d2.
Proof.
  unfold has_key. induction entries as [|[k' v] rest IH]; simpl; [discriminate|].
  destruct (String.eqb k' k); [reflexivity|]. exact IH.
Qed.

Lemma dict_get_missing entries k d :
  has_key entries k = false -> dict_get entries k d = d.
Proof.
  unfold has_key. induction entries as [|[k' v] rest IH]; simpl; [reflexivity|].
  destruct (String.eqb k' k); [discriminate|]. exact IH.
Qed.

Lemma get_from_descend path :
  forall config v default,
    descend config path = Some v ->
    is_none v = false ->
    get_from config path default = Found v.
Proof.
  induction path as [|k rest IH]; intros config v default Hd Hv; simpl in *.
  - now inversion Hd.
  - destruct config as [| | | | | |entries]; try discriminate.
    destruct (has_key entries k) eqn:Hk; [|discriminate].
    rewrite (dict_get_has_key entries k default YNone Hk).
    assert (Hnext : is_none (dict_get entries k YNone) = false).
    { destruct rest as [|k' rest'].
      - simpl in Hd. inversion Hd. now subst.
      - simpl in Hd. destruct (dict_get entries k YNone); try discriminate. reflexivity. }
    specialize (IH _ _ default Hd Hv).
    destruct (dict_get entries k YNone); try discriminate Hnext; exact IH.
Qed.

(** The value under a path of sections is found, whatever the default,
    unless it is null. *)
Theorem config_get_finds_nested_value :
  forall config path v default,
    path <> [] ->
    Forall (fun part => has_dot part = false) path ->
    descend config path = Some v ->
    is_none v = false ->
    get config (join path) default = Found v.
Proof.
  intros config path v default Hne Hdots Hd Hv.
  unfold get. rewrite (split_join _ Hne Hdots). now apply get_from_descend.
Qed.

Lemma config_get_finds_nested_value_witness :
  get sample "polling.lookback_minutes" (YInt 30) = Found (YInt 45).
Proof.
  apply (config_get_finds_nested_value sample ["polling"; "lookback_minutes"]
           (YInt 45) (YInt 30)).
  - discriminate.
  - repeat constructor.
  - reflexivity.
  - reflexivity.
Defined.

Lemma get_from_app parents :
  forall config section rest default,
    descend config parents = Some section ->
    is_none section = false ->
    get_from config (parents ++ rest) default = get_from section rest default.
Proof.
  induction parents as [|k ks IH]; intros config section rest default Hd Hs; simpl in *.
  - now inversion Hd.
  - destruct config as [| | | | | |entries]; try discriminate.
    destruct (has_key entries k) eqn:Hk; [|discriminate].
    rewrite (dict_get_has_key entries k default YNone Hk).
    assert (Hnext : is_none (dict_get entries k YNone) = false).
    { destruct ks as [|k' ks'].
      - simpl in Hd. inversion Hd. now subst.
      - simpl in Hd. destruct (dict_get entries k YNone); try discriminate. reflexivity. }
    specialize (IH _ _ rest default Hd Hs).
    destruct (dict_get entries k YNone); try discriminate Hnext; exact IH.
Qed.

(** A key that its section does not have, or has with a null value,
    gives the default. *)
Theorem config_get_defaults_missing_leaf :
  forall config parents entries k default,
    Forall (fun part => has_dot part = false) (parents ++ [k]) ->
    descend config parents = Some (YDict entries) ->
    has_key entries k = false \/ dict_get entries k YNone = YNone ->
    get config (join (parents ++ [k])) default = Found default.
Proof.
  intros config parents entries k default Hdots Hd Hleaf.
  unfold get. rewrite split_join; [|now destruct parents|exact Hdots].
  rewrite (get_from_app parents _ _ [k] default Hd eq_refl). simpl.
  destruct (has_key entries k) eqn:Hk.
  - destruct Hleaf as [Habs | Hnull]; [discriminate|].
    now rewrite (dict_get_has_key entries k default YNone Hk), Hnull.
  - rewrite (dict_get_missing entries k default Hk). now destruct default.
Qed.

Lemma config_get_defaults_missing_leaf_witness :
  get sample "polling.min_age_hours" (YInt 1) = Found (YInt 1) /\
  get sample "polling.interval_minutes" (YInt 15) = Found (YInt 15).
Proof.
  split.
  - apply (config_get_defaults_missing_leaf sample ["polling"]
             [("lookback_minutes", YInt 45); ("min_age_hours", YNone)]
             "min_age_hours" (YInt 1)).
    + repeat constructor.
    + reflexivity.
    + right. reflexivity.
  - apply (config_get_defaults_missing_leaf sample ["polling"]
             [("lookback_minutes", YInt 45); ("min_age_hours", YNone)]
             "interval_minutes" (YInt 15)).
    + repeat constructor.
    + reflexivity.
    + left. reflexivity.
Defined.

(** The default does not stand in for a missing section: when a key
    before the last is missing and the default is neither null nor a
    dictionary, the lookup goes on in the default and raises.  So does
    every lookup in a configuration that is not a dictionary (an empty
    file loads as null). *)
Theorem config_get_raises_on_missing_section :
  forall config parents entries k rest default,
    Forall (fun part => has_dot part = false) (parents ++ k :: rest) ->
    descend config parents = Some (YDict entries) ->
    has_key entries k = false ->
    rest <> [] ->
    is_none default = false ->
    is_dict default = false ->
    get config (join (parents ++ k :: rest)) default = AttributeError /\
    (forall top key, is_dict top = false -> get top key default = AttributeError).
Proof.
  intros config parents entries k rest default Hdots Hd Hk Hrest Hnone Hdict.
  split.
  - unfold get. rewrite split_join; [|now destruct parents|exact Hdots].
    rewrite (get_from_app parents _ _ (k :: rest) default Hd eq_refl). simpl.
    rewrite (dict_get_missing entries k default Hk).
    destruct rest as [|k' rest']; [congruence|].
    destruct default; try discriminate; reflexivity.
  - intros top key Htop. unfold get.
    pose proof (split_not_nil "." key) as Hsplit.
    destruct (split "." key) as [|k0 ks]; [congruence|].
    destruct top; try discriminate; reflexivity.
Qed.

Lemma config_get_raises_on_missing_section_witness :
  get sample "download.retry_delay_seconds" (YList [YInt 60; YInt 300; YInt 900])
  = AttributeError.
Proof.
  destruct (config_get_raises_on_missing_section sample []
              [("polling", YDict [("lookback_minutes", YInt 45); ("min_age_hours", YNone)])]
              "download" ["retry_delay_seconds"] (YList [YInt 60; YInt 300; YInt 900]))
    as [Hraises _].
  - repeat constructor.
  - reflexivity.
  - reflexivity.
  - discriminate.
  - reflexivity.
  - reflexivity.
  - exact Hraises.
Defined.

End ConfigLookup.

(* ===================================================================== *)
(** ** The quality gate                                                   *)
(* ===================================================================== *)

Section QualityGate.
Import Quality Further.

Variable fmt_1f : Q -> string.
Variable config : QualityConfig.

Lemma Qgtb_false a b : Qgtb a b = false <-> (a <= b)%Q.
Proof.
  unfold Qgtb. rewrite negb_false_iff. apply Qle_bool_iff.
Qed.

Lemma Qgtb_true a b : Qgtb a b = true <-> (b < a)%Q.
Proof.
  unfold Qgtb. rewrite negb_true_iff. split.
  - intros H. apply Qnot_le_lt. intros Hle. apply Qle_bool_iff in Hle. congruence.
  - intros H. destruct (Qle_bool a b) eqn:E; [|reflexivity].
    apply Qle_bool_iff in E. exfalso. apply (Qlt_not_le _ _ H E).
Qed.

(** A scene passes the gate only if every measurement was computed, the
    missing share and the mean zenith angle (when the scene has one) are
    within their thresholds; the report then carries the measurements,
    no reason, and the score [max(0, 100 - missing)]. *)
Theorem quality_gate_pass :
  forall scene,
    skip (assess fmt_1f config scene) = false ->
    exists missing saturation,
      hrv_missing_pct scene = Value missing /\
      (missing <= max_missing_pct config)%Q /\
      hrv_saturation_pct scene = Value saturation /\
      match solar_zenith_angle scene with
      | None => Quality.mean_solar_zenith (assess fmt_1f config scene) = None
      | Some (Value mean_sza) =>
          (mean_sza <= max_solar_zenith config)%Q /\
          Quality.mean_solar_zenith (assess fmt_1f config scene) = Some mean_sza
      | Some (Throws _) => False
      end /\
      Quality.skip_reason (assess fmt_1f config scene) = None /\
      Quality.quality_score (assess fmt_1f config scene) = Qmax 0 (100 - missing) /\
      Quality.missing_data_pct (assess fmt_1f config scene) = missing /\
      Quality.saturation_pct (assess fmt_1f config scene) = saturation.
Proof.
  intros scene. unfold assess, assess_saturation, check_error.
  destruct (hrv_missing_pct scene) as [missing|msg]; [|discriminate].
  destruct (Qgtb missing (max_missing_pct config)) eqn:Hmiss; [discriminate|].
  apply Qgtb_false in Hmiss.
  destruct (solar_zenith_angle scene) as [[sza|msg]|]; [| discriminate |].
  - destruct (Qgtb sza (max_solar_zenith config)) eqn:Hsza; [discriminate|].
    apply Qgtb_false in Hsza.
    destruct (hrv_saturation_pct scene) as [sat|msg]; [|discriminate].
    intros _. exists missing, sat. simpl. repeat split; assumption.
  - destruct (hrv_saturation_pct scene) as [sat|msg]; [|discriminate].
    intros _. exists missing, sat. simpl. repeat split; assumption.
Qed.

(** The checks are made in order and the first that fails gives the
    reason: too much missing data wins over a night scene and over
    whatever the later checks would have raised; a night scene wins over
    the saturation count.  Both reports have score 0. *)
Theorem quality_gate_first_reason :
  forall scene missing,
    hrv_missing_pct scene = Value missing ->
    ((max_missing_pct config < missing)%Q ->
     skip (assess fmt_1f config scene) = true /\
     Quality.skip_reason (assess fmt_1f config scene) =
       Some ("EXCESSIVE_MISSING_DATA (" ++ fmt_1f missing ++ "%)")%string /\
     Quality.quality_score (assess fmt_1f config scene) = 0%Q /\
     Quality.mean_solar_zenith (assess fmt_1f config scene) = None) /\
    (forall mean_sza,
        (missing <= max_missing_pct config)%Q ->
        solar_zenith_angle scene = Some (Value mean_sza) ->
        (max_solar_zenith config < mean_sza)%Q ->
        skip (assess fmt_1f config scene) = true /\
        Quality.skip_reason (assess fmt_1f config scene) =
          Some ("NIGHTTIME_IMAGE (SZA=" ++ fmt_1f mean_sza ++ "Â°)")%string /\
        Quality.quality_score (assess fmt_1f config scene) = 0%Q /\
        Quality.mean_solar_zenith (assess fmt_1f config scene) = Some mean_sza).
Proof.
  intros scene missing Hhrv. split.
  - intros Hover. apply Qgtb_true in Hover.
    unfold assess. rewrite Hhrv, Hover. simpl. repeat split.
  - intros mean_sza Hmiss Hsza Hnight.
    apply Qgtb_false in Hmiss. apply Qgtb_true in Hnight.
    unfold assess. rewrite Hhrv, Hmiss, Hsza, Hnight. simpl. repeat split.
Qed.

(** Whatever the scene, if the missing share is not negative the score
    of the report lies between 0 and 100. *)
Theorem quality_score_bounds :
  forall scene,
    (forall missing, hrv_missing_pct scene = Value missing -> (0 <= missing)%Q) ->
    (0 <= Quality.quality_score (assess fmt_1f config scene))%Q /\
    (Quality.quality_score (assess fmt_1f config scene) <= 100)%Q.
Proof.
  intros scene Hpos.
  assert (Hmax : forall m, (0 <= m)%Q ->
                           (0 <= Qmax 0 (100 - m))%Q /\ (Qmax 0 (100 - m) <= 100)%Q).
  { intros m Hm. split; [apply Q.le_max_l|].
    apply Q.max_lub; lra. }
  unfold assess, assess_saturation, check_error.
  destruct (hrv_missing_pct scene) as [missing|msg]; [|simpl; split; lra].
  specialize (Hpos missing eq_refl).
  destruct (Qgtb missing (max_missing_pct config)); [simpl; split; lra|].
  destruct (solar_zenith_angle scene) as [[sza|msg]|]; simpl.
  - destruct (Qgtb sza (max_solar_zenith config)); [simpl; split; lra|].
    destruct (hrv_saturation_pct scene); simpl; [now apply Hmax | split; lra].
  - split; lra.
  - destruct (hrv_saturation_pct scene); simpl; [now apply Hmax | split; lra].
Qed.

(** The saturation count is reported and nothing else: it changes
    neither the decision, nor the reason, nor the score. *)
Theorem saturation_is_only_reported :
  forall scene s1 s2,
    let r1 := assess fmt_1f config (with_saturation scene s1) in
    let r2 := assess fmt_1f config (with_saturation scene s2) in
    skip r1 = skip r2 /\
    Quality.skip_reason r1 = Quality.skip_reason r2 /\
    Quality.quality_score r1 = Quality.quality_score r2 /\
    Quality.missing_data_pct r1 = Quality.missing_data_pct r2 /\
    Quality.mean_solar_zenith r1 = Quality.mean_solar_zenith r2 /\
    (skip r1 = false -> Quality.saturation_pct r1 = s1).
Proof.
  intros scene s1 s2. unfold assess, assess_saturation, check_error, with_saturation.
  simpl.
  destruct (hrv_missing_pct scene) as [missing|msg];
    [|simpl; repeat split; intros; discriminate].
  destruct (Qgtb missing (max_missing_pct config));
    [simpl; repeat split; intros; discriminate|].
  destruct (solar_zenith_angle scene) as [[sza|msg]|]; simpl;
    [destruct (Qgtb sza (max_solar_zenith config)); simpl| |];
    repeat split; intros; discriminate.
Qed.

End QualityGate.

Lemma quality_gate_pass_witness :
  Quality.quality_score (Quality.assess Sample.fmt Sample.quality_defaults Sample.day_scene)
  = Qmax 0 (100 - 10).
Proof.
  destruct (quality_gate_pass Sample.fmt Sample.quality_defaults Sample.day_scene eq_refl)
    as (missing & saturation & Hm & _ & _ & _ & _ & Hscore & _).
  inversion Hm; subst missing. exact Hscore.
Defined.

Lemma quality_gate_first_reason_witness :
  Quality.skip (Quality.assess Sample.fmt Sample.quality_defaults Sample.night_scene) = true.
Proof.
  destruct (quality_gate_first_reason Sample.fmt Sample.quality_defaults Sample.night_scene 0%Q eq_refl) as [_ Hnight].
  destruct (Hnight 100%Q) as [Hskip _].
  - unfold Quality.max_missing_pct. simpl. lra.
  - reflexivity.
  - unfold Quality.max_solar_zenith. simpl. lra.
  - exact Hskip.
Defined.

Lemma quality_score_bounds_witness :
  (0 <= Quality.quality_score
          (Quality.assess Sample.fmt Sample.quality_defaults Sample.day_scene))%Q.
Proof.
  apply (quality_score_bounds Sample.fmt Sample.quality_defaults Sample.day_scene).
  intros missing H. inversion H. lra.
Defined.

(* ===================================================================== *)
(** ** The shape of a delivery chain of a download task                   *)
(* ===================================================================== *)

Lemma update_rows_compose fid f g m :
  (forall r, file_id (g r) = file_id r) ->
  update_rows fid f (update_rows fid g m) = update_rows fid (fun r => f (g r)) m.
Proof.
  intros Hid. unfold update_rows. rewrite map_map. apply map_ext. intros r.
  destruct (String.eqb (file_id r) fid) eqn:E.
  - now rewrite Hid, E.
  - now rewrite E.
Qed.

Lemma update_rows_same fid m : update_rows fid (fun r => r) m = m.
Proof.
  unfold update_rows. rewrite <- (map_id m) at 2. apply map_ext. intros r.
  now destruct (String.eqb (file_id r) fid).
Qed.

Section DownloadShape.
Import DownloaderDatabase DownloaderTasks Further.

Lemma patched_refl fid w : patched fid (fun r => r) w w.
Proof. split; [now rewrite update_rows_same | reflexivity]. Qed.

Lemma patched_trans fid P1 P2 w1 w2 w3 :
  patched fid P1 w1 w2 -> patched fid P2 w2 w3 ->
  patched fid (fun r => P2 (P1 r)) w1 w3.
Proof.
  intros [H1 Hid1] [H2 Hid2]. split.
  - rewrite H2, H1. now apply update_rows_compose.
  - intros r. now rewrite Hid2, Hid1.
Qed.

Lemma patched_update_download fid P w w1 st a e p d :
  patched fid P w w1 ->
  patched fid (fun r => patch_download st a e p d (P r)) w
          (update_download_status fid st a e p d w1).
Proof.
  intros H. apply (patched_trans fid P (patch_download st a e p d) w w1); [exact H|].
  split; reflexivity.
Qed.

(** A world that differs from [w1] outside the manifest. *)
Lemma patched_same_manifest fid P w w1 w2 :
  file_manifest w2 = file_manifest w1 ->
  patched fid P w w1 -> patched fid P w w2.
Proof. intros Hm [H Hid]. split; [now rewrite Hm | exact Hid]. Qed.

Variables strftime_ymd strftime_stamp : string -> string.
Variable retry_delay_seconds : option (list Z).

Ltac through_handler Hp :=
  first
    [ apply patched_update_download;
      refine (patched_same_manifest _ _ _ _ _ _ Hp); reflexivity
    | refine (patched_same_manifest _ _ _ _ _ _ Hp); reflexivity ].

Lemma on_exception_shape retries td run e w w1 P1 :
  is_soft_timeout e = false ->
  patched (dl_file_id td) P1 w w1 ->
  (forall r, download_attempt (P1 r) = Some (Z.of_nat retries + 1)) ->
  processing_queue w1 = processing_queue w ->
  download_queue w1 = download_queue w ->
  handed_over run = None ->
  attempt_shape (output_dir_of strftime_ymd strftime_stamp (dl_timestamp td)) td retries run
    (fst (on_exception strftime_ymd strftime_stamp retry_delay_seconds retries td run e w1))
    w
    (snd (on_exception strftime_ymd strftime_stamp retry_delay_seconds retries td run e w1)).
Proof.
  intros Hcls Hp Hatt Hq Hdq Hmain. unfold on_exception, countdown_for. run_task.
  destruct (path_exists _ (disk w1)); run_task.
  - unfold shutil_rmtree. run_task. simpl.
    exists P1. repeat split; try assumption; apply Hp.
  - destruct (Z.ltb_spec (Z.of_nat retries + 1) 3); run_task.
    + destruct (index _ _); run_task.
      * unfold self_retry. destruct (Nat.ltb_spec retries max_retries); simpl.
        -- eexists. split; [through_handler Hp|].
           split; [intros r; simpl; apply Hatt|]. split; [exact Hdq|].
           split; [reflexivity|]. split; [exact Hmain|]. split; assumption.
        -- unfold max_retries in *. lia.
      * simpl. eexists. split; [through_handler Hp|].
        split; [intros r; simpl; apply Hatt|]. split; [exact Hdq|].
        split; [reflexivity|]. split; assumption.
    + simpl. eexists. split; [through_handler Hp|].
      split; [intros r; simpl; apply Hatt|]. split; [exact Hdq|].
      split; [reflexivity|]. split; assumption.
Qed.

Lemma on_soft_timeout_shape retries td run w w1 P1 :
  patched (dl_file_id td) P1 w w1 ->
  (forall r, download_attempt (P1 r) = Some (Z.of_nat retries + 1)) ->
  processing_queue w1 = processing_queue w ->
  download_queue w1 = download_queue w ->
  handed_over run = None ->
  attempt_shape (output_dir_of strftime_ymd strftime_stamp (dl_timestamp td)) td retries run
    (fst (on_soft_timeout strftime_ymd strftime_stamp retry_delay_seconds retries td w1))
    w
    (snd (on_soft_timeout strftime_ymd strftime_stamp retry_delay_seconds retries td w1)).
Proof.
  intros Hp Hatt Hq Hdq Hmain. unfold on_soft_timeout, countdown_for. run_task.
  destruct (path_exists _ (disk w1)); run_task.
  - unfold shutil_rmtree. run_task. simpl.
    exists P1. repeat split; try assumption; apply Hp.
  - destruct (index _ _); run_task.
    + unfold self_retry. destruct (Nat.ltb_spec retries max_retries); simpl.
      * eexists. split; [through_handler Hp|].
        split; [intros r; simpl; apply Hatt|]. split; [exact Hdq|].
        split; [reflexivity|]. split; [exact Hmain|]. split; assumption.
      * eexists. split; [through_handler Hp|].
        split; [intros r; simpl; apply Hatt|]. split; [exact Hdq|].
        split; [reflexivity|]. split; assumption.
    + simpl. eexists. split; [through_handler Hp|].
      split; [intros r; simpl; apply Hatt|]. split; [exact Hdq|].
      split; [reflexivity|]. split; assumption.
Qed.

Lemma at_handler_patched dir td retries run w :
  patched (dl_file_id td)
    (patch_download DOWNLOADING (Some (Z.of_nat retries + 1)) None None None)
    w (at_handler dir (dl_file_id td) retries run w).
Proof. split; reflexivity. Qed.

(** A fetch that brings no [.nat] file is handled as the [ValueError]
    the task raises for it. *)
Lemma download_file_no_nat retries td run w files :
  fetch_outcome run = Fetched files ->
  filter (fun f => endswith f ".nat") files = [] ->
  download_file strftime_ymd strftime_stamp retry_delay_seconds retries td run w =
    on_exception strftime_ymd strftime_stamp retry_delay_seconds retries td run
      (Exn ValueError "No .nat file found in downloaded product")
      (at_handler (output_dir_of strftime_ymd strftime_stamp (dl_timestamp td))
                  (dl_file_id td) retries run w).
Proof.
  intros Ho Hnat. unfold download_file, fetch_product, at_handler. run_task.
  rewrite Ho, Hnat. run_task. reflexivity.
Qed.

Lemma download_file_shape retries td run w :
  attempt_shape (output_dir_of strftime_ymd strftime_stamp (dl_timestamp td)) td retries run
    (fst (download_file strftime_ymd strftime_stamp retry_delay_seconds retries td run w))
    w
    (snd (download_file strftime_ymd strftime_stamp retry_delay_seconds retries td run w)).
Proof.
  set (dir := output_dir_of strftime_ymd strftime_stamp (dl_timestamp td)).
  pose proof (at_handler_patched dir td retries run w) as Hp.
  destruct (fetch_outcome run) as [files | e] eqn:Ho.
  - destruct (filter (fun f => endswith f ".nat") files) as [|main_file rest] eqn:Hnat.
    + rewrite (download_file_no_nat retries td run w files Ho Hnat). fold dir.
      apply (on_exception_shape retries td run
               (Exn ValueError "No .nat file found in downloaded product")
               w _ _ eq_refl Hp);
        try reflexivity.
      unfold handed_over. rewrite Ho, Hnat. now destruct (send_raises run).
    + destruct (send_raises run) as [e|] eqn:Hs.
      { assert (Hmain : handed_over run = None)
          by (unfold handed_over; now rewrite Ho, Hs).
        assert (Hp2 : patched (dl_file_id td)
                        (fun r => patch_download DOWNLOADED None None (Some dir)
                                    (Some (fetch_seconds run))
                                    (patch_download DOWNLOADING
                                       (Some (Z.of_nat retries + 1)) None None None r))
                        w (at_send dir (dl_file_id td) retries run w)).
        { refine (patched_same_manifest _ _ _
                    (update_download_status (dl_file_id td) DOWNLOADED None None
                       (Some dir) (Some (fetch_seconds run))
                       (at_handler dir (dl_file_id td) retries run w)) _ eq_refl _).
          apply patched_update_download. exact Hp. }
        rewrite (@download_file_send_raised strftime_ymd strftime_stamp
                   retry_delay_seconds retries td run w files main_file rest e
                   Ho Hnat Hs).
        fold dir.
        destruct (is_soft_timeout e) eqn:Hcls.
        - apply (on_soft_timeout_shape retries td run w _ _ Hp2); try reflexivity.
          exact Hmain.
        - apply (on_exception_shape retries td run e w _ _ Hcls Hp2); try reflexivity.
          exact Hmain. }
      unfold download_file, fetch_product, send_task. run_task.
      rewrite Ho, Hnat. run_task. rewrite Hs. run_task.
      fold dir. simpl.
      exists (fun r => patch_download DOWNLOADED None None (Some dir)
                         (Some (fetch_seconds run))
                         (patch_download DOWNLOADING (Some (Z.of_nat retries + 1))
                            None None None r)).
      split.
      { refine (patched_same_manifest _ _ _
                  (update_download_status (dl_file_id td) DOWNLOADED None None
                     (Some dir) (Some (fetch_seconds run))
                     (at_handler dir (dl_file_id td) retries run w)) _ eq_refl _).
        apply patched_update_download. exact Hp. }
      split; [reflexivity|]. split; [reflexivity|]. split; [reflexivity|].
      split; [intros r; split; reflexivity|].
      exists main_file. split; [|reflexivity].
      unfold handed_over. now rewrite Ho, Hs, Hnat.
  - assert (Hmain : handed_over run = None) by (unfold handed_over; now rewrite Ho).
    rewrite (@download_file_raised strftime_ymd strftime_stamp retry_delay_seconds
               retries td run w e Ho).
    fold dir.
    destruct (is_soft_timeout e) eqn:Hcls.
    + apply (on_soft_timeout_shape retries td run w _ _ Hp); try reflexivity.
      exact Hmain.
    + apply (on_exception_shape retries td run e w _ _ Hcls Hp); try reflexivity.
      exact Hmain.
Qed.

Lemma patched_column {A} (f : FileRecord -> A) fid P w w' :
  patched fid P w w' ->
  column f fid w' = map (fun r => f (P r)) (rows_of fid (file_manifest w)).
Proof.
  intros [Hm Hid]. unfold column. rewrite Hm, rows_of_update_rows by exact Hid.
  now rewrite map_map.
Qed.

Lemma patched_ids fid P w w' :
  patched fid P w w' ->
  map file_id (file_manifest w') = map file_id (file_manifest w).
Proof.
  intros [Hm Hid]. rewrite Hm. unfold update_rows. rewrite map_map.
  apply map_ext. intros r. destruct (String.eqb (file_id r) fid); [apply Hid|reflexivity].
Qed.

Lemma patched_other fid fid' P w w' :
  patched fid P w w' ->
  fid' <> fid ->
  rows_of fid' (file_manifest w') = rows_of fid' (file_manifest w).
Proof.
  intros [Hm Hid] Hne. rewrite Hm. clear Hm. unfold rows_of, update_rows.
  induction (file_manifest w) as [|r m IH]; simpl; [reflexivity|].
  destruct (String.eqb (file_id r) fid) eqn:E.
  - rewrite Hid. apply String.eqb_eq in E.
    destruct (String.eqb (file_id r) fid') eqn:E'.
    + apply String.eqb_eq in E'. congruence.
    + exact IH.
  - destruct (String.eqb (file_id r) fid'); [now rewrite IH | exact IH].
Qed.

Lemma deliver_download_shape td runs fuel :
  forall retries w o,
    (retries <= max_retries)%nat ->
    deliver max_retries autoretry_for
      (fun retries td =>
         download_file strftime_ymd strftime_stamp retry_delay_seconds retries td (runs retries))
      DownloaderTasks.on_failure fuel retries td w = Some o ->
    chain_shape (output_dir_of strftime_ymd strftime_stamp (dl_timestamp td)) td runs
                retries o w.
Proof.
  set (dir := output_dir_of strftime_ymd strftime_stamp (dl_timestamp td)).
  induction fuel as [|fuel IH]; intros retries w o Hle Hrun; [discriminate|].
  rewrite deliver_unfold in Hrun. cbv zeta in Hrun.
  pose proof (download_file_shape retries td (runs retries) w) as Hshape.
  fold dir in Hshape.
  destruct (download_file strftime_ymd strftime_stamp retry_delay_seconds retries td
              (runs retries) w) as [res w'].
  cbn [fst snd] in Hshape.
  destruct Hshape as (P & Hp & Hatt & Hdq & Hres).
  assert (Hone : (retries + 1 - 1 = retries)%nat) by lia.
  assert (Hatt1 : forall r, download_attempt (P r) = Some (Z.of_nat (retries + 1))).
  { intros r. rewrite Hatt. f_equal. lia. }
  destruct res as [[path n d | err attempts] | [e | exc countdown]].
  - inversion Hrun; subst o; clear Hrun.
    destruct Hres as (Hpath & Hst & main_file & Hmain & Hq).
    exists P. cbn [after deliveries final]. rewrite Hone.
    split; [exact Hp|]. split; [lia|]. split; [lia|]. split; [exact Hatt1|].
    split; [exact Hdq|]. split; [exact Hpath|]. split; [exact Hst|]. eauto.
  - inversion Hrun; subst o; clear Hrun.
    destruct Hres as (Hst & Hmain & Hq).
    exists P. cbn [after deliveries final]. rewrite Hone.
    split; [exact Hp|]. split; [lia|]. split; [lia|]. split; [exact Hatt1|].
    split; [exact Hdq|]. split; [exact Hst|]. split; assumption.
  - destruct Hres as (Hauto & Hmain & Hq). rewrite Hauto in Hrun.
    inversion Hrun; subst o; clear Hrun.
    exists (fun r => patch_download FAILED None (Some (str e)) None None (P r)).
    cbn [after deliveries final]. rewrite Hone.
    split; [unfold DownloaderTasks.on_failure; now apply patched_update_download|].
    split; [lia|]. split; [lia|].
    split; [intros r; simpl; apply Hatt1|].
    split; [exact Hdq|]. split; [reflexivity|]. split; assumption.
  - destruct Hres as (Hst & Hmain & Hq & Hlt).
    destruct (deliver max_retries autoretry_for
                (fun retries td =>
                   download_file strftime_ymd strftime_stamp retry_delay_seconds
                                 retries td (runs retries))
                DownloaderTasks.on_failure fuel (S retries) td w') as [o1|] eqn:Hrest;
      [|discriminate].
    inversion Hrun; subst o; clear Hrun.
    destruct (IH (S retries) w' o1 ltac:(lia) Hrest)
      as (P2 & Hp2 & Hd1 & Hd2 & Hatt2 & Hdq2 & Hend).
    exists (fun r => P2 (P r)). cbn [after deliveries final].
    replace (retries + S (deliveries o1))%nat with (S retries + deliveries o1)%nat by lia.
    split; [now apply (patched_trans _ P P2 w w')|].
    split; [lia|]. split; [lia|].
    split; [intros r; apply Hatt2|].
    split; [now rewrite Hdq2|].
    rewrite Hq in Hend.
    destruct (final o1) as [[path n d | err attempts] | e].
    + destruct Hend as (Hpath & Hst2 & Hsent).
      split; [exact Hpath|]. split; [intros r; apply Hst2 | exact Hsent].
    + destruct Hend as (Hst2 & Hrestq). split; [intros r; apply Hst2 | exact Hrestq].
    + destruct Hend as (Hst2 & Hrestq). split; [intros r; apply Hst2 | exact Hrestq].
Qed.

End DownloadShape.

(** A delivery chain of a download task always ends, after one to four
    runs of the task; the attempt recorded is the number of runs; the
    rows of the file end DOWNLOADED, with the directory as raw path and
    one processing task sent for it, exactly when the last run fetched a
    [.nat] file and its send of the processing task did not raise, and
    FAILED with no task sent otherwise (also when the file was fetched
    and DOWNLOADED written before the send raised). *)
Theorem download_chain_outcome :
  forall strftime_ymd strftime_stamp retry_delay_seconds td runs w,
  exists o,
    DownloaderTasks.run_download strftime_ymd strftime_stamp retry_delay_seconds
      td runs w = Some o /\
    (1 <= deliveries o <= S DownloaderTasks.max_retries)%nat /\
    column download_attempt (dl_file_id td) (after o) =
      map (fun _ => Some (Z.of_nat (deliveries o)))
          (rows_of (dl_file_id td) (file_manifest w)) /\
    match Further.handed_over (runs (deliveries o - 1)%nat) with
    | Some main_file =>
        (exists n d,
            final o =
              Succeeded (DownloaderTasks.DownloadSuccess
                           (DownloaderTasks.output_dir_of strftime_ymd strftime_stamp
                              (dl_timestamp td)) n d)) /\
        column status (dl_file_id td) (after o) =
          map (fun _ => DOWNLOADED) (rows_of (dl_file_id td) (file_manifest w)) /\
        column raw_file_path (dl_file_id td) (after o) =
          map (fun _ => Some (DownloaderTasks.output_dir_of strftime_ymd strftime_stamp
                                (dl_timestamp td)))
              (rows_of (dl_file_id td) (file_manifest w)) /\
        processing_queue (after o) =
          processing_queue w ++
            [Further.process_task_of
               (DownloaderTasks.output_dir_of strftime_ymd strftime_stamp (dl_timestamp td))
               main_file td]
    | None =>
        (forall path n d,
            final o <> Succeeded (DownloaderTasks.DownloadSuccess path n d)) /\
        column status (dl_file_id td) (after o) =
          map (fun _ => FAILED) (rows_of (dl_file_id td) (file_manifest w)) /\
        processing_queue (after o) = processing_queue w
    end.
Proof.
  intros ymd stamp delays td runs w.
  destruct (@run_download_ends ymd stamp delays td runs w) as [o Hrun].
  exists o. split; [exact Hrun|].
  destruct (deliver_download_shape ymd stamp delays td runs _ 0%nat w o
              ltac:(unfold DownloaderTasks.max_retries; lia) Hrun)
    as (P & Hp & Hd1 & Hd2 & Hatt & Hdq & Hend).
  cbn [Nat.add] in *.
  split; [lia|].
  split; [rewrite (patched_column download_attempt _ P w (after o) Hp);
          apply map_ext; intros r; apply Hatt|].
  destruct (final o) as [[path n d | err attempts] | e].
  - destruct Hend as (Hpath & Hst & main_file & Hmain & Hq). rewrite Hmain.
    split; [exists n, d; now rewrite Hpath|].
    split; [rewrite (patched_column status _ P w (after o) Hp);
            apply map_ext; intros r; apply Hst|].
    split; [rewrite (patched_column raw_file_path _ P w (after o) Hp);
            apply map_ext; intros r; apply Hst|].
    exact Hq.
  - destruct Hend as (Hst & Hmain & Hq). rewrite Hmain.
    split; [intros; discriminate|].
    split; [rewrite (patched_column status _ P w (after o) Hp);
            apply map_ext; intros r; apply Hst|].
    exact Hq.
  - destruct Hend as (Hst & Hmain & Hq). rewrite Hmain.
    split; [intros; discriminate|].
    split; [rewrite (patched_column status _ P w (after o) Hp);
            apply map_ext; intros r; apply Hst|].
    exact Hq.
Qed.

(** A delivery chain of a download task touches the rows of its own
    file and nothing else in the manifest: no row is added or removed,
    the rows of every other file are as they were; and it sends no
    download task. *)
Theorem download_chain_isolation :
  forall strftime_ymd strftime_stamp retry_delay_seconds td runs w,
  exists o,
    DownloaderTasks.run_download strftime_ymd strftime_stamp retry_delay_seconds
      td runs w = Some o /\
    map file_id (file_manifest (after o)) = map file_id (file_manifest w) /\
    (forall fid, fid <> dl_file_id td ->
                 rows_of fid (file_manifest (after o)) = rows_of fid (file_manifest w)) /\
    download_queue (after o) = download_queue w.
Proof.
  intros ymd stamp delays td runs w.
  destruct (@run_download_ends ymd stamp delays td runs w) as [o Hrun].
  exists o. split; [exact Hrun|].
  destruct (deliver_download_shape ymd stamp delays td runs _ 0%nat w o
              ltac:(unfold DownloaderTasks.max_retries; lia) Hrun)
    as (P & Hp & _ & _ & _ & Hdq & _).
  split; [exact (patched_ids _ P w (after o) Hp)|].
  split; [intros fid Hne; exact (patched_other _ fid P w (after o) Hp Hne) | exact Hdq].
Qed.

(** A fetch that returns files none of which ends in [.nat] is a failed
    attempt like any other: the task does what it does when the
    collaborator raises [ValueError], in the same world. *)
Theorem fetch_without_nat_is_a_failure :
  forall strftime_ymd strftime_stamp retry_delay_seconds retries td run files w,
    DownloaderTasks.fetch_outcome run = DownloaderTasks.Fetched files ->
    filter (fun f => DownloaderTasks.endswith f ".nat") files = [] ->
    DownloaderTasks.download_file strftime_ymd strftime_stamp retry_delay_seconds
      retries td run w =
    DownloaderTasks.download_file strftime_ymd strftime_stamp retry_delay_seconds
      retries td
      (Further.raising run (Exn ValueError "No .nat file found in downloaded product")) w.
Proof.
  intros ymd stamp delays retries td run files w Ho Hnat.
  rewrite (download_file_no_nat ymd stamp delays retries td run w files Ho Hnat).
  rewrite (@download_file_raised ymd stamp delays retries td
             (Further.raising run (Exn ValueError "No .nat file found in downloaded product"))
             w (Exn ValueError "No .nat file found in downloaded product") eq_refl).
  reflexivity.
Qed.

Lemma fetch_without_nat_is_a_failure_witness :
  DownloaderTasks.download_file Sample.ymd Sample.stamp None 0 Sample.download_x1
    Cases.brings_no_nat Sample.discovered_x1 =
  DownloaderTasks.download_file Sample.ymd Sample.stamp None 0 Sample.download_x1
    (Further.raising Cases.brings_no_nat
       (Exn ValueError "No .nat file found in downloaded product"))
    Sample.discovered_x1.
Proof.
  apply (fetch_without_nat_is_a_failure Sample.ymd Sample.stamp None 0%nat
           Sample.download_x1 Cases.brings_no_nat
           [(Sample.raw_dir ++ "/manifest.xml")%string;
            (Sample.raw_dir ++ "/product.md5")%string]).
  - reflexivity.
  - reflexivity.
Defined.

(** The delay before a retry is the entry of the schedule for the
    attempt, and the last entry for every attempt beyond the schedule; an
    empty schedule raises [IndexError]. *)
Theorem retry_delay_schedule :
  forall delays attempt,
    1 <= attempt ->
    (delays <> [] ->
     DownloaderTasks.countdown_for delays attempt =
       Task.ret (Further.scheduled delays attempt) /\
     (Z.of_nat (List.length delays) <= attempt ->
      Further.scheduled delays attempt = last delays 0)) /\
    DownloaderTasks.countdown_for [] attempt =
      Task.raise (Exc (Exn IndexError "list index out of range")).
Proof.
  intros delays attempt Hpos. split.
  2:{ unfold DownloaderTasks.countdown_for. simpl List.length.
      replace (Z.min (attempt - 1) (Z.of_nat 0 - 1)) with (-1) by lia.
      reflexivity. }
  intros Hne.
  set (n := Z.of_nat (List.length delays)).
  assert (Hn : 1 <= n).
  { unfold n. destruct delays; [congruence|]. simpl List.length. lia. }
  assert (Hnth : nth_error delays (Z.to_nat (n - 1)) = Some (last delays 0)).
  { replace (Z.to_nat (n - 1)) with (List.length delays - 1)%nat by (unfold n; lia).
    clear -Hne. induction delays as [|d ds IH]; [congruence|].
    destruct ds as [|d' ds']; [reflexivity|].
    change (last (d :: d' :: ds') 0) with (last (d' :: ds') 0).
    rewrite <- IH by discriminate. simpl. now rewrite Nat.sub_0_r. }
  assert (Hlast : Z.of_nat (List.length delays) <= attempt ->
                  Further.scheduled delays attempt = last delays 0).
  { intros Hbeyond. fold n in Hbeyond. unfold Further.scheduled.
    destruct (Z.eq_dec attempt n) as [-> | Hgt].
    - exact (nth_error_nth _ _ _ Hnth).
    - apply nth_overflow. unfold n in *. lia. }
  split; [|exact Hlast].
  unfold DownloaderTasks.countdown_for, index. fold n.
  destruct (Z.leb_spec 0 (Z.min (attempt - 1) (n - 1))); [|lia].
  destruct (Z.le_gt_cases n attempt) as [Hbeyond | Hwithin].
  - rewrite (Hlast Hbeyond).
    replace (Z.min (attempt - 1) (n - 1)) with (n - 1) by lia.
    now rewrite Hnth.
  - replace (Z.min (attempt - 1) (n - 1)) with (attempt - 1) by lia.
    unfold Further.scheduled.
    destruct (nth_error delays (Z.to_nat (attempt - 1))) as [d|] eqn:E.
    + now rewrite (nth_error_nth _ _ _ E).
    + apply nth_error_None in E. unfold n in *. lia.
Qed.

Lemma retry_delay_schedule_witness :
  DownloaderTasks.countdown_for [60; 300; 900] 5 = Task.ret 900.
Proof.
  destruct (retry_delay_schedule [60; 300; 900] 5 ltac:(lia)) as [Hsome _].
  destruct (Hsome ltac:(discriminate)) as [Hret _]. exact Hret.
Defined.

(* ===================================================================== *)
(** ** The processing worker: what a run leaves behind                    *)
(* ===================================================================== *)

Lemma path_exists_cleanup_other p q d :
  under p q = false ->
  path_exists q (cleanup_disk p d) = path_exists q d.
Proof.
  intros Hout. unfold cleanup_disk, rmtree, remove, path_exists.
  assert (Hne : String.eqb q p = false).
  { unfold under in Hout. now apply orb_false_iff in Hout. }
  destruct (isdir p d); [|destruct (existsb _ d) eqn:E; [|reflexivity]].
  - clear -Hout. induction d as [|[x k] d IH]; simpl; [reflexivity|].
    destruct (String.eqb x q) eqn:Ex.
    + apply String.eqb_eq in Ex. subst x. rewrite Hout. simpl.
      now rewrite String.eqb_refl.
    + destruct (under p x); simpl; [exact IH|]. now rewrite Ex, IH.
  - clear -Hne. induction d as [|[x k] d IH]; simpl; [reflexivity|].
    destruct (String.eqb x q) eqn:Ex.
    + apply String.eqb_eq in Ex. subst x. rewrite Hne. simpl.
      now rewrite String.eqb_refl.
    + destruct (String.eqb x p); simpl; [exact IH|]. now rewrite Ex, IH.
Qed.

(** [cleanup_file] always returns; afterwards the path is not on the
    disk, every path that is neither the path nor below it is there
    exactly if it was, nothing is new on the disk, and the tables and the
    queues are as they were. *)
Theorem cleanup_removes_only_below :
  forall filepath w,
  exists w',
    ProcessorTasks.cleanup_file filepath w = (Ret tt, w') /\
    path_exists filepath (disk w') = false /\
    (forall q, under filepath q = false ->
               path_exists q (disk w') = path_exists q (disk w)) /\
    incl (disk w') (disk w) /\
    file_manifest w' = file_manifest w /\
    processing_metrics w' = processing_metrics w /\
    processing_queue w' = processing_queue w.
Proof.
  intros p w. eexists. split; [apply cleanup_file_runs|]. cbn [disk set_disk].
  split; [apply path_exists_cleanup|].
  split; [intros q Hq; now apply path_exists_cleanup_other|].
  split; [apply cleanup_disk_incl|].
  repeat split.
Qed.

Section ProcessShape.
Import ProcessorDatabase ProcessorTasks Quality Further.

Variables strftime_ymd strftime_stamp : string -> string.
Variable fmt_1f : Q -> string.
Variable config : QualityConfig.

Lemma patched_update_processing fid P w w1 st a e sr op qs md sp msz pd :
  patched fid P w w1 ->
  patched fid (fun r => patch_processing st a e sr op qs md sp msz pd (P r)) w
          (update_processing_status fid st a e sr op qs md sp msz pd w1).
Proof.
  intros H.
  apply (patched_trans fid P (patch_processing st a e sr op qs md sp msz pd) w w1);
    [exact H|].
  split; reflexivity.
Qed.

(** The writes of a run, peeled off one by one. *)
Ltac peel :=
  lazymatch goal with
  | |- patched _ _ ?w ?w => apply patched_refl
  | |- patched _ _ _ (update_processing_status _ _ _ _ _ _ _ _ _ _ _ _) =>
      apply patched_update_processing; peel
  | |- patched _ _ _ (log_processing_metrics _ _ _ _ _ ?w1) =>
      refine (patched_same_manifest _ _ _ w1 _ eq_refl _); peel
  | |- patched _ _ _ (set_disk _ ?w1) =>
      refine (patched_same_manifest _ _ _ w1 _ eq_refl _); peel
  end.

Ltac shaped :=
  rewrite cleanup_file_runs;
  eexists _, _, _; split; [reflexivity|];
  split; [peel|];
  split; [intros x; repeat split|];
  split; [reflexivity|]; split; [reflexivity|apply path_exists_cleanup].

(** One run of [process_file]: it returns, and what it did to the rows
    of its file goes with what it returned. *)
Lemma process_file_shape td run w :
  exists r w' P,
    process_file strftime_ymd strftime_stamp fmt_1f config td run w = (Ret r, w') /\
    patched (pr_file_id td) P w w' /\
    (forall x, raw_file_path (P x) = raw_file_path x /\
               download_attempt (P x) = download_attempt x /\
               processing_attempt (P x) = Some 1 /\
               status (P x) = status_of r) /\
    processing_queue w' = processing_queue w /\
    download_queue w' = download_queue w /\
    path_exists (pr_file_path td) (disk w') = false.
Proof.
  unfold process_file, log_stage, write_netcdf, generate_output_path, stage. run_task.
  destruct (loaded run) as [scene|]; run_task.
  2:{ cbn [is_soft_timeout exn_cls]. run_task. shaped. }
  destruct (skip (assess fmt_1f config scene)); run_task.
  { shaped. }
  destruct (stops_at run) as [[s e]|]; run_task.
  - destruct s; cbn [Stage_eqb]; run_task;
      destruct (is_soft_timeout e); run_task; shaped.
  - shaped.
Qed.

(** The run of [process_file] on a transform that goes through. *)
Lemma process_file_completes td run w scene :
  loaded run = Some scene ->
  skip (assess fmt_1f config scene) = false ->
  stops_at run = None ->
  let output_path := output_path_of strftime_ymd strftime_stamp (pr_timestamp td) in
  let logged name w := log_processing_metrics (pr_file_id td) name
                         (stage_seconds run name) true None w in
  let w1 := logged "subsetting"
              (logged "reprojection"
                 (logged "calibration"
                    (logged "quality_check"
                       (logged "load_nat"
                          (update_processing_status (pr_file_id td) PROCESSING (Some 1)
                             None None None None None None None None w))))) in
  let w2 := set_disk (makedirs ("/processed/" ++ strftime_ymd (pr_timestamp td))%string
                               (disk w1)) w1 in
  let w3 := set_disk (if path_exists output_path (disk w2) then disk w2
                      else disk w2 ++ [(output_path, RegularFile)]) w2 in
  let w4 := update_processing_status (pr_file_id td) COMPLETE None None None
              (Some output_path)
              (Some (Quality.quality_score (assess fmt_1f config scene)))
              (Some (Quality.missing_data_pct (assess fmt_1f config scene)))
              (Some (Quality.saturation_pct (assess fmt_1f config scene)))
              (Quality.mean_solar_zenith (assess fmt_1f config scene))
              (Some (total_seconds run))
              (logged "write_netcdf" w3) in
  process_file strftime_ymd strftime_stamp fmt_1f config td run w =
    (Ret (Processed output_path (total_seconds run)
                    (Quality.quality_score (assess fmt_1f config scene))),
     set_disk (cleanup_disk (pr_file_path td) (disk w4)) w4).
Proof.
  intros Hloaded Hskip Hstops. cbv zeta.
  unfold process_file, log_stage, write_netcdf, generate_output_path, stage. run_task.
  rewrite Hloaded. run_task. rewrite Hskip. run_task. rewrite Hstops. run_task.
  rewrite cleanup_file_runs. reflexivity.
Qed.

End ProcessShape.

(** Whatever the transform does, a processing task is run once and
    returns; the rows of its file end in the terminal status that goes
    with what it returned, with processing attempt 1. *)
Theorem processing_status_matches_result :
  forall strftime_ymd strftime_stamp fmt_1f config td runs w,
  exists o r,
    ProcessorTasks.run_process strftime_ymd strftime_stamp fmt_1f config td runs w = Some o /\
    final o = Succeeded r /\
    deliveries o = 1%nat /\
    terminal (Further.status_of r) = true /\
    column status (pr_file_id td) (after o) =
      map (fun _ => Further.status_of r) (rows_of (pr_file_id td) (file_manifest w)) /\
    column processing_attempt (pr_file_id td) (after o) =
      map (fun _ => Some 1) (rows_of (pr_file_id td) (file_manifest w)).
Proof.
  intros ymd stamp fmt config td runs w.
  destruct (process_file_shape ymd stamp fmt config td (runs 0%nat) w)
    as (r & w' & P & Hbody & Hp & Hcols & _).
  eexists _, r.
  split; [apply (@run_process_once ymd stamp fmt config td runs w r w' Hbody)|].
  cbn [final deliveries after].
  split; [reflexivity|]. split; [reflexivity|].
  split; [now destruct r|].
  split.
  - rewrite (patched_column status _ P w w' Hp). apply map_ext. intros x. apply Hcols.
  - rewrite (patched_column processing_attempt _ P w w' Hp).
    apply map_ext. intros x. apply Hcols.
Qed.

(** A processing task deletes the raw artifact whatever its result and
    leaves the raw path that the rows of its file record as it was, so
    the rows go on naming a path that is no longer on the disk.  It adds
    and removes no row, changes no row of another file and no download
    attempt, and sends no task. *)
Theorem processing_keeps_path_of_deleted_artifact :
  forall strftime_ymd strftime_stamp fmt_1f config td runs w,
  exists o,
    ProcessorTasks.run_process strftime_ymd strftime_stamp fmt_1f config td runs w = Some o /\
    path_exists (pr_file_path td) (disk (after o)) = false /\
    column raw_file_path (pr_file_id td) (after o) =
      column raw_file_path (pr_file_id td) w /\
    column download_attempt (pr_file_id td) (after o) =
      column download_attempt (pr_file_id td) w /\
    map file_id (file_manifest (after o)) = map file_id (file_manifest w) /\
    (forall fid, fid <> pr_file_id td ->
                 rows_of fid (file_manifest (after o)) = rows_of fid (file_manifest w)) /\
    processing_queue (after o) = processing_queue w /\
    download_queue (after o) = download_queue w.
Proof.
  intros ymd stamp fmt config td runs w.
  destruct (process_file_shape ymd stamp fmt config td (runs 0%nat) w)
    as (r & w' & P & Hbody & Hp & Hcols & Hpq & Hdq & Hgone).
  eexists.
  split; [apply (@run_process_once ymd stamp fmt config td runs w r w' Hbody)|].
  cbn [after].
  split; [exact Hgone|].
  split; [rewrite (patched_column raw_file_path _ P w w' Hp);
          apply map_ext; intros x; apply Hcols|].
  split; [rewrite (patched_column download_attempt _ P w w' Hp);
          apply map_ext; intros x; apply Hcols|].
  split; [exact (patched_ids _ P w w' Hp)|].
  split; [intros fid Hne; exact (patched_other _ fid P w w' Hp Hne)|].
  split; assumption.
Qed.

Section ProcessSuccess.
Import ProcessorDatabase ProcessorTasks Quality Further.

Variables strftime_ymd strftime_stamp : string -> string.
Variable fmt_1f : Q -> string.
Variable config : QualityConfig.

Ltac cols :=
  unfold column;
  cbn [file_manifest set_disk set_metrics set_manifest
       update_processing_status log_processing_metrics];
  rewrite !rows_of_update_rows by reflexivity;
  rewrite !map_map; reflexivity.

(** When the scene is loaded, the quality gate lets it pass and no
    stage raises, the task returns "success" on its one delivery with the
    output path made from the timestamp; the rows of the file are
    COMPLETE with that path, the quality figures of the report and the
    duration; the error message and the skip reason are as they were; the
    six stages are logged in their order; the raw artifact is gone, and
    the output file is on the disk unless it lies below the raw path; no
    task is sent. *)
Theorem processing_success_completes :
  forall td runs w scene,
    loaded (runs 0%nat) = Some scene ->
    skip (assess fmt_1f config scene) = false ->
    stops_at (runs 0%nat) = None ->
    let output_path := output_path_of strftime_ymd strftime_stamp (pr_timestamp td) in
    let report := assess fmt_1f config scene in
    let rows := rows_of (pr_file_id td) (file_manifest w) in
    exists o,
      run_process strftime_ymd strftime_stamp fmt_1f config td runs w = Some o /\
      final o = Succeeded (Processed output_path (total_seconds (runs 0%nat))
                                     (Quality.quality_score report)) /\
      deliveries o = 1%nat /\
      column status (pr_file_id td) (after o) = map (fun _ => COMPLETE) rows /\
      column output_file_path (pr_file_id td) (after o) =
        map (fun _ => Some output_path) rows /\
      column Store.quality_score (pr_file_id td) (after o) =
        map (fun _ => Some (Quality.quality_score report)) rows /\
      column Store.missing_data_pct (pr_file_id td) (after o) =
        map (fun _ => Some (Quality.missing_data_pct report)) rows /\
      column Store.saturation_pct (pr_file_id td) (after o) =
        map (fun _ => Some (Quality.saturation_pct report)) rows /\
      column processing_duration_sec (pr_file_id td) (after o) =
        map (fun _ => Some (total_seconds (runs 0%nat))) rows /\
      column error_message (pr_file_id td) (after o) =
        column error_message (pr_file_id td) w /\
      column Store.skip_reason (pr_file_id td) (after o) =
        column Store.skip_reason (pr_file_id td) w /\
      histories (pr_file_id td) (after o) =
        extend [PROCESSING; COMPLETE] (histories (pr_file_id td) w) /\
      map metric_stage (processing_metrics (after o)) =
        map metric_stage (processing_metrics w) ++ stages_of_success /\
      Forall (fun m => metric_ok m = true)
             (skipn (List.length (processing_metrics w)) (processing_metrics (after o))) /\
      path_exists (pr_file_path td) (disk (after o)) = false /\
      (under (pr_file_path td) output_path = false ->
       path_exists output_path (disk (after o)) = true) /\
      processing_queue (after o) = processing_queue w /\
      download_queue (after o) = download_queue w.
Proof.
  intros td runs w scene Hloaded Hskip Hstops output_path report rows.
  pose proof (process_file_completes strftime_ymd strftime_stamp fmt_1f config
                td (runs 0%nat) w scene Hloaded Hskip Hstops) as Hbody.
  cbv zeta in Hbody. fold output_path in Hbody. fold report in Hbody.
  eexists.
  split; [apply (@run_process_once strftime_ymd strftime_stamp fmt_1f config
                   td runs w _ _ Hbody)|].
  cbn [final deliveries after].
  split; [reflexivity|]. split; [reflexivity|].
  split; [cols|]. split; [cols|]. split; [cols|]. split; [cols|]. split; [cols|].
  split; [cols|]. split; [cols|]. split; [cols|].
  split; [hist|].
  split.
  { cbn [processing_metrics set_disk set_metrics set_manifest
         update_processing_status log_processing_metrics].
    rewrite !map_app. cbn [map metric_stage]. rewrite <- !app_assoc. reflexivity. }
  split.
  { cbn [processing_metrics set_disk set_metrics set_manifest
         update_processing_status log_processing_metrics].
    rewrite <- !app_assoc. rewrite skipn_app, skipn_all, Nat.sub_diag. simpl.
    repeat constructor. }
  split; [apply path_exists_cleanup|].
  split.
  { intros Hout. cbn [disk set_disk].
    rewrite (path_exists_cleanup_other _ _ _ Hout).
    cbn [disk set_disk set_metrics set_manifest
         update_processing_status log_processing_metrics].
    match goal with
    | |- path_exists _ (if path_exists output_path ?d then _ else _) = true =>
        destruct (path_exists output_path d) eqn:E; [exact E|]
    end.
    unfold path_exists. rewrite existsb_app. simpl. rewrite String.eqb_refl.
    now rewrite orb_true_r. }
  split; reflexivity.
Qed.

(** When an exception is raised inside the quality assessment, the
    report keeps the score it started with, 100, and no saturation; the
    task that loaded the scene writes that score to the rows of the file,
    which it marks SKIPPED. *)
Theorem quality_check_error_scores_full :
  forall scene msg,
    assess_raises config scene msg ->
    Quality.quality_score (assess fmt_1f config scene) = 100%Q /\
    Quality.saturation_pct (assess fmt_1f config scene) = 0%Q /\
    forall td runs w,
      loaded (runs 0%nat) = Some scene ->
      exists o,
        run_process strftime_ymd strftime_stamp fmt_1f config td runs w = Some o /\
        column status (pr_file_id td) (after o) =
          map (fun _ => SKIPPED) (rows_of (pr_file_id td) (file_manifest w)) /\
        column Store.quality_score (pr_file_id td) (after o) =
          map (fun _ => Some 100%Q) (rows_of (pr_file_id td) (file_manifest w)).
Proof.
  intros scene msg Hraises.
  destruct (@assess_raises_skips fmt_1f config scene msg Hraises) as [Hskip _].
  assert (Hscore : Quality.quality_score (assess fmt_1f config scene) = 100%Q /\
                   Quality.saturation_pct (assess fmt_1f config scene) = 0%Q).
  { unfold assess, assess_saturation, check_error.
    destruct Hraises as [m Hhrv | missing m Hhrv Hmiss Hsza
                        | missing m Hhrv Hmiss Hsza Hsat].
    - rewrite Hhrv. split; reflexivity.
    - rewrite Hhrv, Hmiss, Hsza. split; reflexivity.
    - rewrite Hhrv, Hmiss.
      destruct (solar_zenith_angle scene) as [[sza|m']|]; [|contradiction|].
      + rewrite Hsza, Hsat. split; reflexivity.
      + rewrite Hsat. split; reflexivity. }
  destruct Hscore as [Hscore Hsat].
  split; [exact Hscore|]. split; [exact Hsat|].
  intros td runs w Hloaded.
  pose proof (@process_file_skips strftime_ymd strftime_stamp fmt_1f config
                td (runs 0%nat) w scene Hloaded Hskip) as Hbody.
  rewrite Hscore in Hbody.
  eexists.
  split; [apply (@run_process_once strftime_ymd strftime_stamp fmt_1f config
                   td runs w _ _ Hbody)|].
  cbn [after]. split; cols.
Qed.

End ProcessSuccess.

Lemma processing_success_completes_witness :
  exists o,
    ProcessorTasks.run_process Sample.ymd Sample.stamp Sample.fmt Sample.quality_defaults
      Sample.process_x1 (fun _ => Sample.transform_of Sample.day_scene None)
      Sample.downloaded_x1 = Some o /\
    column status "X1" (after o) = [COMPLETE] /\
    path_exists "/processed/2024/01/01/20240101_120000_HRV_Paris.nc" (disk (after o)) = true.
Proof.
  destruct (processing_success_completes Sample.ymd Sample.stamp Sample.fmt
              Sample.quality_defaults Sample.process_x1
              (fun _ => Sample.transform_of Sample.day_scene None)
              Sample.downloaded_x1 Sample.day_scene eq_refl eq_refl eq_refl)
    as (o & Hrun & _ & _ & Hst & _ & _ & _ & _ & _ & _ & _ & _ & _ & _ & _ & Hout & _).
  exists o. split; [exact Hrun|]. split; [exact Hst|].
  apply Hout. reflexivity.
Defined.

Lemma quality_check_error_scores_full_witness :
  Quality.quality_score (Quality.assess Sample.fmt Sample.quality_defaults
                           Sample.no_hrv_scene) = 100%Q.
Proof.
  destruct (quality_check_error_scores_full Sample.ymd Sample.stamp Sample.fmt
              Sample.quality_defaults Sample.no_hrv_scene "'HRV'"
              ltac:(apply raises_at_hrv; reflexivity))
    as [Hscore _].
  exact Hscore.
Defined.

(* ===================================================================== *)
(** ** Discovery: what is sent and what is not                            *)
(* ===================================================================== *)

Section Enqueue.
Import PollerDatabase Poller.

Lemma enqueue_downloads_from_sent c file_list :
  forall i w,
  exists sent,
    Further.subsequence sent file_list /\
    download_queue (snd (enqueue_downloads_from c i file_list w)) =
      download_queue w ++ map task_of sent /\
    fst (enqueue_downloads_from c i file_list w) = Z.of_nat (List.length sent) /\
    forall m, In m sent ->
      In m file_list /\
      has_row (meta_file_id m) (file_manifest w) = false /\
      has_row (meta_file_id m)
              (file_manifest (snd (enqueue_downloads_from c i file_list w))) = true.
Proof.
  induction file_list as [|a rest IH]; intros i w.
  - exists []. simpl. rewrite app_nil_r.
    split; [constructor|]. repeat split; try reflexivity; contradiction.
  - cbn [enqueue_downloads_from]. unfold log_new_file.
    destruct (insert_error c i).
    { destruct (IH (S i) w) as (sent & Hsub & Hq & Hn & Hin).
      exists sent. split; [now constructor|]. split; [exact Hq|]. split; [exact Hn|].
      intros m Hm. destruct (Hin m Hm) as (H1 & H2 & H3).
      split; [now right|]. split; assumption. }
    destruct (has_row (meta_file_id a) (file_manifest w)) eqn:Hrow.
    { destruct (IH (S i) w) as (sent & Hsub & Hq & Hn & Hin).
      exists sent. split; [now constructor|]. split; [exact Hq|]. split; [exact Hn|].
      intros m Hm. destruct (Hin m Hm) as (H1 & H2 & H3).
      split; [now right|]. split; assumption. }
    set (w1 := set_manifest
                 (file_manifest w ++
                    [new_record (meta_file_id a) (meta_timestamp a) (meta_satellite a)
                                (meta_product_type a) (meta_size_mb a)]) w).
    assert (Hback : forall fid, has_row fid (file_manifest w1) = false ->
                                has_row fid (file_manifest w) = false).
    { intros fid H. unfold w1 in H. cbn [file_manifest set_manifest] in H.
      rewrite has_row_app in H. now apply orb_false_iff in H. }
    destruct (broker_error c i).
    { destruct (IH (S i) w1) as (sent & Hsub & Hq & Hn & Hin).
      exists sent. split; [now constructor|]. split; [exact Hq|]. split; [exact Hn|].
      intros m Hm. destruct (Hin m Hm) as (H1 & H2 & H3).
      split; [now right|]. split; [now apply Hback | exact H3]. }
    destruct (IH (S i) (send_download (task_of a) w1)) as (sent & Hsub & Hq & Hn & Hin).
    pose proof (enqueue_downloads_from_grows c rest (S i) (send_download (task_of a) w1))
      as Hgrows.
    destruct (enqueue_downloads_from c (S i) rest (send_download (task_of a) w1))
      as [n w2].
    cbn [fst snd] in *.
    exists (a :: sent). split; [now constructor|]. split.
    { rewrite Hq. cbn [download_queue send_download set_download_queue map].
      now rewrite <- app_assoc. }
    split; [rewrite Hn; cbn [List.length]; lia|].
    intros m [<- | Hm].
    + split; [now left|]. split; [exact Hrow|].
      apply (grows_has_row _ Hgrows).
      cbn [file_manifest send_download set_download_queue w1 set_manifest].
      unfold w1. cbn [file_manifest set_manifest].
      rewrite has_row_app. simpl. rewrite String.eqb_refl. apply orb_true_r.
    + destruct (Hin m Hm) as (H1 & H2 & H3).
      split; [now right|]. split; [now apply Hback | exact H3].
Qed.

End Enqueue.

(** The number that [enqueue_downloads] returns is the number of tasks
    it sent; the tasks sent are those of a selection of the files of the
    list, in the order of the list, and go to the end of the download
    queue in that order; each is for a file that had no row before the
    call and has one after it. *)
Theorem enqueue_count_is_tasks_sent :
  forall c file_list w,
  exists sent,
    Further.subsequence sent file_list /\
    download_queue (snd (Poller.enqueue_downloads c file_list w)) =
      download_queue w ++ map Poller.task_of sent /\
    fst (Poller.enqueue_downloads c file_list w) = Z.of_nat (List.length sent) /\
    forall m, In m sent ->
      In m file_list /\
      has_row (Poller.meta_file_id m) (file_manifest w) = false /\
      has_row (Poller.meta_file_id m)
              (file_manifest (snd (Poller.enqueue_downloads c file_list w))) = true.
Proof.
  intros c file_list w. apply enqueue_downloads_from_sent.
Qed.

(** When the insert of a new file goes through and the send of its task
    fails, the call counts nothing, the file has its QUEUED row and no
    task; and no later cycle, whatever it finds, sends a task for the
    file or touches its row. *)
Theorem unsent_file_is_never_sent :
  forall cfg c m w,
    has_row (Poller.meta_file_id m) (file_manifest w) = false ->
    Poller.insert_error c 0%nat = false ->
    Poller.broker_error c 0%nat = true ->
    let fid := Poller.meta_file_id m in
    let row := PollerDatabase.new_record fid (Poller.meta_timestamp m)
                 (Poller.meta_satellite m) (Poller.meta_product_type m)
                 (Poller.meta_size_mb m) in
    let w1 := snd (Poller.enqueue_downloads c [m] w) in
    fst (Poller.enqueue_downloads c [m] w) = 0 /\
    download_queue w1 = download_queue w /\
    forall cs,
      rows_of fid (file_manifest (Poller.run_cycles cfg cs w1)) = [row] /\
      tasks_of fid (Poller.run_cycles cfg cs w1) = tasks_of fid w.
Proof.
  intros cfg c m w Hrow Hins Hbroker fid row w1.
  unfold w1, Poller.enqueue_downloads. cbn [Poller.enqueue_downloads_from].
  unfold PollerDatabase.log_new_file. rewrite Hins, Hrow, Hbroker. cbn [fst snd].
  split; [reflexivity|]. split; [reflexivity|].
  intros cs.
  set (w2 := set_manifest (file_manifest w ++ [row]) w).
  assert (Hhas : has_row fid (file_manifest w2) = true).
  { unfold w2. cbn [file_manifest set_manifest]. rewrite has_row_app. simpl.
    unfold fid. rewrite String.eqb_refl. apply orb_true_r. }
  destruct (grows_keeps fid (run_cycles_grows cfg cs w2) Hhas) as [Hrows Htasks].
  fold fid. fold row. fold w2.
  rewrite Hrows, Htasks. split.
  - pose proof (rows_of_absent _ _ Hrow) as Hnil. unfold rows_of in Hnil.
    fold fid in Hnil.
    unfold w2. cbn [file_manifest set_manifest]. unfold rows_of.
    rewrite filter_app, Hnil. simpl. unfold fid at 1.
    now rewrite String.eqb_refl.
  - reflexivity.
Qed.

Lemma unsent_file_is_never_sent_witness :
  tasks_of "X1"
    (Poller.run_cycles Sample.cfg [Sample.finds_x1; Sample.finds_x1]
       (snd (Poller.enqueue_downloads Cases.broker_down [Sample.x1] empty_world))) = [].
Proof.
  destruct (unsent_file_is_never_sent Sample.cfg Cases.broker_down Sample.x1 empty_world
              eq_refl eq_refl eq_refl) as (_ & _ & Hlater).
  exact (proj2 (Hlater [Sample.finds_x1; Sample.finds_x1])).
Defined.

(** [get_file_info] finds no record exactly when [is_file_processed]
    says no.  After the insert of a file that had no row it returns the
    QUEUED record with the inserted fields; a record that was there is
    what it returns after any insert for the same id. *)
Theorem get_file_info_after_insert :
  forall fid ts sat ptype size w,
    (Further.get_file_info fid w = None <->
     PollerDatabase.is_file_processed fid w = false) /\
    (PollerDatabase.is_file_processed fid w = false ->
     Further.get_file_info fid
       (snd (PollerDatabase.log_new_file false fid ts sat ptype size w)) =
       Some (PollerDatabase.new_record fid ts sat ptype size)) /\
    (forall r e,
        Further.get_file_info fid w = Some r ->
        Further.get_file_info fid
          (snd (PollerDatabase.log_new_file e fid ts sat ptype size w)) = Some r).
Proof.
  intros fid ts sat ptype size w.
  assert (Hnone : Further.get_file_info fid w = None <->
                  PollerDatabase.is_file_processed fid w = false).
  { unfold Further.get_file_info, PollerDatabase.is_file_processed, rows_of, has_row.
    induction (file_manifest w) as [|r m IH]; simpl; [tauto|].
    destruct (String.eqb (file_id r) fid); simpl; [split; discriminate | exact IH]. }
  split; [exact Hnone|]. split.
  - intros Habs. unfold PollerDatabase.is_file_processed in Habs.
    unfold PollerDatabase.log_new_file. rewrite Habs. cbn [snd].
    unfold Further.get_file_info. cbn [file_manifest set_manifest].
    unfold rows_of. rewrite filter_app. fold (rows_of fid (file_manifest w)).
    rewrite (rows_of_absent _ _ Habs). simpl. now rewrite String.eqb_refl.
  - intros r e Hr.
    assert (Hhas : has_row fid (file_manifest w) = true).
    { destruct (has_row fid (file_manifest w)) eqn:E; [reflexivity|].
      apply Hnone in E. congruence. }
    now rewrite (log_new_file_existing e fid ts sat ptype size w Hhas).
Qed.

(* ===================================================================== *)
(** ** The monitor of the downloader                                      *)
(* ===================================================================== *)

(** [/stats] of the downloader never reports statistics: the class
    [Database] of the downloader has no method [get_queue_stats], so the
    endpoint answers with an error whatever the workers and the manifest
    say; when the two inspections return, the error is the missing
    attribute. *)
Theorem downloader_stats_always_fails :
  forall i queue_stats,
    (exists msg, DownloaderMonitor.get_stats i queue_stats =
                 DownloaderMonitor.StatsError msg) /\
    (forall active reserved,
        DownloaderMonitor.inspect_active i = DownloaderMonitor.Returns active ->
        DownloaderMonitor.inspect_reserved i = DownloaderMonitor.Returns reserved ->
        DownloaderMonitor.get_stats i queue_stats =
          DownloaderMonitor.StatsError
            "'Database' object has no attribute 'get_queue_stats'").
Proof.
  intros i qs. unfold DownloaderMonitor.get_stats. split.
  - destruct (DownloaderMonitor.inspect_active i) as [a|m]; [|eauto].
    destruct (DownloaderMonitor.inspect_reserved i) as [r|m]; [|eauto].
    eexists. reflexivity.
  - intros a r Ha Hr. now rewrite Ha, Hr.
Qed.

(** [/health] of the downloader answers 200 exactly when the statistics
    inspection returned at least one worker and the inspection of the
    active tasks did not raise; every other answer is 503. *)
Theorem downloader_health_needs_a_worker :
  forall i,
    (DownloaderMonitor.status_code (DownloaderMonitor.health_check i) = 200 <->
     exists w ws active,
       DownloaderMonitor.inspect_stats i = DownloaderMonitor.Returns (Some (w :: ws)) /\
       DownloaderMonitor.inspect_active i = DownloaderMonitor.Returns active) /\
    (DownloaderMonitor.status_code (DownloaderMonitor.health_check i) = 200 \/
     DownloaderMonitor.status_code (DownloaderMonitor.health_check i) = 503).
Proof.
  intros i. unfold DownloaderMonitor.health_check.
  destruct (DownloaderMonitor.inspect_stats i) as [stats|m].
  2:{ split; [|now right]. split; [discriminate|]. intros (w & ws & a & H & _).
      discriminate. }
  destruct (DownloaderMonitor.inspect_active i) as [active|m].
  2:{ split; [|now right]. split; [discriminate|]. intros (w & ws & a & _ & H).
      discriminate. }
  cbv zeta. cbn [DownloaderMonitor.status_code].
  destruct stats as [[|w ws]|].
  - split; [|now right]. split; [discriminate|].
    intros (w & ws & a & H & _). discriminate.
  - assert (Hpos : (0 <? DownloaderMonitor.count_workers (Some (w :: ws))) = true).
    { apply Z.ltb_lt. unfold DownloaderMonitor.count_workers. cbn [List.length]. lia. }
    rewrite Hpos. split; [|now left]. split; [|reflexivity].
    intros _. now exists w, ws, active.
  - split; [|now right]. split; [discriminate|].
    intros (w & ws & a & H & _). discriminate.
Qed.

(* ===================================================================== *)
(** ** Two files with one timestamp                                       *)
(* ===================================================================== *)

(** A chain whose every run fetches a [.nat] file and sends the
    processing task ends with the file downloaded. *)
Lemma download_chain_fetched ymd stamp delays td runs main_file w :
  (forall n, Further.handed_over (runs n) = Some main_file) ->
  exists o P,
    DownloaderTasks.run_download ymd stamp delays td runs w = Some o /\
    Further.patched (dl_file_id td) P w (after o) /\
    (forall r, status (P r) = DOWNLOADED /\
               raw_file_path (P r) =
                 Some (DownloaderTasks.output_dir_of ymd stamp (dl_timestamp td))) /\
    processing_queue (after o) =
      processing_queue w ++
        [Further.process_task_of (DownloaderTasks.output_dir_of ymd stamp (dl_timestamp td))
           main_file td].
Proof.
  intros Hfetch.
  destruct (@run_download_ends ymd stamp delays td runs w) as [o Hrun].
  destruct (deliver_download_shape ymd stamp delays td runs _ 0%nat w o
              ltac:(unfold DownloaderTasks.max_retries; lia) Hrun)
    as (P & Hp & _ & _ & _ & _ & Hend).
  exists o, P. split; [exact Hrun|]. split; [exact Hp|].
  destruct (final o) as [[path n d | err attempts] | e].
  - destruct Hend as (_ & Hst & main' & Hmain & Hq).
    rewrite Hfetch in Hmain. inversion Hmain; subst main'. split; assumption.
  - destruct Hend as (_ & Hmain & _). rewrite Hfetch in Hmain. discriminate.
  - destruct Hend as (_ & Hmain & _). rewrite Hfetch in Hmain. discriminate.
Qed.

(** The raw directory is made from the timestamp alone.  When two files
    with the same timestamp are both downloaded, their processing tasks
    name the same directory; once the task of the first has run, whatever
    its result, the directory is gone while the second file, which has
    its rows, is still DOWNLOADED in each of them and records the
    directory as its raw path. *)
Theorem same_timestamp_shares_raw_directory :
  forall strftime_ymd strftime_stamp retry_delay_seconds fmt_1f config
         td1 td2 runs1 runs2 main1 main2 transforms w,
    dl_timestamp td1 = dl_timestamp td2 ->
    dl_file_id td1 <> dl_file_id td2 ->
    has_row (dl_file_id td2) (file_manifest w) = true ->
    (forall n, Further.handed_over (runs1 n) = Some main1) ->
    (forall n, Further.handed_over (runs2 n) = Some main2) ->
    let dir := DownloaderTasks.output_dir_of strftime_ymd strftime_stamp (dl_timestamp td1) in
    exists o1 o2 o3,
      DownloaderTasks.run_download strftime_ymd strftime_stamp retry_delay_seconds
        td1 runs1 w = Some o1 /\
      DownloaderTasks.run_download strftime_ymd strftime_stamp retry_delay_seconds
        td2 runs2 (after o1) = Some o2 /\
      processing_queue (after o2) =
        processing_queue w ++
          [Further.process_task_of dir main1 td1; Further.process_task_of dir main2 td2] /\
      ProcessorTasks.run_process strftime_ymd strftime_stamp fmt_1f config
        (Further.process_task_of dir main1 td1) transforms (after o2) = Some o3 /\
      path_exists dir (disk (after o3)) = false /\
      rows_of (dl_file_id td2) (file_manifest (after o3)) <> [] /\
      column status (dl_file_id td2) (after o3) =
        map (fun _ => DOWNLOADED) (rows_of (dl_file_id td2) (file_manifest w)) /\
      column raw_file_path (dl_file_id td2) (after o3) =
        map (fun _ => Some dir) (rows_of (dl_file_id td2) (file_manifest w)) /\
      Forall (fun r => status r = DOWNLOADED /\ raw_file_path r = Some dir)
             (rows_of (dl_file_id td2) (file_manifest (after o3))).
Proof.
  intros ymd stamp delays fmt config td1 td2 runs1 runs2 main1 main2 transforms w
         Hts Hne Hrow Hf1 Hf2 dir.
  destruct (download_chain_fetched ymd stamp delays td1 runs1 main1 w Hf1)
    as (o1 & P1 & Hrun1 & Hp1 & _ & Hq1).
  destruct (download_chain_fetched ymd stamp delays td2 runs2 main2 (after o1) Hf2)
    as (o2 & P2 & Hrun2 & Hp2 & Hst2 & Hq2).
  rewrite <- Hts in Hst2, Hq2. fold dir in Hq1, Hq2, Hst2.
  set (task := Further.process_task_of dir main1 td1).
  destruct (process_file_shape ymd stamp fmt config task (transforms 0%nat) (after o2))
    as (r & w3 & P3 & Hbody & Hp3 & _ & _ & _ & Hgone).
  exists o1, o2, {| final := Succeeded r; after := w3; deliveries := 1 |}.
  split; [exact Hrun1|]. split; [exact Hrun2|].
  split; [rewrite Hq2, Hq1, <- app_assoc; reflexivity|].
  split; [apply (@run_process_once ymd stamp fmt config task transforms (after o2)
                   r w3 Hbody)|].
  cbn [after].
  split; [exact Hgone|].
  assert (Hrows3 : rows_of (dl_file_id td2) (file_manifest w3) =
                   rows_of (dl_file_id td2) (file_manifest (after o2))).
  { apply (patched_other _ (dl_file_id td2) P3 (after o2) w3 Hp3).
    intros Heq. apply Hne. symmetry. exact Heq. }
  assert (Hrows1 : rows_of (dl_file_id td2) (file_manifest (after o1)) =
                   rows_of (dl_file_id td2) (file_manifest w)).
  { apply (patched_other _ (dl_file_id td2) P1 w (after o1) Hp1).
    intros Heq. apply Hne. symmetry. exact Heq. }
  assert (Hrows2 : rows_of (dl_file_id td2) (file_manifest (after o2)) =
                   map P2 (rows_of (dl_file_id td2) (file_manifest w))).
  { destruct Hp2 as [Hm2 Hid2]. rewrite Hm2, rows_of_update_rows by exact Hid2.
    now rewrite Hrows1. }
  assert (Hsome : rows_of (dl_file_id td2) (file_manifest w) <> []).
  { apply has_row_In in Hrow.
    pose proof (select_by_key_In file_id (dl_file_id td2) (file_manifest w) Hrow) as Hlen.
    unfold rows_of. intros Hnil. rewrite Hnil in Hlen. simpl in Hlen. lia. }
  unfold column. rewrite Hrows3, Hrows2.
  split.
  { intros Hnil. apply Hsome. now apply map_eq_nil in Hnil. }
  rewrite !map_map.
  split; [apply map_ext; intros x; apply Hst2|].
  split; [apply map_ext; intros x; apply Hst2|].
  apply Forall_map. apply Forall_forall. intros x _. apply Hst2.
Qed.

(** [X1] and [X2] have the same timestamp and are both discovered and
    downloaded; after the task of [X1] has run, [X2] is DOWNLOADED with a
    raw path that is not on the disk. *)
Lemma same_timestamp_shares_raw_directory_witness :
  exists o1 o2 o3,
    DownloaderTasks.run_download Sample.ymd Sample.stamp None Sample.download_x1
      (fun _ => Sample.arrives) Cases.discovered_both = Some o1 /\
    DownloaderTasks.run_download Sample.ymd Sample.stamp None Cases.download_x2
      (fun _ => Sample.arrives) (after o1) = Some o2 /\
    ProcessorTasks.run_process Sample.ymd Sample.stamp Sample.fmt Sample.quality_defaults
      (Further.process_task_of Sample.raw_dir Sample.partial_file Sample.download_x1)
      (fun _ => Sample.transform_of Sample.day_scene None) (after o2) = Some o3 /\
    path_exists Sample.raw_dir (disk (after o3)) = false /\
    column status "X2" (after o3) = [DOWNLOADED] /\
    column raw_file_path "X2" (after o3) = [Some Sample.raw_dir].
Proof.
  destruct (same_timestamp_shares_raw_directory Sample.ymd Sample.stamp None
              Sample.fmt Sample.quality_defaults
              Sample.download_x1 Cases.download_x2
              (fun _ => Sample.arrives) (fun _ => Sample.arrives)
              Sample.partial_file Sample.partial_file
              (fun _ => Sample.transform_of Sample.day_scene None)
              Cases.discovered_both
              eq_refl ltac:(discriminate) eq_refl ltac:(intros n; reflexivity)
              ltac:(intros n; reflexivity))
    as (o1 & o2 & o3 & H1 & H2 & _ & H3 & Hgone & _ & Hst & Hraw & _).
  exists o1, o2, o3.
  split; [exact H1|]. split; [exact H2|]. split; [exact H3|]. split; [exact Hgone|].
  split; [exact Hst | exact Hraw].
Defined.
